(** * Replication-group reconciler of csm-replication

    A shallow embedding of
    [controllers/replication-controller/dellcsireplicationgroup_controller.go]:
    the [Reconcile] pass of the replication-group controller, the action
    processor [processLastActionResult] and the snapshot materializer
    [processSnapshotEvent], followed by the properties of the pass.

    The controller talks to two object stores (the local cluster and a remote
    cluster), to an event recorder and to a logger.  Everything that leaves
    the controller is an entry of a trace; every answer that comes back is
    chosen by an arbitrary handler.  The theorems therefore hold for every
    behaviour of the two clusters, including transient failures. *)

From Stdlib Require Import ZArith Ascii String List.
From stdpp Require Import base option strings gmap list pretty.

Local Open Scope string_scope.
Local Open Scope Z_scope.

(** ** Strings: the functions of Go's [strings] package the controller uses *)

(** [strings.HasPrefix s p]. *)
Fixpoint HasPrefix (s p : string) : bool :=
  match p with
  | EmptyString => true
  | String c p' =>
      match s with
      | EmptyString => false
      | String d s' => if Ascii.eqb c d then HasPrefix s' p' else false
      end
  end.

(** [strings.TrimPrefix s p]: [s] without the leading [p], or [s] itself. *)
Fixpoint dropPrefix (s p : string) : option string :=
  match p with
  | EmptyString => Some s
  | String c p' =>
      match s with
      | EmptyString => None
      | String d s' => if Ascii.eqb c d then dropPrefix s' p' else None
      end
  end.

Definition TrimPrefix (s p : string) : string :=
  match dropPrefix s p with
  | Some rest => rest
  | None => s
  end.

(** [strings.Contains s sub]. *)
Fixpoint Contains (s sub : string) : bool :=
  if HasPrefix s sub then true
  else match s with
       | EmptyString => false
       | String _ s' => Contains s' sub
       end.

(** [strings.Split(s, sep)[0]] for a one-byte separator: the part of [s]
    before the first separator, the whole of [s] when there is none. *)
Fixpoint SplitFirst (s : string) (sep : ascii) : string :=
  match s with
  | EmptyString => EmptyString
  | String c s' => if Ascii.eqb c sep then EmptyString else String c (SplitFirst s' sep)
  end.

(** [strings.ToLower] on the letters A to Z.  Go also folds letters outside
    ASCII; no such letter folds to one of the letters of a word the
    controller compares with, so the comparison results are the same. *)
Definition lowerAscii (c : ascii) : ascii :=
  let n := nat_of_ascii c in
  if (Nat.leb 65 n && Nat.leb n 90)%bool then ascii_of_nat (n + 32) else c.

Fixpoint ToLower (s : string) : string :=
  match s with
  | EmptyString => EmptyString
  | String c s' => String (lowerAscii c) (ToLower s')
  end.

(** [strconv.FormatInt(n, 10)]. *)
Definition FormatInt (n : Z) : string := pretty n.

(** ** Objects *)

(** Go's [error]: what the controller observes of one is whether
    [errors.IsNotFound] holds and the text of [Error()]. *)
Record error := { IsNotFound : bool; Error : string }.

(** [fmt.Errorf] builds a fresh error, never a not-found one. *)
Definition Errorf (msg : string) : error := {| IsNotFound := false; Error := msg |}.

(** [client.IgnoreNotFound]. *)
Definition IgnoreNotFound (e : error) : option error :=
  if IsNotFound e then None else Some e.

(** [metav1.Time]: an instant, counted from Go's zero instant. *)
Definition Time := Z.

(** [IsZero] on a pointer to a [metav1.Time]: a nil pointer or the zero
    instant. *)
Definition IsZero (t : option Time) : bool :=
  match t with
  | None => true
  | Some z => Z.eqb z 0
  end.

(** A Go [map[string]string] that may be nil. *)
Abbreviation strmap := (option (gmap string string)).

(** [m[k]] on a possibly nil map: the zero value when the key is absent. *)
Definition mapGet (m : strmap) (k : string) : string :=
  match m with
  | Some g => default EmptyString (g !! k)
  | None => EmptyString
  end.

(** [_, ok := m[k]]. *)
Definition mapHas (m : strmap) (k : string) : bool :=
  match m with
  | Some g => bool_decide (is_Some (g !! k))
  | None => false
  end.

(** Modelled from the spec: the API types of the replication group are
    declared in [api/v1], which is not part of the sources at hand.  The
    records keep the fields the controller reads or writes (section 3 of
    the specification: identity, spec, status with its [LastAction],
    annotations, labels, finalizers, deletion timestamp). *)
Record LastAction := {
  Condition : string;
  (** Go ranges over this map in an unspecified order: the list is the
      order in which one particular run visits the pairs. *)
  ActionAttributes : list (string * string);
  ErrorMessage : string;
  ActionTime : option Time
}.

Record DellCSIReplicationGroupSpec := {
  DriverName : string;
  Action : string;
  RemoteClusterID : string;
  ProtectionGroupID : string;
  ProtectionGroupAttributes : gmap string string;
  RemoteProtectionGroupID : string;
  RemoteProtectionGroupAttributes : gmap string string
}.

Record DellCSIReplicationGroupStatus := {
  Conditions : list LastAction;
  StatusLastAction : LastAction
}.

Record DellCSIReplicationGroup := {
  Name : string;
  Annotations : strmap;
  Labels : strmap;
  Finalizers : list string;
  DeletionTimestamp : option Time;
  Spec : DellCSIReplicationGroupSpec;
  Status : DellCSIReplicationGroupStatus
}.

Definition withName (g : DellCSIReplicationGroup) (n : string) :=
  {| Name := n; Annotations := Annotations g; Labels := Labels g;
     Finalizers := Finalizers g; DeletionTimestamp := DeletionTimestamp g;
     Spec := Spec g; Status := Status g |}.

Definition withAnnotations (g : DellCSIReplicationGroup) (a : strmap) :=
  {| Name := Name g; Annotations := a; Labels := Labels g;
     Finalizers := Finalizers g; DeletionTimestamp := DeletionTimestamp g;
     Spec := Spec g; Status := Status g |}.

Definition withFinalizers (g : DellCSIReplicationGroup) (f : list string) :=
  {| Name := Name g; Annotations := Annotations g; Labels := Labels g;
     Finalizers := f; DeletionTimestamp := DeletionTimestamp g;
     Spec := Spec g; Status := Status g |}.

(** The Kubernetes objects of the snapshot workflow, with the fields the
    constructors at the end of the source file fill in. *)
Record Namespace := { NamespaceName : string }.

Record ObjectReference := {
  RefKind : string;
  RefAPIVersion : string;
  RefName : string;
  RefNamespace : string
}.

Record VolumeSnapshotClass := {
  ClassName : string;
  ClassDriver : string;
  ClassDeletionPolicy : string
}.

Record VolumeSnapshotContent := {
  ContentName : string;
  VolumeSnapshotRef : ObjectReference;
  SnapshotHandle : string;
  ContentClassName : string;
  ContentDeletionPolicy : string;
  ContentDriver : string
}.

Record VolumeSnapshot := {
  SnapName : string;
  SnapNamespace : string;
  SourceContentName : string;
  SnapClassName : string
}.

Record TypedLocalObjectReference := {
  DataAPIGroup : string;
  DataKind : string;
  DataName : string
}.

Record PersistentVolumeClaimSpec := {
  StorageClassName : option string;
  AccessModes : list string;
  Resources : gmap string string;
  VolumeName : string;
  DataSource : option TypedLocalObjectReference
}.

Record PersistentVolumeClaim := {
  ClaimName : string;
  ClaimNamespace : string;
  ClaimSpec : PersistentVolumeClaimSpec
}.

(** The controller reads [pv.Spec.PersistentVolumeSource.CSI.VolumeHandle]
    without a nil check, so the volumes it is given are CSI volumes. *)
Record PersistentVolume := {
  VolumeObjName : string;
  VolumeHandle : string
}.

Record StorageClass := {
  StorageClassObjName : string;
  Parameters : strmap
}.

(** [ctrl.Result]; [RequeueAfter] is a [time.Duration], in nanoseconds. *)
Record Result := { Requeue : bool; RequeueAfter : Z }.

Definition noRequeue : Result := {| Requeue := false; RequeueAfter := 0 |}.
Definition Millisecond : Z := 1000000.

(** Modelled from the spec: [csireplicator.ActionAnnotation] is declared in
    the csi-replicator package, which is not part of the sources at hand; the
    materializer reads one field of it, the target namespace of the snapshot
    (section 4.4, step 1). *)
Record ActionAnnotation := { SnapshotNamespace : string }.

(** ** Constants of the [controllers] package

    Modelled from the spec: the annotation and label keys, the finalizer
    token and the sentinel values are declared in [controllers/constants.go]
    and in a sibling file of the package, which are not part of the sources
    at hand.  Section 3 of the specification names them; each key is
    modelled by a distinct string carrying its Go identifier, and the three
    values the specification spells out ("self", "retain", "delete") and the
    "replicated" prefix are as the specification gives them. *)
Module controller.
Definition RemoteReplicationGroup := "RemoteReplicationGroup".
Definition RGSyncComplete := "RGSyncComplete".
Definition RemoteRGRetentionPolicy := "RemoteRGRetentionPolicy".
Definition DeletionRequested := "DeletionRequested".
Definition ActionProcessedTime := "ActionProcessedTime".
Definition RemoteClusterID := "RemoteClusterID".
Definition ContextPrefix := "ContextPrefix".
Definition DriverName := "DriverName".
Definition SnapshotClass := "SnapshotClass".
Definition ReplicationGroup := "ReplicationGroup".
Definition StorageClassReplicationParam := "StorageClassReplicationParam".
Definition RGFinalizer := "RGFinalizer".
Definition Self := "self".
Definition RemoteRetentionValueRetain := "retain".
Definition RemoteRetentionValueDelete := "delete".
End controller.

Module csireplicator.
Definition Action := "Action".
End csireplicator.

Definition replicated := "replicated".

Definition eventTypeNormal := "Normal".
Definition eventTypeWarning := "Warning".
Definition eventReasonUpdated := "Updated".

(** Modelled from the spec: [controller.AddAnnotation],
    [controller.AddFinalizerIfNotExist] and
    [controller.RemoveFinalizerIfExists] live in the [controllers] package,
    not in the sources at hand.  Section 4.1 describes their use: an
    annotation is set (on a nil map too), the finalizer is added when it is
    missing and removed when it is there, and the boolean tells whether the
    object changed. *)
Definition AddAnnotation (g : DellCSIReplicationGroup) (k v : string)
  : DellCSIReplicationGroup :=
  withAnnotations g (Some (<[k := v]> (default ∅ (Annotations g)))).

Definition hasFinalizer (g : DellCSIReplicationGroup) (f : string) : bool :=
  bool_decide (f ∈ Finalizers g).

Definition AddFinalizerIfNotExist (g : DellCSIReplicationGroup) (f : string)
  : DellCSIReplicationGroup * bool :=
  if hasFinalizer g f then (g, false)
  else (withFinalizers g (Finalizers g ++ [f]), true).

Definition RemoveFinalizerIfExists (g : DellCSIReplicationGroup) (f : string)
  : DellCSIReplicationGroup * bool :=
  if hasFinalizer g f
  then (withFinalizers g (filter (λ x, x ≠ f) (Finalizers g)), true)
  else (g, false).

(** ** The outside world

    The calls the controller makes: on its own client ([r.Get], [r.Update],
    [r.Delete], [r.List]), on the multi-cluster configuration [r.Config], on
    the remote client that [GetConnection] returned (named here by the
    cluster identifier it was asked for), and on the clock.  The index is
    the type of the answer; a Go pair [(T, error)] is a sum. *)
Inductive Call : Type -> Type :=
| Get (name : string) : Call (error + DellCSIReplicationGroup)
| Update (g : DellCSIReplicationGroup) : Call (option error)
| Delete (g : DellCSIReplicationGroup) : Call (option error)
| ListClaims (label value : string) : Call (error + list PersistentVolumeClaim)
| GetVolume (name : string) : Call (error + PersistentVolume)
| GetClusterID : Call string
| GetConnection (clusterID : string) : Call (option error)
| GetReplicationGroup (cluster name : string)
    : Call (error + DellCSIReplicationGroup)
| UpdateReplicationGroup (cluster : string) (g : DellCSIReplicationGroup)
    : Call (option error)
| CreateReplicationGroup (cluster : string) (g : DellCSIReplicationGroup)
    : Call (option error)
| GetNamespace (cluster name : string) : Call (error + Namespace)
| RemoteCreateNamespace (cluster : string) (ns : Namespace) : Call (option error)
| GetSnapshotClass (cluster name : string) : Call (error + VolumeSnapshotClass)
| CreateSnapshotClass (cluster : string) (sc : VolumeSnapshotClass)
    : Call (option error)
| CreateSnapshotContent (cluster : string) (c : VolumeSnapshotContent)
    : Call (option error)
| CreateSnapshotObject (cluster : string) (s : VolumeSnapshot)
    : Call (option error)
| GetStorageClass (cluster name : string) : Call (error + StorageClass)
| CreatePersistentVolumeClaim (cluster : string) (c : PersistentVolumeClaim)
    : Call (option error)
| NowUnix : Call Z.

(** Verbosity levels of [pkg/common]. *)
Inductive Level := InfoLevel | DebugLevel | ErrorLevel.

(** What one pass leaves behind, in order: the calls with their answers,
    the log lines, the recorded events and what went to standard output. *)
Inductive Entry :=
| ECall {T : Type} (c : Call T) (answer : T)
| ELogInfo (v : option Level) (msg : string)
| ELogError (v : option Level) (err : option error) (msg : string)
| EEvent (object eventType reason msg : string)
| EPrintf (msg : string).

(** The reconciler's own configuration: of the fields of
    [ReplicationGroupReconciler] the pass reads [Domain]; the client, the
    event recorder, the logger and [Config] are the outside world. *)
Record ReplicationGroupReconciler := { Domain : string }.

(** ** The pass as a computation over the outside world *)

(** The outcome of a computation: its value, the state the outside world is
    left in, and the entries it produced. *)
Record Out (K A : Type) := mkOut { value : A; world : K; trace : list Entry }.
Arguments mkOut {K A} _ _ _.
Arguments value {K A} _.
Arguments world {K A} _.
Arguments trace {K A} _.

Section Controller.

(** The state of the outside world and the way it answers a call. *)
Context {K : Type}.
Variable handle : ∀ T, Call T → K → T * K.

(** [json.Unmarshal] into an [ActionAnnotation], from [encoding/json]. *)
Variable Unmarshal : string → error + ActionAnnotation.

(** [metav1.Time.String], from the Kubernetes API machinery. *)
Variable TimeString : Time → string.

Definition M (A : Type) : Type := K → Out K A.

Definition ret {A} (a : A) : M A := λ k, mkOut a k [].

Definition bind {A B} (m : M A) (f : A → M B) : M B :=
  λ k, let o := m k in
       let o' := f (value o) (world o) in
       mkOut (value o') (world o') (trace o ++ trace o').

Definition call {T} (c : Call T) : M T :=
  λ k, let a := handle T c k in mkOut (fst a) (snd a) [ECall c (fst a)].

Definition emit (e : Entry) : M unit := λ k, mkOut tt k [e].

Notation "x <- m ;; f" := (bind m (λ x, f))
  (at level 100, m at next level, right associativity).
Notation "m ;;; f" := (bind m (λ _, f))
  (at level 100, right associativity).

Definition logInfo (v : option Level) (msg : string) : M unit :=
  emit (ELogInfo v msg).
Definition logError (v : option Level) (err : option error) (msg : string)
  : M unit := emit (ELogError v err msg).
Definition Eventf (g : DellCSIReplicationGroup) (eventType reason msg : string)
  : M unit := emit (EEvent (Name g) eventType reason msg).

Definition boolString (b : bool) : string := if b then "true" else "false".

(** *** The constructors at the end of the source file *)

Definition makeNamespaceReference (namespace : string) : Namespace :=
  {| NamespaceName := namespace |}.

Definition makeSnapReference (snapName namespace : string) : ObjectReference :=
  {| RefKind := "VolumeSnapshot";
     RefAPIVersion := "snapshot.storage.k8s.io/v1";
     RefName := "snapshot-" +:+ snapName;
     RefNamespace := namespace |}.

Definition makeSnapshotObject (snapName contentName className namespace : string)
  : VolumeSnapshot :=
  {| SnapName := snapName;
     SnapNamespace := namespace;
     SourceContentName := contentName;
     SnapClassName := className |}.

Definition makeSnapshotClassRef (driver snapClass : string) : VolumeSnapshotClass :=
  {| ClassName := snapClass; ClassDriver := driver; ClassDeletionPolicy := "Delete" |}.

(** The content's name carries the volume handle and [time.Now().Unix()]. *)
Definition makeVolSnapContent (snapName volumeName : string)
    (snapRef : ObjectReference) (sc : VolumeSnapshotClass)
  : M VolumeSnapshotContent :=
  now <- call NowUnix ;;
  ret {| ContentName := "volume-" +:+ volumeName +:+ "-" +:+ FormatInt now;
         VolumeSnapshotRef := snapRef;
         SnapshotHandle := snapName;
         ContentClassName := ClassName sc;
         ContentDeletionPolicy := ClassDeletionPolicy sc;
         ContentDriver := ClassDriver sc |}.

Definition makePersistentVolumeClaimFromSnapshot
    (name namespace snName storageClass : string)
    (pvcSpec : PersistentVolumeClaimSpec) : PersistentVolumeClaim :=
  {| ClaimName := name;
     ClaimNamespace := namespace;
     ClaimSpec :=
       {| StorageClassName := Some storageClass;
          AccessModes := AccessModes pvcSpec;
          Resources := Resources pvcSpec;
          VolumeName := EmptyString;
          DataSource := Some {| DataAPIGroup := "snapshot.storage.k8s.io";
                                DataKind := "VolumeSnapshot";
                                DataName := snName |} |} |}.

Definition CreateNamespace (namespace remoteClient : string) : M (option error) :=
  let nsRef := makeNamespaceReference namespace in
  err <- call (RemoteCreateNamespace remoteClient nsRef) ;;
  match err with
  | Some e =>
      ret (Some (Errorf ("unable to create the desired namespace " +:+ namespace
                         +:+ ": " +:+ Error e)))
  | None => ret None
  end.

(** *** [getPVCInformation] *)

(** The loop over [pvcList.Items]: the first claim whose volume carries the
    handle; a failed [Get] of a volume ends the search with an error. *)
Fixpoint findClaim (items : list PersistentVolumeClaim) (volumeHandle : string)
  : M (option PersistentVolumeClaim * option error) :=
  match items with
  | [] => ret (None, None)
  | pvc :: rest =>
      let pvName := VolumeName (ClaimSpec pvc) in
      got <- call (GetVolume pvName) ;;
      match got with
      | inl e =>
          ret (None, Some (Errorf ("error getting pv " +:+ pvName +:+ ": "
                                   +:+ Error e)))
      | inr pv =>
          if String.eqb (VolumeHandle pv) volumeHandle
          then emit (EPrintf ("Found PVC " +:+ ClaimName pvc +:+ " with PV "
                              +:+ pvName)) ;;;
               ret (Some pvc, None)
          else findClaim rest volumeHandle
      end
  end.

Definition getPVCInformation (group : DellCSIReplicationGroup)
    (volumeHandle : string)
  : M (option PersistentVolumeClaim * option error) :=
  listed <- call (ListClaims controller.ReplicationGroup (Name group)) ;;
  match listed with
  | inl e => ret (None, Some (Errorf ("unable to get pvcs: " +:+ Error e)))
  | inr items => findClaim items volumeHandle
  end.

(** *** [processSnapshotEvent]

    The body of the loop over [lastAction.ActionAttributes], in two steps.
    [namespace] is declared outside the loop and assigned inside it: every
    step returns the namespace the next pair starts from. *)

(** Lines 423 to 438: the source claim of the volume, and the redirection
    to the cloned namespace when the claim lives in the target namespace.
    The result is the claim, the namespace from here on, and the error that
    ends the materialization, if any. *)
Definition resolveClaim (group : DellCSIReplicationGroup)
    (remoteClient : string) (shouldCreatePvc : bool)
    (namespace volumeHandle : string)
  : M (option PersistentVolumeClaim * string * option error) :=
  if shouldCreatePvc then
    res <- getPVCInformation group volumeHandle ;;
    (match res.2 with
     | Some e => logError (Some ErrorLevel) (Some e) "unable to get PVC information"
     | None => ret tt
     end) ;;;
    match res.1 with
    | Some pvc =>
        if String.eqb (ClaimNamespace pvc) namespace then
          logInfo (Some InfoLevel)
            ("Namespace - " +:+ namespace +:+ " not found, creating clone.") ;;;
          err <- CreateNamespace ("cloned-" +:+ namespace) remoteClient ;;
          ret (Some pvc, "cloned-" +:+ namespace, err)
        else ret (Some pvc, namespace, None)
    | None => ret (None, namespace, None)
    end
  else ret (None, namespace, None).

(** Lines 456 to 473: the derived claim, unless the storage class has
    replication enabled. *)
Definition createClaim (remoteClient storageClass namespace : string)
    (snapContent : VolumeSnapshotContent) (pvc : PersistentVolumeClaim)
  : M (option error) :=
  got <- call (GetStorageClass remoteClient storageClass) ;;
  let replicationEnabled :=
    match got with
    | inr sc =>
        mapHas (Parameters sc) controller.StorageClassReplicationParam
        && String.eqb (mapGet (Parameters sc) controller.StorageClassReplicationParam)
                      "true"
    | inl _ => false
    end in
  if replicationEnabled then
    logError (Some ErrorLevel) None
      ("storage class " +:+ storageClass +:+ " has replication enabled, PVC "
       +:+ ClaimName pvc +:+ " not created") ;;;
    ret None
  else
    let newPVC := makePersistentVolumeClaimFromSnapshot (ClaimName pvc) namespace
                    (RefName (VolumeSnapshotRef snapContent)) storageClass
                    (ClaimSpec pvc) in
    err <- call (CreatePersistentVolumeClaim remoteClient newPVC) ;;
    match err with
    | Some e => logError None (Some e) "unable to create PVC" ;;; ret (Some e)
    | None =>
        logInfo (Some InfoLevel)
          ("Created PVC " +:+ ClaimName newPVC +:+ " in namespace " +:+ namespace
           +:+ " from snapshot") ;;;
        ret None
    end.

(** Lines 419 to 474: one iteration; the error that ends the loop, if any,
    and the namespace the next iteration starts from. *)
Definition snapshotPair (group : DellCSIReplicationGroup)
    (remoteClient : string) (sc : VolumeSnapshotClass)
    (shouldCreatePvc : bool) (storageClass namespace : string)
    (kv : string * string) : M (option error * string) :=
  let volumeHandle := kv.1 in
  let snapshotHandle := kv.2 in
  logInfo (Some InfoLevel)
    ("ActionAttributes - volumeHandle: " +:+ volumeHandle
     +:+ ", snapshotHandle: " +:+ snapshotHandle) ;;;
  found <- resolveClaim group remoteClient shouldCreatePvc namespace volumeHandle ;;
  let pvc := found.1.1 in
  let namespace := found.1.2 in
  match found.2 with
  | Some e => ret (Some e, namespace)
  | None =>
      let snapRef := makeSnapReference snapshotHandle namespace in
      snapContent <- makeVolSnapContent snapshotHandle volumeHandle snapRef sc ;;
      err <- call (CreateSnapshotContent remoteClient snapContent) ;;
      match err with
      | Some e =>
          logError None (Some e) "unable to create snapshot content" ;;;
          ret (Some e, namespace)
      | None =>
          let snapshot := makeSnapshotObject (RefName snapRef)
                            (ContentName snapContent) (ClassName sc) namespace in
          err <- call (CreateSnapshotObject remoteClient snapshot) ;;
          match err with
          | Some e =>
              logError None (Some e) "unable to create snapshot object" ;;;
              ret (Some e, namespace)
          | None =>
              match pvc with
              | Some pvc =>
                  if shouldCreatePvc then
                    err <- createClaim remoteClient storageClass namespace
                             snapContent pvc ;;
                    ret (err, namespace)
                  else ret (None, namespace)
              | None => ret (None, namespace)
              end
          end
      end
  end.

(** The [for ... range] loop itself: the error that ended it, if any, and
    the value of [namespace] when it ended. *)
Fixpoint snapshotPairs (group : DellCSIReplicationGroup)
    (remoteClient : string) (sc : VolumeSnapshotClass)
    (shouldCreatePvc : bool) (storageClass namespace : string)
    (pairs : list (string * string)) : M (option error * string) :=
  match pairs with
  | [] => ret (None, namespace)
  | kv :: rest =>
      step <- snapshotPair group remoteClient sc shouldCreatePvc storageClass
                namespace kv ;;
      match step.1 with
      | Some e => ret (Some e, step.2)
      | None => snapshotPairs group remoteClient sc shouldCreatePvc storageClass
                  step.2 rest
      end
  end.

(** The name of the snapshot class when no annotation overrides it: the
    driver label up to its first dot, without a leading "csi-", between
    "default-" and "-snapshotclass". *)
Definition defaultSnapshotClass (driverClass : string) : string :=
  "default-" +:+ TrimPrefix (SplitFirst driverClass ".") "csi-" +:+ "-snapshotclass".

Definition processSnapshotEvent (r : ReplicationGroupReconciler)
    (group : DellCSIReplicationGroup) (remoteClient : string)
  : M (option error) :=
  let lastAction := StatusLastAction (Status group) in
  let val := mapGet (Annotations group) csireplicator.Action in
  if negb (mapHas (Annotations group) csireplicator.Action) then
    logInfo (Some InfoLevel) "No action" ;;; ret None
  else
    match Unmarshal val with
    | inl e => logError None (Some e) "JSON unmarshal error" ;;; ret (Some e)
    | inr actionAnnotation =>
        let namespace := SnapshotNamespace actionAnnotation in
        got <- call (GetNamespace remoteClient namespace) ;;
        nsErr <- match got with
                 | inl _ =>
                     logInfo (Some InfoLevel)
                       ("Namespace - " +:+ namespace +:+ " not found, creating it.") ;;;
                     CreateNamespace namespace remoteClient
                 | inr _ => ret None
                 end ;;
        match nsErr with
        | Some e => ret (Some e)
        | None =>
            let snClassAnn := mapGet (Annotations group) controller.SnapshotClass in
            let driverClass := mapGet (Labels group) controller.DriverName in
            let snClass := if String.eqb snClassAnn EmptyString
                           then defaultSnapshotClass driverClass
                           else snClassAnn in
            userErr <- (if String.eqb snClassAnn EmptyString then ret None
                        else
                          got <- call (GetSnapshotClass remoteClient snClass) ;;
                          match got with
                          | inl e =>
                              logError (Some ErrorLevel) (Some e)
                                "user defined snapshot class does not exist" ;;;
                              ret (Some e)
                          | inr _ => ret None
                          end) ;;
            match userErr with
            | Some e => ret (Some e)
            | None =>
                let storageClass :=
                  mapGet (Annotations group) (Domain r +:+ "/snapshotStorageClass") in
                let createPVC :=
                  mapGet (Annotations group) (Domain r +:+ "/snapshotCreatePVC") in
                let shouldCreatePvc :=
                  String.eqb createPVC "true" && negb (String.eqb storageClass EmptyString) in
                got <- call (GetSnapshotClass remoteClient snClass) ;;
                match got with
                | inr sc =>
                    looped <- snapshotPairs group remoteClient sc shouldCreatePvc
                                storageClass namespace (ActionAttributes lastAction) ;;
                    ret looped.1
                | inl e =>
                    if negb (IsNotFound e) then
                      ret (Some (Errorf ("error getting snapshot class: " +:+ Error e)))
                    else
                      logInfo (Some InfoLevel)
                        "Snapshotclass %s not found, creating a default class" ;;;
                      let sc := makeSnapshotClassRef driverClass snClass in
                      err <- call (CreateSnapshotClass remoteClient sc) ;;
                      match err with
                      | Some e' =>
                          ret (Some (Errorf ("unable to create default snapshot class: "
                                             +:+ Error e')))
                      | None =>
                          looped <- snapshotPairs group remoteClient sc shouldCreatePvc
                                      storageClass namespace
                                      (ActionAttributes lastAction) ;;
                          ret looped.1
                      end
                end
            end
        end
    end.

(** *** [processLastActionResult]

    The group is passed by pointer and annotated in place: the result is the
    group as the caller sees it afterwards, and the error. *)
Definition processLastActionResult (r : ReplicationGroupReconciler)
    (group : DellCSIReplicationGroup) (remoteClient : string)
  : M (DellCSIReplicationGroup * option error) :=
  let lastAction := StatusLastAction (Status group) in
  match Conditions (Status group), ActionTime lastAction with
  | [], _ | _, None =>
      logInfo (Some InfoLevel) "No action to process" ;;; ret (group, None)
  | _ :: _, Some time =>
      if negb (String.eqb (ErrorMessage lastAction) EmptyString) then
        ret (group, Some (Errorf ("last action failed: " +:+ Condition lastAction)))
      else if negb (mapHas (Annotations group) controller.ActionProcessedTime) then
        logInfo (Some InfoLevel) "Action Processed does not exist." ;;;
        ret (group, None)
      else if String.eqb (mapGet (Annotations group) controller.ActionProcessedTime)
                         (TimeString time) then
        logInfo (Some InfoLevel) "Last action has already been processed" ;;;
        ret (group, None)
      else
        returnErr <- (if Contains (Condition lastAction) "CREATE_SNAPSHOT"
                      then processSnapshotEvent r group remoteClient
                      else ret None) ;;
        let group' := AddAnnotation group controller.ActionProcessedTime
                        (TimeString time) in
        call (Update group') ;;;
        ret (group', returnErr)
  end.

(** *** [Reconcile]

    The values the pass computes before it talks to the remote cluster are
    pure functions of the local resource; they are named here and used in
    [Reconcile] below. *)

(** Line 89: the local resource carries [RGSyncComplete] = "yes". *)
Definition syncComplete (localRG : DellCSIReplicationGroup) : bool :=
  String.eqb (mapGet (Annotations localRG) controller.RGSyncComplete) "yes".

(** Lines 96 to 101: the identity the mirror records as its origin. *)
Definition originClusterID (localRG : DellCSIReplicationGroup)
    (clusterID : string) : string :=
  if String.eqb (RemoteClusterID (Spec localRG)) controller.Self
  then controller.Self else clusterID.

(** Lines 79 to 105: [remoteRGName] when the pass reaches the remote
    cluster.  The [RemoteReplicationGroup] annotation overrides the local
    name when it is not empty (once the sync is complete also when it is
    empty); self-mirroring forces the "replicated-" form unless the local
    name already starts with "replicated". *)
Definition mirrorName (localRG : DellCSIReplicationGroup)
    (localRGName : string) : string :=
  let annotated := mapGet (Annotations localRG) controller.RemoteReplicationGroup in
  let remoteRGName := if String.eqb annotated EmptyString then localRGName else annotated in
  let remoteRGName := if syncComplete localRG then annotated else remoteRGName in
  if String.eqb (RemoteClusterID (Spec localRG)) controller.Self
     && negb (HasPrefix localRGName replicated)
  then replicated +:+ "-" +:+ localRGName
  else remoteRGName.

(** Lines 107 to 110. *)
Definition mirrorAnnotations (localRG : DellCSIReplicationGroup)
    (localRGName localClusterID : string) : gmap string string :=
  <[controller.RemoteClusterID := localClusterID]>
    (<[controller.RemoteRGRetentionPolicy :=
         mapGet (Annotations localRG) controller.RemoteRGRetentionPolicy]>
       (<[controller.RemoteReplicationGroup := localRGName]> ∅)).

(** Lines 112 to 127: the driver label, the origin, and the remote
    attributes that carry the context prefix, projected into the domain. *)
Definition mirrorLabels (r : ReplicationGroupReconciler)
    (localRG : DellCSIReplicationGroup) (localClusterID : string)
  : gmap string string :=
  let base :=
    <[controller.RemoteClusterID := localClusterID]>
      (<[controller.DriverName := mapGet (Labels localRG) controller.DriverName]> ∅) in
  let contextPrefix := mapGet (Annotations localRG) controller.ContextPrefix in
  if String.eqb contextPrefix EmptyString then base
  else map_fold
         (λ k v labels,
            if HasPrefix k contextPrefix
            then <[Domain r +:+ TrimPrefix k contextPrefix := v]> labels
            else labels)
         base (RemoteProtectionGroupAttributes (Spec localRG)).

(** Lines 129 to 144: the mirror, the swapped view of the local spec. *)
Definition mirrorObject (r : ReplicationGroupReconciler)
    (localRG : DellCSIReplicationGroup)
    (localRGName localClusterID remoteRGName : string)
  : DellCSIReplicationGroup :=
  {| Name := remoteRGName;
     Annotations := Some (mirrorAnnotations localRG localRGName localClusterID);
     Labels := Some (mirrorLabels r localRG localClusterID);
     Finalizers := [];
     DeletionTimestamp := None;
     Spec :=
       {| DriverName := DriverName (Spec localRG);
          Action := EmptyString;
          RemoteClusterID := localClusterID;
          ProtectionGroupID := RemoteProtectionGroupID (Spec localRG);
          ProtectionGroupAttributes := RemoteProtectionGroupAttributes (Spec localRG);
          RemoteProtectionGroupID := ProtectionGroupID (Spec localRG);
          RemoteProtectionGroupAttributes := ProtectionGroupAttributes (Spec localRG) |};
     Status := {| Conditions := [];
                  StatusLastAction := {| Condition := EmptyString; ActionAttributes := [];
                                         ErrorMessage := EmptyString; ActionTime := None |} |} |}.

(** Lines 152 to 158: the retention policy in force, "retain" when the
    annotation is absent. *)
Definition retentionPolicyOf (localRG : DellCSIReplicationGroup) : string :=
  if mapHas (Annotations localRG) controller.RemoteRGRetentionPolicy
  then mapGet (Annotations localRG) controller.RemoteRGRetentionPolicy
  else controller.RemoteRetentionValueRetain.

(** Line 180: the policy asks for the deletion of the mirror. *)
Definition deleteRemote (retentionPolicy : string) : bool :=
  String.eqb (ToLower retentionPolicy) controller.RemoteRetentionValueDelete.

(** The name a mirror gets when the remote cluster already holds an object
    of the wanted name that is not ours (lines 262 and 280). *)
Definition qualifiedName (localClusterID localRGName : string) : string :=
  "SourceClusterId-" +:+ localClusterID +:+ "-" +:+ localRGName.

(** Lines 161 to 205: the deletion branch.  [Some] is the result the pass
    returns from inside the branch; [None] means the branch fell through
    (no finalizer to remove) and the pass goes on at line 207. *)
Definition deletionBranch (localRG : DellCSIReplicationGroup)
    (remoteClient retentionPolicy : string)
  : M (option (Result * option error)) :=
  logInfo (Some InfoLevel) "Deletion timestamp is not zero" ;;;
  logInfo (Some InfoLevel) "Annotations" ;;;
  logInfo (Some InfoLevel) "Deletion requested?" ;;;
  handshake <-
    (if negb (mapHas (Annotations localRG) controller.DeletionRequested) then
       logInfo (Some InfoLevel) "Deletion requested annotation not found" ;;;
       got <- call (GetReplicationGroup remoteClient
                      (mapGet (Annotations localRG) controller.RemoteReplicationGroup)) ;;
       match got with
       | inl e =>
           logInfo (Some ErrorLevel) "error getting replication group" ;;;
           if negb (IsNotFound e) then
             logError None (Some e) "Failed to get remote replication group" ;;;
             ret (Some (noRequeue, Some e))
           else ret None
       | inr remoteRG =>
           logInfo (Some InfoLevel) "Got remote RG" ;;;
           if deleteRemote retentionPolicy then
             logInfo None "Retention policy is set to Delete" ;;;
             if negb (mapHas (Annotations remoteRG) controller.DeletionRequested) then
               let remoteRGCopy :=
                 AddAnnotation remoteRG controller.DeletionRequested "yes" in
               err <- call (UpdateReplicationGroup remoteClient remoteRGCopy) ;;
               match err with
               | Some e => ret (Some (noRequeue, Some e))
               | None =>
                   ret (Some ({| Requeue := false;
                                 RequeueAfter := 1 * Millisecond |}, None))
               end
             else ret (Some ({| Requeue := true; RequeueAfter := 0 |}, None))
           else ret None
       end
     else ret None) ;;
  match handshake with
  | Some outcome => ret (Some outcome)
  | None =>
      logInfo (Some InfoLevel) "Removing finalizer RGFinalizer" ;;;
      let removed := RemoveFinalizerIfExists localRG controller.RGFinalizer in
      if removed.2 then
        logInfo (Some InfoLevel) "Updating rg copy to remove finalizer" ;;;
        err <- call (Update removed.1) ;;
        ret (Some (noRequeue, err))
      else ret None
  end.

(** What lines 222 to 285 decide. *)
Inductive Verdict :=
| Stop (outcome : Result * option error)
| Proceed (createRG : bool) (remoteRG : DellCSIReplicationGroup)
          (remoteRGName : string) (rgSyncComplete : bool).

(** Lines 222 to 285: look the mirror up and decide. *)
Definition verifyRemote (localRG remoteRG : DellCSIReplicationGroup)
    (localRGName localClusterID remoteClusterID remoteRGName : string)
    (rgSyncComplete : bool) : M Verdict :=
  let remoteClient := remoteClusterID in
  logInfo (Some InfoLevel)
    ("Checking if remote RG with the name " +:+ remoteRGName
     +:+ " exists on ClusterId: " +:+ remoteClusterID) ;;;
  got <- call (GetReplicationGroup remoteClient remoteRGName) ;;
  match got with
  | inl e =>
      if negb (IsNotFound e) then
        logError None (Some e) "failed to get RG details on the remote cluster" ;;;
        ret (Stop ({| Requeue := true; RequeueAfter := 0 |}, Some e))
      else if rgSyncComplete then
        logError None (Some e)
          "Something went wrong. Local RG has already been synced to the remote cluster" ;;;
        logInfo (Some InfoLevel)
          ("RG not found on target cluster. "
           +:+ "Since the local RG carries a SyncComplete annotation, "
           +:+ "we will not be creating RG on remote once again.") ;;;
        ret (Stop (noRequeue, None))
      else if Contains remoteRGName "replicated-replicated" then
        ret (Proceed false remoteRG remoteRGName rgSyncComplete)
      else ret (Proceed true remoteRG remoteRGName rgSyncComplete)
  | inr rgObj =>
      logInfo (Some InfoLevel) " The RG already exists on the remote cluster" ;;;
      if String.eqb (RemoteClusterID (Spec rgObj)) localClusterID then
        if negb (String.eqb (DriverName (Spec rgObj)) (DriverName (Spec remoteRG))) then
          let remoteRGName := qualifiedName localClusterID localRGName in
          ret (Proceed true (withName remoteRG remoteRGName) remoteRGName false)
        else if negb (String.eqb (ProtectionGroupID (Spec rgObj))
                                 (ProtectionGroupID (Spec remoteRG)))
                || negb (String.eqb (RemoteProtectionGroupID (Spec rgObj))
                                    (RemoteProtectionGroupID (Spec remoteRG))) then
          Eventf localRG eventTypeWarning eventReasonUpdated
            ("Found conflicting RG on remote ClusterId: " +:+ remoteClusterID) ;;;
          logError None
            (Some (Errorf ("conflicting RG with name: " +:+ localRGName
                           +:+ " exists on ClusterId: " +:+ remoteClusterID)))
            "stopping reconcile" ;;;
          ret (Stop (noRequeue, None))
        else ret (Proceed false remoteRG remoteRGName rgSyncComplete)
      else
        let remoteRGName := qualifiedName localClusterID localRGName in
        ret (Proceed true (withName remoteRG remoteRGName) remoteRGName false)
  end.

(** Lines 207 to 319: the pass on a resource that is not being removed
    from inside the deletion branch. *)
Definition syncBranch (r : ReplicationGroupReconciler)
    (localRG remoteRG : DellCSIReplicationGroup)
    (localRGName localClusterID remoteClusterID remoteRGName : string)
    (rgSyncComplete : bool) : M (Result * option error) :=
  let remoteClient := remoteClusterID in
  logInfo (Some InfoLevel) "Adding finalizer RGFinalizer" ;;;
  let added := AddFinalizerIfNotExist localRG controller.RGFinalizer in
  let rgCopy := added.1 in
  if added.2 then
    logInfo (Some InfoLevel) "Finalizer not found adding it" ;;;
    err <- call (Update rgCopy) ;;
    ret (noRequeue, err)
  else
    logInfo (Some InfoLevel)
      "Trying to delete RG if deletion request annotation found" ;;;
    if mapHas (Annotations rgCopy) controller.DeletionRequested then
      logInfo (Some InfoLevel)
        "Deletion Requested annotation found and deleting the remote RG" ;;;
      err <- call (Delete rgCopy) ;;
      ret (noRequeue, err)
    else
      verdict <- verifyRemote localRG remoteRG localRGName localClusterID
                   remoteClusterID remoteRGName rgSyncComplete ;;
      match verdict with
      | Stop outcome => ret outcome
      | Proceed createRG remoteRG remoteRGName rgSyncComplete =>
          created <-
            (if createRG then
               err <- call (CreateReplicationGroup remoteClient remoteRG) ;;
               match err with
               | Some e =>
                   logError None (Some e)
                     "failed to create remote CR for DellCSIReplicationGroup" ;;;
                   Eventf localRG eventTypeWarning eventReasonUpdated
                     ("Failed to create remote CR for DellCSIReplicationGroup on ClusterId: "
                      +:+ remoteClusterID) ;;;
                   ret (Some e)
               | None =>
                   logInfo (Some InfoLevel)
                     "The remote RG has been successfully created!!" ;;;
                   Eventf localRG eventTypeNormal eventReasonUpdated
                     ("Created remote ReplicationGroup with name: " +:+ remoteRGName
                      +:+ " on cluster: " +:+ remoteClusterID) ;;;
                   ret None
               end
             else ret None) ;;
          match created with
          | Some e => ret (noRequeue, Some e)
          | None =>
              if negb rgSyncComplete then
                let remoteRGName :=
                  if Contains localRGName replicated
                  then TrimPrefix localRGName "replicated-"
                  else remoteRGName in
                let localRG :=
                  AddAnnotation
                    (AddAnnotation localRG controller.RemoteReplicationGroup
                       remoteRGName)
                    controller.RGSyncComplete "yes" in
                err <- call (Update localRG) ;;
                ret (noRequeue, err)
              else
                res <- processLastActionResult r localRG remoteClient ;;
                (match res.2 with
                 | Some _ =>
                     Eventf res.1 eventTypeWarning eventReasonUpdated
                       ("failed to process the last action "
                        +:+ Condition (StatusLastAction (Status res.1)))
                 | None => ret tt
                 end) ;;;
                logInfo (Some InfoLevel)
                  "RG has already been synced to the remote cluster" ;;;
                ret (noRequeue, None)
          end
      end.

(** The pass.  [req] is [req.Name]: replication groups are cluster-scoped. *)
Definition Reconcile (r : ReplicationGroupReconciler) (req : string)
  : M (Result * option error) :=
  got <- call (Get req) ;;
  match got with
  | inl err => ret (noRequeue, IgnoreNotFound err)
  | inr localRG =>
      logInfo (Some InfoLevel) "Reconciling RG event!!!" ;;;
      let localRGName := req in
      match Annotations localRG with
      | None =>
          logInfo (Some InfoLevel)
            "RG is not ready yet, requeue as we will get another event" ;;;
          ret (noRequeue, None)
      | Some _ =>
          let rgSyncComplete := syncComplete localRG in
          (if rgSyncComplete
           then logInfo (Some DebugLevel) "RG Sync already completed"
           else ret tt) ;;;
          clusterID <- call GetClusterID ;;
          let remoteClusterID := RemoteClusterID (Spec localRG) in
          let localClusterID := originClusterID localRG clusterID in
          let remoteRGName := mirrorName localRG localRGName in
          let remoteRG :=
            mirrorObject r localRG localRGName localClusterID remoteRGName in
          connErr <- call (GetConnection remoteClusterID) ;;
          match connErr with
          | Some e => ret (noRequeue, Some e)
          | None =>
              let remoteClient := remoteClusterID in
              (if negb (mapHas (Annotations localRG) controller.RemoteRGRetentionPolicy)
               then
                 logInfo None ("RetentionPolicy:found:" +:+ boolString false
                               +:+ ",value-->") ;;;
                 logInfo None
                   "Retention policy not set, using retain as the default policy"
               else ret tt) ;;;
              let retentionPolicy := retentionPolicyOf localRG in
              deleted <-
                (if negb (IsZero (DeletionTimestamp localRG))
                 then deletionBranch localRG remoteClient retentionPolicy
                 else ret None) ;;
              match deleted with
              | Some outcome => ret outcome
              | None =>
                  syncBranch r localRG remoteRG localRGName localClusterID
                    remoteClusterID remoteRGName rgSyncComplete
              end
          end
      end
  end.

End Controller.

Arguments ret {K A} _ _ /.
Arguments bind {K A B} _ _ _ /.
Arguments call {K} _ {T} _ _ /.
Arguments emit {K} _ _ /.
Arguments logInfo {K} _ _ _ /.
Arguments logError {K} _ _ _ _ /.
Arguments Eventf {K} _ _ _ _ _ /.

(** ** An in-memory outside world

    One local and one remote cluster held in finite maps, for running the
    pass on concrete resources.  The identifier "self" resolves to the local
    cluster itself (section 3 of the specification: such a resource is
    mirrored within the same cluster); every other identifier resolves to
    the remote cluster.  A lookup of a missing object answers not-found, a
    creation of an existing one is refused. *)
Module Memory.

Record Clusters := {
  clusterID : string;
  localGroups : gmap string DellCSIReplicationGroup;
  localClaims : list PersistentVolumeClaim;
  localVolumes : gmap string PersistentVolume;
  remoteGroups : gmap string DellCSIReplicationGroup;
  remoteNamespaces : list string;
  snapshotClasses : gmap string VolumeSnapshotClass;
  snapshotContents : list VolumeSnapshotContent;
  snapshots : list VolumeSnapshot;
  storageClasses : gmap string StorageClass;
  remoteClaims : list PersistentVolumeClaim;
  clock : Z
}.

Definition notFound : error := {| IsNotFound := true; Error := "not found" |}.
Definition alreadyExists : error := {| IsNotFound := false; Error := "already exists" |}.

Definition isSelf (cluster : string) : bool := String.eqb cluster controller.Self.

Definition groupsOf (w : Clusters) (cluster : string) :=
  if isSelf cluster then localGroups w else remoteGroups w.

Definition setGroups (w : Clusters) (cluster : string)
    (gs : gmap string DellCSIReplicationGroup) : Clusters :=
  {| clusterID := clusterID w;
     localGroups := if isSelf cluster then gs else localGroups w;
     localClaims := localClaims w; localVolumes := localVolumes w;
     remoteGroups := if isSelf cluster then remoteGroups w else gs;
     remoteNamespaces := remoteNamespaces w;
     snapshotClasses := snapshotClasses w;
     snapshotContents := snapshotContents w; snapshots := snapshots w;
     storageClasses := storageClasses w; remoteClaims := remoteClaims w;
     clock := clock w |}.

Definition lookupGroup (w : Clusters) (cluster name : string)
  : error + DellCSIReplicationGroup :=
  match groupsOf w cluster !! name with
  | Some g => inr g
  | None => inl notFound
  end.

Definition updateGroup (w : Clusters) (cluster : string)
    (g : DellCSIReplicationGroup) : option error * Clusters :=
  match groupsOf w cluster !! Name g with
  | Some _ => (None, setGroups w cluster (<[Name g := g]> (groupsOf w cluster)))
  | None => (Some notFound, w)
  end.

Definition createGroup (w : Clusters) (cluster : string)
    (g : DellCSIReplicationGroup) : option error * Clusters :=
  match groupsOf w cluster !! Name g with
  | Some _ => (Some alreadyExists, w)
  | None => (None, setGroups w cluster (<[Name g := g]> (groupsOf w cluster)))
  end.

(** A deletion of an object that holds finalizers only marks it. *)
Definition deleteGroup (w : Clusters) (g : DellCSIReplicationGroup)
  : option error * Clusters :=
  match localGroups w !! Name g with
  | None => (Some notFound, w)
  | Some stored =>
      match Finalizers stored with
      | [] => (None, setGroups w controller.Self (delete (Name g) (localGroups w)))
      | _ :: _ =>
          (None, setGroups w controller.Self
                   (<[Name g := {| Name := Name stored;
                                   Annotations := Annotations stored;
                                   Labels := Labels stored;
                                   Finalizers := Finalizers stored;
                                   DeletionTimestamp := Some (clock w);
                                   Spec := Spec stored;
                                   Status := Status stored |}]> (localGroups w)))
      end
  end.

Definition withRemote (w : Clusters) (ns : list string)
    (classes : gmap string VolumeSnapshotClass)
    (contents : list VolumeSnapshotContent) (snaps : list VolumeSnapshot)
    (claims : list PersistentVolumeClaim) : Clusters :=
  {| clusterID := clusterID w; localGroups := localGroups w;
     localClaims := localClaims w; localVolumes := localVolumes w;
     remoteGroups := remoteGroups w; remoteNamespaces := ns;
     snapshotClasses := classes; snapshotContents := contents;
     snapshots := snaps; storageClasses := storageClasses w;
     remoteClaims := claims; clock := clock w |}.

Definition handle (T : Type) (c : Call T) (w : Clusters) : T * Clusters :=
  match c in Call T return T * Clusters with
  | Get name => (lookupGroup w controller.Self name, w)
  | Update g => updateGroup w controller.Self g
  | Delete g => deleteGroup w g
  | ListClaims _ _ => (inr (localClaims w), w)
  | GetVolume name =>
      (match localVolumes w !! name with
       | Some pv => inr pv
       | None => inl notFound
       end, w)
  | GetClusterID => (clusterID w, w)
  | GetConnection _ => (None, w)
  | GetReplicationGroup cluster name => (lookupGroup w cluster name, w)
  | UpdateReplicationGroup cluster g => updateGroup w cluster g
  | CreateReplicationGroup cluster g => createGroup w cluster g
  | GetNamespace _ name =>
      (if bool_decide (name ∈ remoteNamespaces w)
       then inr {| NamespaceName := name |} else inl notFound, w)
  | RemoteCreateNamespace _ ns =>
      if bool_decide (NamespaceName ns ∈ remoteNamespaces w)
      then (Some alreadyExists, w)
      else (None, withRemote w (remoteNamespaces w ++ [NamespaceName ns])
                    (snapshotClasses w) (snapshotContents w) (snapshots w)
                    (remoteClaims w))
  | GetSnapshotClass _ name =>
      (match snapshotClasses w !! name with
       | Some sc => inr sc
       | None => inl notFound
       end, w)
  | CreateSnapshotClass _ sc =>
      match snapshotClasses w !! ClassName sc with
      | Some _ => (Some alreadyExists, w)
      | None => (None, withRemote w (remoteNamespaces w)
                         (<[ClassName sc := sc]> (snapshotClasses w))
                         (snapshotContents w) (snapshots w) (remoteClaims w))
      end
  | CreateSnapshotContent _ content =>
      (None, withRemote w (remoteNamespaces w) (snapshotClasses w)
               (snapshotContents w ++ [content]) (snapshots w) (remoteClaims w))
  | CreateSnapshotObject _ snap =>
      (None, withRemote w (remoteNamespaces w) (snapshotClasses w)
               (snapshotContents w) (snapshots w ++ [snap]) (remoteClaims w))
  | GetStorageClass _ name =>
      (match storageClasses w !! name with
       | Some sc => inr sc
       | None => inl notFound
       end, w)
  | CreatePersistentVolumeClaim _ claim =>
      (None, withRemote w (remoteNamespaces w) (snapshotClasses w)
               (snapshotContents w) (snapshots w) (remoteClaims w ++ [claim]))
  | NowUnix => (clock w, w)
  end.

(** A decoder for the examples: it accepts the one-field documents
    [{"snapshotNamespace":"ns"}] and refuses everything else. *)
Definition quote : string := String "034"%char EmptyString.

Fixpoint untilQuote (s : string) : option (string * string) :=
  match s with
  | EmptyString => None
  | String c s' =>
      if Ascii.eqb c "034"%char then Some (EmptyString, s')
      else match untilQuote s' with
           | Some (v, rest) => Some (String c v, rest)
           | None => None
           end
  end.

Definition syntaxError : error :=
  {| IsNotFound := false; Error := "invalid character looking for beginning of value" |}.

Definition decode (s : string) : error + ActionAnnotation :=
  match dropPrefix s ("{" +:+ quote +:+ "snapshotNamespace" +:+ quote +:+ ":" +:+ quote) with
  | Some rest =>
      match untilQuote rest with
      | Some (ns, tail) =>
          if String.eqb tail "}" then inr {| SnapshotNamespace := ns |}
          else inl syntaxError
      | None => inl syntaxError
      end
  | None => inl syntaxError
  end.

(** A rendering of instants for the examples. *)
Definition timeString (t : Time) : string := "t=" +:+ pretty t.

End Memory.

(** ** A scripted outside world

    The answers are fixed in advance: every lookup of a kind gets the same
    answer, every write is accepted, and the clock advances by one second
    at each reading.  The state is the clock. *)
Module Script.

Record Answers := {
  clusterID : string;
  localGroup : error + DellCSIReplicationGroup;
  mirror : error + DellCSIReplicationGroup;
  namespace : error + Namespace;
  snapshotClass : error + VolumeSnapshotClass;
  storageClass : error + StorageClass;
  claims : list PersistentVolumeClaim;
  volume : string → error + PersistentVolume
}.

Definition handle (a : Answers) (T : Type) (c : Call T) (now : Z) : T * Z :=
  match c in Call T return T * Z with
  | Get _ => (localGroup a, now)
  | Update _ => (None, now)
  | Delete _ => (None, now)
  | ListClaims _ _ => (inr (claims a), now)
  | GetVolume name => (volume a name, now)
  | GetClusterID => (clusterID a, now)
  | GetConnection _ => (None, now)
  | GetReplicationGroup _ _ => (mirror a, now)
  | UpdateReplicationGroup _ _ => (None, now)
  | CreateReplicationGroup _ _ => (None, now)
  | GetNamespace _ _ => (namespace a, now)
  | RemoteCreateNamespace _ _ => (None, now)
  | GetSnapshotClass _ _ => (snapshotClass a, now)
  | CreateSnapshotClass _ _ => (None, now)
  | CreateSnapshotContent _ _ => (None, now)
  | CreateSnapshotObject _ _ => (None, now)
  | GetStorageClass _ _ => (storageClass a, now)
  | CreatePersistentVolumeClaim _ _ => (None, now)
  | NowUnix => (now, now + 1)
  end.

End Script.

(** ** Resources for the examples *)
Module Sample.

Definition reconciler : ReplicationGroupReconciler :=
  {| Domain := "replication.storage.dell.com" |}.

Definition action (condition : string) (attributes : list (string * string))
    (message : string) (time : option Time) : LastAction :=
  {| Condition := condition; ActionAttributes := attributes;
     ErrorMessage := message; ActionTime := time |}.

Definition noAction : LastAction := action EmptyString [] EmptyString None.

(** A replication group of the driver csi-vxflexos.dellemc.com that
    protects the group pg-local and is replicated to pg-remote. *)
Definition group (name : string) (annotations : list (string * string))
    (finalizers : list string) (deletion : option Time) (remote : string)
    (last : LastAction) : DellCSIReplicationGroup :=
  {| Name := name;
     Annotations := Some (list_to_map annotations);
     Labels := Some {[ controller.DriverName := "csi-vxflexos.dellemc.com" ]};
     Finalizers := finalizers;
     DeletionTimestamp := deletion;
     Spec := {| DriverName := "csi-vxflexos.dellemc.com";
                Action := EmptyString;
                RemoteClusterID := remote;
                ProtectionGroupID := "pg-local";
                ProtectionGroupAttributes := ∅;
                RemoteProtectionGroupID := "pg-remote";
                RemoteProtectionGroupAttributes := ∅ |};
     Status := {| Conditions := match ActionTime last with
                                | Some _ => [last]
                                | None => []
                                end;
                  StatusLastAction := last |} |}.

(** The cluster cluster-A with the given local and remote groups and
    nothing else. *)
Definition clusters (locals remotes : list DellCSIReplicationGroup)
  : Memory.Clusters :=
  {| Memory.clusterID := "cluster-A";
     Memory.localGroups := list_to_map (map (λ g, (Name g, g)) locals);
     Memory.localClaims := [];
     Memory.localVolumes := ∅;
     Memory.remoteGroups := list_to_map (map (λ g, (Name g, g)) remotes);
     Memory.remoteNamespaces := [];
     Memory.snapshotClasses := ∅;
     Memory.snapshotContents := [];
     Memory.snapshots := [];
     Memory.storageClasses := ∅;
     Memory.remoteClaims := [];
     Memory.clock := 1700000000 |}.

(** The snapshot action of scenario C, reported at instant 5. *)
Definition snapshotAction : LastAction :=
  action "CREATE_SNAPSHOT" [("vol-h1", "snap-h1")] EmptyString (Some 5).

(** A document the decoder accepts: the target namespace is ns1. *)
Definition actionDocument : string :=
  "{" +:+ Memory.quote +:+ "snapshotNamespace" +:+ Memory.quote +:+ ":"
  +:+ Memory.quote +:+ "ns1" +:+ Memory.quote +:+ "}".

(** Synced, action processed at an earlier instant, payload unparseable. *)
Definition garbled : DellCSIReplicationGroup :=
  group "rg1"
    [(controller.RGSyncComplete, "yes");
     (controller.RemoteReplicationGroup, "rg1");
     (controller.ActionProcessedTime, Memory.timeString 4);
     (csireplicator.Action, "{not json")]
    [controller.RGFinalizer] None "cluster-B" snapshotAction.

(** Synced, the snapshot action already processed. *)
Definition settled : DellCSIReplicationGroup :=
  group "rg1"
    [(controller.RGSyncComplete, "yes");
     (controller.RemoteReplicationGroup, "rg1");
     (controller.ActionProcessedTime, Memory.timeString 5);
     (csireplicator.Action, actionDocument)]
    [controller.RGFinalizer] None "cluster-B" snapshotAction.

(** Synced, the snapshot action reported after the last processed one. *)
Definition due : DellCSIReplicationGroup :=
  group "rg1"
    [(controller.RGSyncComplete, "yes");
     (controller.RemoteReplicationGroup, "rg1");
     (controller.ActionProcessedTime, Memory.timeString 4);
     (csireplicator.Action, actionDocument)]
    [controller.RGFinalizer] None "cluster-B" snapshotAction.

(** Scenario C of the specification: synced, the snapshot action
    reported, no [ActionProcessedTime] annotation. *)
Definition unstamped : DellCSIReplicationGroup :=
  group "rg1"
    [(controller.RGSyncComplete, "yes");
     (controller.RemoteReplicationGroup, "rg1");
     (csireplicator.Action, actionDocument)]
    [controller.RGFinalizer] None "cluster-B" snapshotAction.

(** A remote cluster on which nothing is found. *)
Definition nothingThere (local : DellCSIReplicationGroup) : Script.Answers :=
  {| Script.clusterID := "cluster-A";
     Script.localGroup := inr local;
     Script.mirror := inl Memory.notFound;
     Script.namespace := inl Memory.notFound;
     Script.snapshotClass := inl Memory.notFound;
     Script.storageClass := inl Memory.notFound;
     Script.claims := [];
     Script.volume := λ _, inl Memory.notFound |}.

(** Scenario B of the specification: annotations present, finalizer in
    place, nothing synced yet. *)
Definition fresh : DellCSIReplicationGroup :=
  group "rg1" [(controller.RemoteRGRetentionPolicy, "retain")]
    [controller.RGFinalizer] None "cluster-B" noAction.

(** An object of the same name on the remote cluster that records
    cluster-A as its origin and has the same driver, but protects other
    groups. *)
Definition conflicting : DellCSIReplicationGroup :=
  {| Name := "rg1";
     Annotations := Some {[ controller.RemoteClusterID := "cluster-A" ]};
     Labels := None;
     Finalizers := [controller.RGFinalizer];
     DeletionTimestamp := None;
     Spec := {| DriverName := "csi-vxflexos.dellemc.com";
                Action := EmptyString;
                RemoteClusterID := "cluster-A";
                ProtectionGroupID := "pg-other";
                ProtectionGroupAttributes := ∅;
                RemoteProtectionGroupID := "pg-local";
                RemoteProtectionGroupAttributes := ∅ |};
     Status := {| Conditions := []; StatusLastAction := noAction |} |}.

(** A remote cluster that answers every lookup of a replication group
    with [found]. *)
Definition mirrorThere (local found : DellCSIReplicationGroup) : Script.Answers :=
  {| Script.clusterID := "cluster-A";
     Script.localGroup := inr local;
     Script.mirror := inr found;
     Script.namespace := inl Memory.notFound;
     Script.snapshotClass := inl Memory.notFound;
     Script.storageClass := inl Memory.notFound;
     Script.claims := [];
     Script.volume := λ _, inl Memory.notFound |}.

(** Being deleted, synced, no retention annotation. *)
Definition leaving : DellCSIReplicationGroup :=
  group "rg1"
    [(controller.RGSyncComplete, "yes");
     (controller.RemoteReplicationGroup, "rg1")]
    [controller.RGFinalizer] (Some 7) "cluster-B" noAction.

(** The mirror of [leaving] on the remote cluster. *)
Definition leavingMirror : DellCSIReplicationGroup :=
  group "rg1"
    [(controller.RemoteReplicationGroup, "rg1");
     (controller.RemoteClusterID, "cluster-A")]
    [controller.RGFinalizer] None "cluster-A" noAction.

(** Two resources mirrored within their own cluster. *)
Definition volA : DellCSIReplicationGroup :=
  group "vol-a" [(controller.RemoteRGRetentionPolicy, "retain")]
    [controller.RGFinalizer] None controller.Self noAction.

Definition replicatedVolA : DellCSIReplicationGroup :=
  group "replicated-vol-a"
    [(controller.RemoteReplicationGroup, "vol-a");
     (controller.RemoteClusterID, controller.Self)]
    [controller.RGFinalizer] None controller.Self noAction.

(** Being deleted under the delete policy, and itself asked to go by its
    peer: it carries [DeletionRequested]. *)
Definition requested : DellCSIReplicationGroup :=
  group "rg1"
    [(controller.RemoteRGRetentionPolicy, "delete");
     (controller.DeletionRequested, "yes");
     (controller.RemoteReplicationGroup, "rg1")]
    [controller.RGFinalizer] (Some 7) "cluster-B" noAction.

(** Being deleted under the delete policy. *)
Definition discarded : DellCSIReplicationGroup :=
  group "rg1"
    [(controller.RemoteRGRetentionPolicy, "Delete");
     (controller.RemoteReplicationGroup, "rg1")]
    [controller.RGFinalizer] (Some 7) "cluster-B" noAction.

(** A mirror on the remote cluster that already carries
    [DeletionRequested]. *)
Definition askedMirror : DellCSIReplicationGroup :=
  group "rg1"
    [(controller.RemoteReplicationGroup, "rg1");
     (controller.DeletionRequested, "yes")]
    [controller.RGFinalizer] None "cluster-A" noAction.

(** A source claim that lives in the namespace ns1, bound to the volume
    pv1 of handle vol-h1. *)
Definition sourceClaim : PersistentVolumeClaim :=
  {| ClaimName := "data";
     ClaimNamespace := "ns1";
     ClaimSpec := {| StorageClassName := Some "fast";
                     AccessModes := ["ReadWriteOnce"];
                     Resources := {[ "storage" := "8Gi" ]};
                     VolumeName := "pv1";
                     DataSource := None |} |}.

(** A local cluster with that claim, in front of a remote cluster on which
    nothing is found. *)
Definition withClaim (local : DellCSIReplicationGroup) : Script.Answers :=
  {| Script.clusterID := "cluster-A";
     Script.localGroup := inr local;
     Script.mirror := inl Memory.notFound;
     Script.namespace := inl Memory.notFound;
     Script.snapshotClass := inl Memory.notFound;
     Script.storageClass := inl Memory.notFound;
     Script.claims := [sourceClaim];
     Script.volume := λ name, inr {| VolumeObjName := name;
                                     VolumeHandle := "vol-h1" |} |}.

Definition vxflexosClass : VolumeSnapshotClass :=
  {| ClassName := "default-vxflexos-snapshotclass";
     ClassDriver := "csi-vxflexos.dellemc.com";
     ClassDeletionPolicy := "Delete" |}.

End Sample.

(** ** Reading a trace *)

Definition isLog (e : Entry) : bool :=
  match e with
  | ELogInfo _ _ | ELogError _ _ _ => true
  | _ => false
  end.

(** The entry is a call that writes to the local or to the remote cluster. *)
Definition mutates (e : Entry) : bool :=
  match e with
  | ECall c _ =>
      match c with
      | Update _ | Delete _
      | UpdateReplicationGroup _ _ | CreateReplicationGroup _ _
      | RemoteCreateNamespace _ _ | CreateSnapshotClass _ _
      | CreateSnapshotContent _ _ | CreateSnapshotObject _ _
      | CreatePersistentVolumeClaim _ _ => true
      | _ => false
      end
  | _ => false
  end.

(** The entry is a write to the remote replication group (an update or a
    creation). *)
Definition writesMirror (e : Entry) : bool :=
  match e with
  | ECall c _ =>
      match c with
      | UpdateReplicationGroup _ _ | CreateReplicationGroup _ _ => true
      | _ => false
      end
  | _ => false
  end.

(** The entry is a call on the remote client. *)
Definition isRemoteCall (e : Entry) : bool :=
  match e with
  | ECall c _ =>
      match c with
      | Get _ | Update _ | Delete _ | ListClaims _ _ | GetVolume _
      | GetClusterID | GetConnection _ | NowUnix => false
      | _ => true
      end
  | _ => false
  end.

(** The name of the replication group the entry creates, if it creates one. *)
Definition createdMirror (e : Entry) : option string :=
  match e with
  | ECall c _ =>
      match c with
      | CreateReplicationGroup _ g => Some (Name g)
      | _ => None
      end
  | _ => None
  end.

(** The snapshot content the materializer is to create for a pair: named
    from the volume handle and the instant, bound to the snapshot object
    "snapshot-" followed by the snapshot handle in the namespace, with the
    class, deletion policy and driver of the snapshot class. *)
Definition contentFor (sc : VolumeSnapshotClass)
    (namespace volumeHandle snapshotHandle : string) (now : Z)
  : VolumeSnapshotContent :=
  {| ContentName := "volume-" +:+ volumeHandle +:+ "-" +:+ FormatInt now;
     VolumeSnapshotRef :=
       {| RefKind := "VolumeSnapshot";
          RefAPIVersion := "snapshot.storage.k8s.io/v1";
          RefName := "snapshot-" +:+ snapshotHandle;
          RefNamespace := namespace |};
     SnapshotHandle := snapshotHandle;
     ContentClassName := ClassName sc;
     ContentDeletionPolicy := ClassDeletionPolicy sc;
     ContentDriver := ClassDriver sc |}.

(** The snapshot object that references that content. *)
Definition snapshotFor (sc : VolumeSnapshotClass)
    (namespace volumeHandle snapshotHandle : string) (now : Z)
  : VolumeSnapshot :=
  {| SnapName := "snapshot-" +:+ snapshotHandle;
     SnapNamespace := namespace;
     SourceContentName :=
       ContentName (contentFor sc namespace volumeHandle snapshotHandle now);
     SnapClassName := ClassName sc |}.

(** The entries of a materialization that creates, pair after pair, the
    content and then the snapshot object, both accepted by the remote
    cluster, each content at the instant the clock gave for it. *)
Inductive Materialized (remoteClient : string) (sc : VolumeSnapshotClass)
    (namespace : string) : list (string * string) → list Entry → Prop :=
| Materialized_nil : Materialized remoteClient sc namespace [] []
| Materialized_cons volumeHandle snapshotHandle rest now entries :
    Materialized remoteClient sc namespace rest entries →
    Materialized remoteClient sc namespace ((volumeHandle, snapshotHandle) :: rest)
      (ELogInfo (Some InfoLevel)
         ("ActionAttributes - volumeHandle: " +:+ volumeHandle
          +:+ ", snapshotHandle: " +:+ snapshotHandle)
       :: ECall NowUnix now
       :: ECall (CreateSnapshotContent remoteClient
                   (contentFor sc namespace volumeHandle snapshotHandle now)) None
       :: ECall (CreateSnapshotObject remoteClient
                   (snapshotFor sc namespace volumeHandle snapshotHandle now)) None
       :: entries).

(** The capital of a small letter. *)
Definition upperAscii (c : ascii) : ascii := ascii_of_nat (nat_of_ascii c - 32).

(** [v] spells [word], a word in small letters, each letter in either
    case. *)
Fixpoint anyCase (word v : string) : Prop :=
  match word, v with
  | EmptyString, EmptyString => True
  | String w word', String c v' => (c = w ∨ c = upperAscii w) ∧ anyCase word' v'
  | _, _ => False
  end.

(** The entry is an update of the local resource that leaves it without
    the finalizer. *)
Definition removesFinalizer (e : Entry) : bool :=
  match e with
  | ECall c _ =>
      match c with
      | Update g => negb (hasFinalizer g controller.RGFinalizer)
      | _ => false
      end
  | _ => false
  end.

(** The entry is a lookup of a remote replication group that was answered
    not-found. *)
Definition notFoundFetch (e : Entry) : bool :=
  match e with
  | ECall c answer =>
      match c in Call T return T → bool with
      | GetReplicationGroup _ _ =>
          λ answer, match answer with
                    | inl err => IsNotFound err
                    | inr _ => false
                    end
      | _ => λ _, false
      end answer
  | _ => false
  end.

(** Every update in the trace that removes the finalizer comes after a
    lookup of the mirror answered not-found ([seen]: one came before the
    trace). *)
Fixpoint removalGuarded (seen : bool) (entries : list Entry) : bool :=
  match entries with
  | [] => true
  | e :: rest =>
      (if removesFinalizer e then seen else true)
      && removalGuarded (seen || notFoundFetch e) rest
  end.

(** The namespace in which the entry creates something on the remote
    cluster: a namespace itself, the snapshot object a content refers to, a
    snapshot object, or a claim. *)
Definition entryNamespace (e : Entry) : option string :=
  match e with
  | ECall c _ =>
      match c with
      | RemoteCreateNamespace _ ns => Some (NamespaceName ns)
      | CreateSnapshotContent _ content =>
          Some (RefNamespace (VolumeSnapshotRef content))
      | CreateSnapshotObject _ snap => Some (SnapNamespace snap)
      | CreatePersistentVolumeClaim _ claim => Some (ClaimNamespace claim)
      | _ => None
      end
  | _ => None
  end.

(** [namespace] with "cloned-" in front, [n] times. *)
Fixpoint cloned (n : nat) (namespace : string) : string :=
  match n with
  | O => namespace
  | S n' => "cloned-" +:+ cloned n' namespace
  end.

(** The source claim that [getPVCInformation] finds for the pair, in the
    state [k] of the outside world, lives in [namespace]. *)
Definition collides {K : Type} (handle : ∀ T, Call T → K → T * K)
    (group : DellCSIReplicationGroup) (namespace : string)
    (kv : string * string) (k : K) : bool :=
  match (value (getPVCInformation handle group kv.1 k)).1 with
  | Some pvc => String.eqb (ClaimNamespace pvc) namespace
  | None => false
  end.

(** ** More ways to read a trace *)

(** The entry is a call. *)
Definition isCall (e : Entry) : bool :=
  match e with
  | ECall _ _ => true
  | _ => false
  end.

(** The entry is a write to the local resource: an update or a deletion. *)
Definition writesLocal (e : Entry) : bool :=
  match e with
  | ECall c _ =>
      match c with
      | Update _ | Delete _ => true
      | _ => false
      end
  | _ => false
  end.

(** The first write to the local resource, if there is one, has no call
    after it. *)
Fixpoint quietAfterWrite (entries : list Entry) : bool :=
  match entries with
  | [] => true
  | e :: rest =>
      if writesLocal e then forallb (λ e', negb (isCall e')) rest
      else quietAfterWrite rest
  end.

(** The entry is one of the calls that serve the derived claims: the
    listing of the source claims, the lookup of a volume or of the storage
    class, the creation of a claim. *)
Definition servesClaims (e : Entry) : bool :=
  match e with
  | ECall c _ =>
      match c with
      | ListClaims _ _ | GetVolume _ | GetStorageClass _ _
      | CreatePersistentVolumeClaim _ _ => true
      | _ => false
      end
  | _ => false
  end.

(** The claim the entry creates, if it creates one. *)
Definition createdClaim (e : Entry) : option PersistentVolumeClaim :=
  match e with
  | ECall c _ =>
      match c with
      | CreatePersistentVolumeClaim _ claim => Some claim
      | _ => None
      end
  | _ => None
  end.

(** The entry is the lookup of a volume. *)
Definition isVolumeLookup (e : Entry) : bool :=
  match e with
  | ECall c _ =>
      match c with
      | GetVolume _ => true
      | _ => false
      end
  | _ => false
  end.

(** The entry is the lookup of the volume [name], answered with a volume of
    handle [volumeHandle]. *)
Definition volumeFound (name volumeHandle : string) (e : Entry) : bool :=
  match e with
  | ECall c answer =>
      match c in Call T return T → bool with
      | GetVolume n =>
          λ answer, match answer with
                    | inr pv => String.eqb n name
                                && String.eqb (VolumeHandle pv) volumeHandle
                    | inl _ => false
                    end
      | _ => λ _, false
      end answer
  | _ => false
  end.

(** The entry creates a snapshot object. *)
Definition isSnapshotCreation (e : Entry) : bool :=
  match e with
  | ECall c _ =>
      match c with
      | CreateSnapshotObject _ _ => true
      | _ => false
      end
  | _ => false
  end.

(** [content] is the creation of a snapshot content that the remote
    cluster accepted and [snapshot] the creation, on the same cluster, of
    the snapshot object of that content: the object names the content as
    its source, the content refers to the object by name and namespace,
    and both are of the same class. *)
Definition bindsContent (content snapshot : Entry) : bool :=
  match content, snapshot with
  | ECall c1 answer, ECall c2 _ =>
      match c1 in Call T return T → bool with
      | CreateSnapshotContent cluster1 ct =>
          λ answer,
            match answer, c2 with
            | None, CreateSnapshotObject cluster2 sn =>
                String.eqb cluster1 cluster2
                && String.eqb (ContentName ct) (SourceContentName sn)
                && String.eqb (RefName (VolumeSnapshotRef ct)) (SnapName sn)
                && String.eqb (RefNamespace (VolumeSnapshotRef ct)) (SnapNamespace sn)
                && String.eqb (ContentClassName ct) (SnapClassName sn)
            | _, _ => false
            end
      | _ => λ _, false
      end answer
  | _, _ => false
  end.

(** Every creation of a snapshot object in the trace comes right after the
    accepted creation of its content ([previous]: the entry before the
    trace). *)
Fixpoint snapshotsFollowContents (previous : option Entry) (entries : list Entry)
  : bool :=
  match entries with
  | [] => true
  | e :: rest =>
      (if isSnapshotCreation e
       then match previous with
            | Some p => bindsContent p e
            | None => false
            end
       else true)
      && snapshotsFollowContents (Some e) rest
  end.

(** The entry is one the snapshot materializer leaves: a log line, a line
    on standard output, a reading of the clock, a lookup of the source
    claims and volumes, or a lookup or creation of a namespace, snapshot
    class, snapshot content, snapshot object, storage class or claim on the
    remote cluster.  It is not an event, no call about a replication group
    and no write to the local cluster. *)
Definition materializes (e : Entry) : bool :=
  match e with
  | ECall c _ =>
      match c with
      | ListClaims _ _ | GetVolume _ | GetNamespace _ _
      | RemoteCreateNamespace _ _ | GetSnapshotClass _ _
      | CreateSnapshotClass _ _ | CreateSnapshotContent _ _
      | CreateSnapshotObject _ _ | GetStorageClass _ _
      | CreatePersistentVolumeClaim _ _ | NowUnix => true
      | _ => false
      end
  | EEvent _ _ _ _ => false
  | _ => true
  end.

(** ** An outside world with faults

    The scripted answers of [Script], with the faults that are set: a
    connection that is not resolved, a listing of claims that fails, writes
    to the local cluster or to the remote cluster that are refused. *)
Module Outage.

Record Faults := {
  connection : option error;
  listing : option error;
  localWrites : option error;
  remoteWrites : option error
}.

Definition refused : error := {| IsNotFound := false; Error := "refused" |}.

Definition handle (a : Script.Answers) (f : Faults) (T : Type) (c : Call T) (now : Z)
  : T * Z :=
  match c in Call T return T * Z with
  | Get _ => (Script.localGroup a, now)
  | Update _ => (localWrites f, now)
  | Delete _ => (localWrites f, now)
  | ListClaims _ _ =>
      (match listing f with
       | Some e => inl e
       | None => inr (Script.claims a)
       end, now)
  | GetVolume name => (Script.volume a name, now)
  | GetClusterID => (Script.clusterID a, now)
  | GetConnection _ => (connection f, now)
  | GetReplicationGroup _ _ => (Script.mirror a, now)
  | UpdateReplicationGroup _ _ => (remoteWrites f, now)
  | CreateReplicationGroup _ _ => (remoteWrites f, now)
  | GetNamespace _ _ => (Script.namespace a, now)
  | RemoteCreateNamespace _ _ => (remoteWrites f, now)
  | GetSnapshotClass _ _ => (Script.snapshotClass a, now)
  | CreateSnapshotClass _ _ => (remoteWrites f, now)
  | CreateSnapshotContent _ _ => (remoteWrites f, now)
  | CreateSnapshotObject _ _ => (remoteWrites f, now)
  | GetStorageClass _ _ => (Script.storageClass a, now)
  | CreatePersistentVolumeClaim _ _ => (remoteWrites f, now)
  | NowUnix => (now, now + 1)
  end.

Definition unreachable : Faults :=
  {| connection := Some refused; listing := None;
     localWrites := None; remoteWrites := None |}.

Definition readOnlyRemote : Faults :=
  {| connection := None; listing := None;
     localWrites := None; remoteWrites := Some refused |}.

Definition unlisted : Faults :=
  {| connection := None; listing := Some refused;
     localWrites := None; remoteWrites := None |}.

End Outage.

(** ** More resources for the examples *)
Module Cases.

(** A local cluster on which the resource is not found. *)
Definition gone : Script.Answers :=
  {| Script.clusterID := "cluster-A";
     Script.localGroup := inl Memory.notFound;
     Script.mirror := inl Memory.notFound;
     Script.namespace := inl Memory.notFound;
     Script.snapshotClass := inl Memory.notFound;
     Script.storageClass := inl Memory.notFound;
     Script.claims := [];
     Script.volume := λ _, inl Memory.notFound |}.

(** A remote cluster whose lookups of replication groups fail. *)
Definition unreadable (local : DellCSIReplicationGroup) : Script.Answers :=
  {| Script.clusterID := "cluster-A";
     Script.localGroup := inr local;
     Script.mirror := inl Outage.refused;
     Script.namespace := inl Memory.notFound;
     Script.snapshotClass := inl Memory.notFound;
     Script.storageClass := inl Memory.notFound;
     Script.claims := [];
     Script.volume := λ _, inl Memory.notFound |}.

(** A remote cluster that has the namespace ns1 and no snapshot class. *)
Definition namespaceThere (local : DellCSIReplicationGroup) : Script.Answers :=
  {| Script.clusterID := "cluster-A";
     Script.localGroup := inr local;
     Script.mirror := inl Memory.notFound;
     Script.namespace := inr {| NamespaceName := "ns1" |};
     Script.snapshotClass := inl Memory.notFound;
     Script.storageClass := inl Memory.notFound;
     Script.claims := [];
     Script.volume := λ _, inl Memory.notFound |}.

(** The storage class fast, with replication enabled. *)
Definition replicatingClass : StorageClass :=
  {| StorageClassObjName := "fast";
     Parameters := Some {[ controller.StorageClassReplicationParam := "true" ]} |}.

(** The clusters of [Sample.withClaim], where the storage class of the
    snapshots has replication enabled. *)
Definition replicating (local : DellCSIReplicationGroup) : Script.Answers :=
  {| Script.clusterID := "cluster-A";
     Script.localGroup := inr local;
     Script.mirror := inl Memory.notFound;
     Script.namespace := inl Memory.notFound;
     Script.snapshotClass := inl Memory.notFound;
     Script.storageClass := inr replicatingClass;
     Script.claims := [Sample.sourceClaim];
     Script.volume := λ name, inr {| VolumeObjName := name;
                                     VolumeHandle := "vol-h1" |} |}.

(** A claim bound to the volume [volume]. *)
Definition claimOn (name volume : string) : PersistentVolumeClaim :=
  {| ClaimName := name;
     ClaimNamespace := "apps";
     ClaimSpec := {| StorageClassName := Some "fast";
                     AccessModes := ["ReadWriteOnce"];
                     Resources := {[ "storage" := "8Gi" ]};
                     VolumeName := volume;
                     DataSource := None |} |}.

(** Three claims; the volume of the second one cannot be looked up, every
    other volume has its own name as handle. *)
Definition brokenVolume : Script.Answers :=
  {| Script.clusterID := "cluster-A";
     Script.localGroup := inl Memory.notFound;
     Script.mirror := inl Memory.notFound;
     Script.namespace := inl Memory.notFound;
     Script.snapshotClass := inl Memory.notFound;
     Script.storageClass := inl Memory.notFound;
     Script.claims := [claimOn "logs" "pv0"; claimOn "cache" "pv-gone";
                       claimOn "data" "pv1"];
     Script.volume := λ name, if String.eqb name "pv-gone"
                              then inl Outage.refused
                              else inr {| VolumeObjName := name;
                                          VolumeHandle := name |} |}.

(** Active and annotated, without the finalizer. *)
Definition bare : DellCSIReplicationGroup :=
  Sample.group "rg1" [(controller.RemoteRGRetentionPolicy, "retain")]
    [] None "cluster-B" Sample.noAction.

(** Under deletion and asked to go by its peer, without the finalizer. *)
Definition orphan : DellCSIReplicationGroup :=
  Sample.group "rg1" [(controller.DeletionRequested, "yes")]
    [] (Some 7) "cluster-B" Sample.noAction.

(** Active, with the finalizer, asked to go by its peer. *)
Definition dismissed : DellCSIReplicationGroup :=
  Sample.group "rg1" [(controller.DeletionRequested, "yes")]
    [controller.RGFinalizer] None "cluster-B" Sample.noAction.

(** An object named rg1 on the remote cluster that records cluster-C as
    its origin. *)
Definition stranger : DellCSIReplicationGroup :=
  Sample.group "rg1" [] [] None "cluster-C" Sample.noAction.

(** Not synced yet, with a recorded mirror name that repeats the
    prefix. *)
Definition twice : DellCSIReplicationGroup :=
  Sample.group "rg1"
    [(controller.RemoteReplicationGroup, "replicated-replicated-rg1")]
    [controller.RGFinalizer] None "cluster-B" Sample.noAction.

(** The mirror of [Sample.settled], as cluster-A creates it. *)
Definition counterpart : DellCSIReplicationGroup :=
  mirrorObject Sample.reconciler Sample.settled "rg1" "cluster-A" "rg1".

(** Synced; the last action failed upstream. *)
Definition failed : DellCSIReplicationGroup :=
  Sample.group "rg1"
    [(controller.RGSyncComplete, "yes");
     (controller.RemoteReplicationGroup, "rg1")]
    [controller.RGFinalizer] None "cluster-B"
    (Sample.action "CREATE_SNAPSHOT" [] "snapshot failed" (Some 5)).

(** Synced; a failover reported after the last processed action. *)
Definition failedOver : DellCSIReplicationGroup :=
  Sample.group "rg1"
    [(controller.RGSyncComplete, "yes");
     (controller.RemoteReplicationGroup, "rg1");
     (controller.ActionProcessedTime, Memory.timeString 4)]
    [controller.RGFinalizer] None "cluster-B"
    (Sample.action "FAILOVER_REMOTE" [] EmptyString (Some 5)).

(** [Sample.due] with the snapshot class gold asked for. *)
Definition classy : DellCSIReplicationGroup :=
  Sample.group "rg1"
    [(controller.RGSyncComplete, "yes");
     (controller.RemoteReplicationGroup, "rg1");
     (controller.ActionProcessedTime, Memory.timeString 4);
     (csireplicator.Action, Sample.actionDocument);
     (controller.SnapshotClass, "gold")]
    [controller.RGFinalizer] None "cluster-B" Sample.snapshotAction.

(** A resource whose remote attributes are to be projected into labels:
    the context prefix is "powerstore". *)
Definition labelled : DellCSIReplicationGroup :=
  {| Name := "rg1";
     Annotations := Some {[ controller.ContextPrefix := "powerstore" ]};
     Labels := Some {[ controller.DriverName := "csi-powerstore.dellemc.com" ]};
     Finalizers := [controller.RGFinalizer];
     DeletionTimestamp := None;
     Spec := {| DriverName := "csi-powerstore.dellemc.com";
                Action := EmptyString;
                RemoteClusterID := "cluster-B";
                ProtectionGroupID := "pg-local";
                ProtectionGroupAttributes := ∅;
                RemoteProtectionGroupID := "pg-remote";
                RemoteProtectionGroupAttributes :=
                  {[ "powerstore/zone" := "east"; "array" := "PS-1" ]} |};
     Status := {| Conditions := []; StatusLastAction := Sample.noAction |} |}.

End Cases.

(** ** Properties of the action processor *)

Section ActionProcessor.

Context {K : Type}.
Variable handle : ∀ T, Call T → K → T * K.
Variable Unmarshal : string → error + ActionAnnotation.
Variable TimeString : Time → string.

Local Abbreviation step := (processLastActionResult handle Unmarshal TimeString).

(** The annotation that [AddAnnotation] sets reads back. *)
Lemma mapGet_AddAnnotation g key v :
  mapGet (Annotations (AddAnnotation g key v)) key = v.
Proof. simpl. by rewrite lookup_insert_eq. Qed.

Lemma mapHas_AddAnnotation g key v :
  mapHas (Annotations (AddAnnotation g key v)) key = true.
Proof. simpl. rewrite lookup_insert_eq. by apply bool_decide_eq_true. Qed.

(** C3. When the [ActionProcessedTime] annotation of the resource already
    equals the timestamp of its [LastAction], the action-processing step
    dispatches nothing, makes no call on either cluster and updates no
    annotation: it leaves log lines only, the outside world and the
    resource are as before.  (It returns nil, or the upstream failure when
    [LastAction] carries an error message.) *)
Theorem processed_action_is_skipped r group remoteClient (k : K) t :
  ActionTime (StatusLastAction (Status group)) = Some t →
  mapHas (Annotations group) controller.ActionProcessedTime = true →
  mapGet (Annotations group) controller.ActionProcessedTime = TimeString t →
  let out := step r group remoteClient k in
  Forall (λ e, isLog e = true) (trace out)
  ∧ world out = k
  ∧ (value out).1 = group
  ∧ (value out).2 =
      match Conditions (Status group) with
      | [] => None
      | _ :: _ =>
          if String.eqb (ErrorMessage (StatusLastAction (Status group))) EmptyString
          then None
          else Some (Errorf ("last action failed: "
                             +:+ Condition (StatusLastAction (Status group))))
      end.
Proof.
  intros Ht Hhas Hget. unfold processLastActionResult.
  rewrite Ht, Hhas, Hget, String.eqb_refl.
  destruct (Conditions (Status group)); simpl.
  - repeat split; auto.
  - destruct (String.eqb (ErrorMessage _) EmptyString); simpl;
      repeat split; auto.
Qed.

(** The group a step hands back is settled: a second step on it, whatever
    the outside world has become, leaves log lines only. *)
Lemma second_step_only_logs r group remoteClient (k k' : K) :
  let out := step r group remoteClient k in
  Forall (λ e, isLog e = true) (trace (step r (value out).1 remoteClient k')).
Proof.
  unfold processLastActionResult.
  destruct (Conditions (Status group)) eqn:Hc; simpl.
  { rewrite Hc. simpl. auto. }
  destruct (ActionTime (StatusLastAction (Status group))) as [t|] eqn:Ht; simpl.
  2:{ rewrite Hc, Ht. simpl. auto. }
  destruct (String.eqb (ErrorMessage _) EmptyString) eqn:He; simpl.
  2:{ rewrite Hc, Ht, He. simpl. auto. }
  destruct (mapHas (Annotations group) controller.ActionProcessedTime) eqn:Hh; simpl.
  2:{ rewrite Hc, Ht, He, Hh. simpl. auto. }
  destruct (String.eqb (mapGet (Annotations group) controller.ActionProcessedTime)
              (TimeString t)) eqn:Hg; simpl.
  { rewrite Hc, Ht, He, Hh, Hg. simpl. auto. }
  rewrite Hc, Ht, He. simpl.
  rewrite lookup_insert_eq. simpl.
  rewrite String.eqb_refl. simpl. auto.
Qed.


(** Without claim creation, and on a remote cluster that accepts the
    contents and the snapshot objects, the loop creates both for every pair,
    in the namespace it started from. *)
Lemma snapshotPairs_materialize group remoteClient sc storageClass namespace :
  (∀ k c, (handle _ (CreateSnapshotContent remoteClient c) k).1 = None) →
  (∀ k s, (handle _ (CreateSnapshotObject remoteClient s) k).1 = None) →
  ∀ pairs (k : K),
    let out := snapshotPairs handle group remoteClient sc false storageClass
                 namespace pairs k in
    value out = (None, namespace)
    ∧ Materialized remoteClient sc namespace pairs (trace out).
Proof.
  intros Hco Hso pairs. induction pairs as [|[vh sh] rest IH]; intros k.
  - simpl. split; [done | constructor].
  - simpl. rewrite Hco. simpl. rewrite Hso. simpl.
    match goal with
    | |- context [snapshotPairs _ _ _ _ _ _ _ rest ?k'] =>
        destruct (IH k') as [Hv Hm]
    end.
    split; [exact Hv|].
    apply Materialized_cons. exact Hm.
Qed.

(** The step of the proof below that names the entries of the loop. *)
Ltac loop_entries Hco Hso :=
  match goal with
  | |- context [snapshotPairs ?h ?g ?rc ?sc ?b ?st ?ns ?ps ?k'] =>
      let Hv := fresh "Hv" in
      let Hm := fresh "Hm" in
      destruct (snapshotPairs_materialize g rc sc st ns Hco Hso ps k') as [Hv Hm];
      exists (trace (snapshotPairs h g rc sc b st ns ps k'));
      rewrite Hv; simpl; rewrite ?app_nil_r; eexists;
      split; [reflexivity | split; [reflexivity | exact Hm]]
  end.

(** C1, as the code has it.  On a resource whose [LastAction] is due
    (conditions recorded, a timestamp, no error message, a condition
    containing "CREATE_SNAPSHOT") and that carries an [ActionProcessedTime]
    annotation different from the timestamp, one step runs the
    materializer and then stamps [ActionProcessedTime] with the timestamp.
    With no snapshot-class override, no claim creation and a remote cluster
    that accepts what is created, the materializer creates the namespace
    when its lookup fails, the class default-<driver>-snapshotclass when its
    lookup answers not-found, and for every pair a content named from the
    volume handle and the instant and a snapshot object that references
    it; the update of the stamped resource is the last entry. *)
Theorem due_snapshot_action_is_dispatched_then_stamped
    r group remoteClient (k : K) t doc :
  Conditions (Status group) ≠ [] →
  ActionTime (StatusLastAction (Status group)) = Some t →
  ErrorMessage (StatusLastAction (Status group)) = EmptyString →
  mapHas (Annotations group) controller.ActionProcessedTime = true →
  mapGet (Annotations group) controller.ActionProcessedTime ≠ TimeString t →
  Contains (Condition (StatusLastAction (Status group))) "CREATE_SNAPSHOT" = true →
  mapHas (Annotations group) csireplicator.Action = true →
  Unmarshal (mapGet (Annotations group) csireplicator.Action) = inr doc →
  mapGet (Annotations group) controller.SnapshotClass = EmptyString →
  mapGet (Annotations group) (Domain r +:+ "/snapshotCreatePVC") ≠ "true" →
  (∀ k ns, (handle _ (RemoteCreateNamespace remoteClient ns) k).1 = None) →
  (∀ k name e, (handle _ (GetSnapshotClass remoteClient name) k).1 = inl e →
               IsNotFound e = true) →
  (∀ k sc, (handle _ (CreateSnapshotClass remoteClient sc) k).1 = None) →
  (∀ k c, (handle _ (CreateSnapshotContent remoteClient c) k).1 = None) →
  (∀ k s, (handle _ (CreateSnapshotObject remoteClient s) k).1 = None) →
  let out := step r group remoteClient k in
  let stamped := AddAnnotation group controller.ActionProcessedTime (TimeString t) in
  let namespace := SnapshotNamespace doc in
  let driver := mapGet (Labels group) controller.DriverName in
  let class := defaultSnapshotClass driver in
  ∃ nsAnswer classAnswer entries updateAnswer,
    let sc := match classAnswer with
              | inr found => found
              | inl _ => makeSnapshotClassRef driver class
              end in
    value out = (stamped, None)
    ∧ trace out =
        ECall (GetNamespace remoteClient namespace) nsAnswer
        :: match nsAnswer with
           | inl _ =>
               [ELogInfo (Some InfoLevel)
                  ("Namespace - " +:+ namespace +:+ " not found, creating it.");
                ECall (RemoteCreateNamespace remoteClient
                         (makeNamespaceReference namespace)) None]
           | inr _ => []
           end
        ++ ECall (GetSnapshotClass remoteClient class) classAnswer
        :: match classAnswer with
           | inl _ =>
               [ELogInfo (Some InfoLevel)
                  "Snapshotclass %s not found, creating a default class";
                ECall (CreateSnapshotClass remoteClient
                         (makeSnapshotClassRef driver class)) None]
           | inr _ => []
           end
        ++ entries ++ [ECall (Update stamped) updateAnswer]
    ∧ Materialized remoteClient sc namespace
        (ActionAttributes (StatusLastAction (Status group))) entries.
Proof.
  intros Hc Ht He Hh Hg Hs Ha Hu Hcls Hpvc Hns Hgc Hcc Hco Hso.
  unfold processLastActionResult, processSnapshotEvent.
  destruct (Conditions (Status group)) as [|c cs]; [done|].
  rewrite Ht, He, Hh, Hs, Ha, Hu, Hcls. simpl.
  apply String.eqb_neq in Hg, Hpvc. rewrite Hg, Hpvc. simpl.
  set (namespace := SnapshotNamespace doc).
  set (driver := mapGet (Labels group) controller.DriverName).
  set (class := defaultSnapshotClass driver).
  set (storage := mapGet (Annotations group) (Domain r +:+ "/snapshotStorageClass")).
  destruct (handle _ (GetNamespace remoteClient namespace) k) as [nsAnswer k1] eqn:E1.
  simpl.
  exists nsAnswer.
  destruct nsAnswer as [nsErr|nsObj]; simpl.
  - rewrite Hns. simpl.
    set (k2 := (handle _ (RemoteCreateNamespace remoteClient _) k1).2).
    destruct (handle _ (GetSnapshotClass remoteClient class) k2)
      as [classAnswer k3] eqn:E3.
    simpl. exists classAnswer.
    destruct classAnswer as [clsErr|found]; simpl.
    + rewrite (Hgc k2 class clsErr) by (by rewrite E3). simpl.
      rewrite Hcc. simpl.
      loop_entries Hco Hso.
    + loop_entries Hco Hso.
  - destruct (handle _ (GetSnapshotClass remoteClient class) k1)
      as [classAnswer k3] eqn:E3.
    simpl. exists classAnswer.
    destruct classAnswer as [clsErr|found]; simpl.
    + rewrite (Hgc k1 class clsErr) by (by rewrite E3). simpl.
      rewrite Hcc. simpl.
      loop_entries Hco Hso.
    + loop_entries Hco Hso.
Qed.

End ActionProcessor.

(** ** Properties of the pass *)

Section Pass.

Context {K : Type}.
Variable handle : ∀ T, Call T → K → T * K.
Variable Unmarshal : string → error + ActionAnnotation.
Variable TimeString : Time → string.

Local Abbreviation pass := (Reconcile handle Unmarshal TimeString).

(** Comparisons of strings, as facts. *)
Lemma eqb_false_of_ne (a b : string) : a ≠ b → String.eqb a b = false.
Proof. apply String.eqb_neq. Qed.

(** A list that ends with [tail] is some list followed by [tail]. *)
Lemma ends_here (tail : list Entry) : tail = ([] ++ tail)%list.
Proof. reflexivity. Qed.

Lemma ends_later (e : Entry) (l before tail : list Entry) :
  l = (before ++ tail)%list → e :: l = ((e :: before) ++ tail)%list.
Proof. intros ->. reflexivity. Qed.

(** Finds the entries that come before the expected end of a trace. *)
Ltac find_before :=
  repeat first [ apply ends_here | apply ends_later ].

(** C6. The pass reaches the lookup of the mirror (annotations present,
    the resource active, finalizer in place, no deletion request, the
    connection resolved) and the lookup finds an object that records the
    local cluster as its origin and has the driver of the local resource,
    but whose protection-group identifier or remote protection-group
    identifier is not the one of the intended mirror.  Then the pass
    records a warning event, logs an error, and returns success without a
    retry; none of its calls writes to the local or to the remote
    cluster. *)
Theorem conflicting_mirror_stops r req localRG rgObj cid (k : K) :
  let remoteClusterID := RemoteClusterID (Spec localRG) in
  (handle _ (Get req) k).1 = inr localRG →
  Annotations localRG ≠ None →
  IsZero (DeletionTimestamp localRG) = true →
  hasFinalizer localRG controller.RGFinalizer = true →
  mapHas (Annotations localRG) controller.DeletionRequested = false →
  (∀ k, (handle _ GetClusterID k).1 = cid) →
  (∀ k, (handle _ (GetConnection remoteClusterID) k).1 = None) →
  (∀ k, (handle _ (GetReplicationGroup remoteClusterID (mirrorName localRG req)) k).1
        = inr rgObj) →
  RemoteClusterID (Spec rgObj) = originClusterID localRG cid →
  DriverName (Spec rgObj) = DriverName (Spec localRG) →
  ProtectionGroupID (Spec rgObj) ≠ RemoteProtectionGroupID (Spec localRG)
  ∨ RemoteProtectionGroupID (Spec rgObj) ≠ ProtectionGroupID (Spec localRG) →
  let out := pass r req k in
  value out = (noRequeue, None)
  ∧ Forall (λ e, mutates e = false) (trace out)
  ∧ ∃ before : list Entry,
      trace out =
        (before ++
        [ECall (GetReplicationGroup remoteClusterID (mirrorName localRG req))
           (inr rgObj);
         ELogInfo (Some InfoLevel) " The RG already exists on the remote cluster";
         EEvent (Name localRG) eventTypeWarning eventReasonUpdated
           ("Found conflicting RG on remote ClusterId: " +:+ remoteClusterID);
         ELogError None
           (Some (Errorf ("conflicting RG with name: " +:+ req
                          +:+ " exists on ClusterId: " +:+ remoteClusterID)))
           "stopping reconcile"])%list.
Proof.
  intros remoteClusterID Hget Hann Hlive Hfin Hreq Hid Hconn Hlook Horigin Hdrv Hpg.
  subst remoteClusterID.
  unfold Reconcile, syncBranch, verifyRemote, AddFinalizerIfNotExist.
  simpl. rewrite Hget.
  destruct (Annotations localRG) as [annos|] eqn:Ha; [|done].
  rewrite <- Ha in Hreq.
  simpl. rewrite Hlive. simpl. rewrite Hfin. simpl.
  rewrite Hconn. simpl. rewrite Hreq. simpl. rewrite Hlook. simpl.
  rewrite Hid, Horigin, String.eqb_refl, Hdrv, String.eqb_refl. simpl.
  assert (Hne : negb (String.eqb (ProtectionGroupID (Spec rgObj))
                        (RemoteProtectionGroupID (Spec localRG)))
                || negb (String.eqb (RemoteProtectionGroupID (Spec rgObj))
                           (ProtectionGroupID (Spec localRG))) = true).
  { destruct Hpg as [H|H]; apply String.eqb_neq in H; rewrite H; simpl; auto.
    apply orb_true_r. }
  rewrite Hne. simpl.
  destruct (syncComplete localRG);
    destruct (bool_decide (is_Some (annos !! controller.RemoteRGRetentionPolicy)));
    simpl; (split; [reflexivity|]); (split; [repeat constructor|]).
  all: eexists; find_before.
Qed.

(** C7. The pass reaches the lookup of the mirror on a resource that
    carries [RGSyncComplete] = "yes", and the lookup answers not-found.
    Then the pass logs the anomaly and returns success without a retry; it
    creates nothing: none of its calls writes to either cluster. *)
Theorem vanished_mirror_is_not_recreated r req localRG e (k : K) :
  let remoteClusterID := RemoteClusterID (Spec localRG) in
  (handle _ (Get req) k).1 = inr localRG →
  Annotations localRG ≠ None →
  IsZero (DeletionTimestamp localRG) = true →
  hasFinalizer localRG controller.RGFinalizer = true →
  mapHas (Annotations localRG) controller.DeletionRequested = false →
  (∀ k, (handle _ (GetConnection remoteClusterID) k).1 = None) →
  syncComplete localRG = true →
  (∀ k, (handle _ (GetReplicationGroup remoteClusterID (mirrorName localRG req)) k).1
        = inl e) →
  IsNotFound e = true →
  let out := pass r req k in
  value out = (noRequeue, None)
  ∧ Forall (λ e, mutates e = false) (trace out)
  ∧ ∃ before : list Entry,
      trace out =
        (before ++
         [ECall (GetReplicationGroup remoteClusterID (mirrorName localRG req))
            (inl e);
          ELogError None (Some e)
            "Something went wrong. Local RG has already been synced to the remote cluster";
          ELogInfo (Some InfoLevel)
            ("RG not found on target cluster. "
             +:+ "Since the local RG carries a SyncComplete annotation, "
             +:+ "we will not be creating RG on remote once again.")])%list.
Proof.
  intros remoteClusterID Hget Hann Hlive Hfin Hreq Hconn Hsync Hlook Hnf.
  subst remoteClusterID.
  unfold Reconcile, syncBranch, verifyRemote, AddFinalizerIfNotExist.
  simpl. rewrite Hget.
  destruct (Annotations localRG) as [annos|] eqn:Ha; [|done].
  rewrite <- Ha in Hreq.
  simpl. rewrite Hlive. simpl. rewrite Hfin. simpl.
  rewrite Hconn. simpl. rewrite Hreq. simpl. rewrite Hlook. simpl.
  rewrite Hnf, Hsync. simpl.
  destruct (bool_decide (is_Some (annos !! controller.RemoteRGRetentionPolicy)));
    simpl; (split; [reflexivity|]); (split; [repeat constructor|]).
  all: eexists; find_before.
Qed.

(** C9, as the code has it.  On an active resource that has its finalizer
    and annotations, no mirror-name override, no deletion request and no
    sync mark, whose remote cluster is not "self" and holds no object of
    the name of the resource, the pass creates the mirror under that name
    with the swapped protection-group fields, records a normal event, and
    in the same pass marks the local resource [RGSyncComplete] = "yes"
    (with the mirror name in [RemoteReplicationGroup]) and sends the
    update, whose outcome is the outcome of the pass. *)
Theorem mirror_is_created_and_marked r req localRG cid e (k : K) :
  let remoteClusterID := RemoteClusterID (Spec localRG) in
  (handle _ (Get req) k).1 = inr localRG →
  Annotations localRG ≠ None →
  IsZero (DeletionTimestamp localRG) = true →
  hasFinalizer localRG controller.RGFinalizer = true →
  mapHas (Annotations localRG) controller.DeletionRequested = false →
  (∀ k, (handle _ GetClusterID k).1 = cid) →
  (∀ k, (handle _ (GetConnection remoteClusterID) k).1 = None) →
  syncComplete localRG = false →
  mapGet (Annotations localRG) controller.RemoteReplicationGroup = EmptyString →
  remoteClusterID ≠ controller.Self →
  (∀ k, (handle _ (GetReplicationGroup remoteClusterID req) k).1 = inl e) →
  IsNotFound e = true →
  Contains req "replicated-replicated" = false →
  (∀ k g, (handle _ (CreateReplicationGroup remoteClusterID g) k).1 = None) →
  let out := pass r req k in
  let mirror := mirrorObject r localRG req cid req in
  let recorded := if Contains req replicated
                  then TrimPrefix req "replicated-" else req in
  let marked := AddAnnotation
                  (AddAnnotation localRG controller.RemoteReplicationGroup recorded)
                  controller.RGSyncComplete "yes" in
  Name mirror = req
  ∧ ProtectionGroupID (Spec mirror) = RemoteProtectionGroupID (Spec localRG)
  ∧ RemoteProtectionGroupID (Spec mirror) = ProtectionGroupID (Spec localRG)
  ∧ ProtectionGroupAttributes (Spec mirror)
    = RemoteProtectionGroupAttributes (Spec localRG)
  ∧ RemoteProtectionGroupAttributes (Spec mirror)
    = ProtectionGroupAttributes (Spec localRG)
  ∧ mapGet (Annotations marked) controller.RGSyncComplete = "yes"
  ∧ ∃ (before : list Entry) answer,
      value out = (noRequeue, answer)
      ∧ trace out =
          (before ++
           [ECall (GetReplicationGroup remoteClusterID req) (inl e);
            ECall (CreateReplicationGroup remoteClusterID mirror) None;
            ELogInfo (Some InfoLevel)
              "The remote RG has been successfully created!!";
            EEvent (Name localRG) eventTypeNormal eventReasonUpdated
              ("Created remote ReplicationGroup with name: " +:+ req
               +:+ " on cluster: " +:+ remoteClusterID);
            ECall (Update marked) answer])%list.
Proof.
  intros remoteClusterID Hget Hann Hlive Hfin Hreq Hid Hconn Hsync Hover Hself
    Hlook Hnf Hrr Hcreate.
  subst remoteClusterID.
  assert (Hname : mirrorName localRG req = req).
  { unfold mirrorName. rewrite Hsync, Hover. simpl.
    apply String.eqb_neq in Hself. by rewrite Hself. }
  assert (Horigin : originClusterID localRG cid = cid).
  { unfold originClusterID. apply String.eqb_neq in Hself. by rewrite Hself. }
  repeat (split; [first [reflexivity | by rewrite mapGet_AddAnnotation]|]).
  unfold Reconcile, syncBranch, verifyRemote, AddFinalizerIfNotExist.
  simpl. rewrite Hget.
  destruct (Annotations localRG) as [annos|] eqn:Ha; [|done].
  rewrite <- Ha in Hreq.
  simpl. rewrite Hlive. simpl. rewrite Hfin. simpl.
  rewrite Hconn. simpl. rewrite Hreq. simpl.
  rewrite Hname, Hid, Horigin.
  rewrite Hlook. simpl. rewrite Hnf, Hsync, Hrr. simpl.
  rewrite Hcreate. simpl.
  destruct (bool_decide (is_Some (annos !! controller.RemoteRGRetentionPolicy)));
    simpl; eexists _, _; (split; [reflexivity|]); find_before.
Qed.

(** The letters of "delete" and the characters that fold to them. *)
Lemma lowerAscii_letter (c x : ascii) :
  x ∈ ["d"; "e"; "l"; "t"]%char →
  lowerAscii c = x ↔ c = x ∨ c = upperAscii x.
Proof.
  intros Hx.
  repeat (apply elem_of_cons in Hx as [->|Hx]); [| | | |by apply elem_of_nil in Hx];
    destruct c as [[] [] [] [] [] [] [] []]; vm_compute;
    (split; [intros H; first [discriminate H | auto]
            | intros [H|H]; first [discriminate H | reflexivity]]).
Qed.

(** The retention decision is case-insensitive: the policy asks for the
    deletion of the mirror exactly when it spells "delete" in any case. *)
Lemma deleteRemote_anyCase (v : string) :
  deleteRemote v = true ↔ anyCase "delete" v.
Proof.
  unfold deleteRemote. rewrite String.eqb_eq.
  destruct v as [|c1 [|c2 [|c3 [|c4 [|c5 [|c6 [|c7 v]]]]]]]; simpl;
    try (split; [discriminate | tauto]).
  rewrite <- !lowerAscii_letter by (repeat constructor).
  split.
  - intros H. injection H as -> -> -> -> -> ->. tauto.
  - intros (-> & -> & -> & -> & -> & -> & _). reflexivity.
Qed.

(** Case analysis on every test and every answer in the goal. *)
Ltac paths :=
  repeat (simpl;
          match goal with
          | |- context [if ?b then _ else _] => destruct b eqn:?
          | |- context [match ?x with _ => _ end] => destruct x eqn:?
          end).

(** The deletion branch under a policy that retains the mirror: it writes
    nothing to the remote replication group, and it falls through only
    when the resource has no finalizer. *)
Lemma deletionBranch_retain localRG remoteClient retentionPolicy (k : K) :
  deleteRemote retentionPolicy = false →
  let out := deletionBranch handle localRG remoteClient retentionPolicy k in
  Forall (λ e, writesMirror e = false) (trace out)
  ∧ (value out = None → hasFinalizer localRG controller.RGFinalizer = false).
Proof.
  intros Hretain. unfold deletionBranch, RemoveFinalizerIfExists.
  rewrite Hretain.
  destruct (hasFinalizer localRG controller.RGFinalizer);
    paths; (split; [repeat constructor | first [discriminate | reflexivity]]).
Qed.

(** The pass after the deletion branch, on a resource without finalizer:
    it adds the finalizer, sends the update and ends. *)
Lemma syncBranch_adds_finalizer r localRG remoteRG localRGName localClusterID
    remoteClusterID remoteRGName rgSyncComplete (k : K) :
  hasFinalizer localRG controller.RGFinalizer = false →
  let updated := withFinalizers localRG (Finalizers localRG ++ [controller.RGFinalizer]) in
  let out := syncBranch handle Unmarshal TimeString r localRG remoteRG localRGName
               localClusterID remoteClusterID remoteRGName rgSyncComplete k in
  trace out = [ELogInfo (Some InfoLevel) "Adding finalizer RGFinalizer";
               ELogInfo (Some InfoLevel) "Finalizer not found adding it";
               ECall (Update updated) (handle _ (Update updated) k).1]
  ∧ value out = (noRequeue, (handle _ (Update updated) k).1).
Proof.
  intros Hfin. unfold syncBranch, AddFinalizerIfNotExist. rewrite Hfin. simpl.
  split; reflexivity.
Qed.

Opaque deletionBranch syncBranch.

(** C8. The retention decision is a function of the
    [RemoteRGRetentionPolicy] annotation alone and ignores case: it is
    deletion exactly when the annotation is present and spells "delete" in
    any case, and retain for every other value and when the annotation is
    absent.  A pass on a resource that is being deleted and has no such
    annotation never writes to the remote replication group, whatever the
    two clusters answer: the [DeletionRequested] annotation is not written
    to the mirror. *)
Theorem retention_decision r req localRG (k : K) :
  (handle _ (Get req) k).1 = inr localRG →
  IsZero (DeletionTimestamp localRG) = false →
  mapHas (Annotations localRG) controller.RemoteRGRetentionPolicy = false →
  (∀ g, deleteRemote (retentionPolicyOf g) = true
        ↔ mapHas (Annotations g) controller.RemoteRGRetentionPolicy = true
          ∧ anyCase "delete"
              (mapGet (Annotations g) controller.RemoteRGRetentionPolicy))
  ∧ deleteRemote (retentionPolicyOf localRG) = false
  ∧ Forall (λ e, writesMirror e = false) (trace (pass r req k)).
Proof.
  intros Hget Hdel Hno.
  assert (Hretain : retentionPolicyOf localRG = controller.RemoteRetentionValueRetain).
  { unfold retentionPolicyOf. by rewrite Hno. }
  split; [|split].
  - intros g. unfold retentionPolicyOf.
    destruct (mapHas (Annotations g) controller.RemoteRGRetentionPolicy).
    + rewrite deleteRemote_anyCase. tauto.
    + split; [discriminate | intros [H _]; discriminate H].
  - by rewrite Hretain.
  - unfold Reconcile. simpl. rewrite Hget.
    destruct (Annotations localRG) as [annos|] eqn:Ha; [|simpl; repeat constructor].
    rewrite Hretain, Hdel, Hno. simpl.
    destruct (syncComplete localRG); simpl;
      destruct (handle _ (GetConnection _) _) as [[connErr|] k1]; simpl;
      try (solve [repeat constructor]);
      repeat (match goal with
              | |- Forall _ (_ :: _) => apply Forall_cons; split; [reflexivity|]
              end);
      destruct (deletionBranch_retain localRG (RemoteClusterID (Spec localRG))
                  controller.RemoteRetentionValueRetain k1 eq_refl)
        as [Hnone Hfall];
      (apply Forall_app; split; [exact Hnone|]);
      (destruct (value (deletionBranch handle localRG _ _ k1)) as [outcome|];
       [constructor|]);
      match goal with
      | |- context [syncBranch ?h ?u ?t ?r ?g ?m ?n ?c ?rc ?mn ?sc ?k'] =>
          destruct (syncBranch_adds_finalizer r g m n c rc mn sc k'
                      (Hfall eq_refl)) as [-> _]
      end;
      repeat constructor.
Qed.

Transparent deletionBranch syncBranch.

(** *** Which mirrors a pass creates *)

(** Walks through the entries of the goal, with [leaf] for the property of
    one entry, taking every test and every answer both ways. *)
Ltac walk leaf :=
  repeat (simpl;
          match goal with
          | |- Forall _ [] => constructor
          | |- Forall _ (_ :: _) => apply Forall_cons; split; [simpl; leaf ()|]
          | |- Forall _ (_ ++ _) => apply Forall_app; split
          | H : ∀ k, Forall _ (trace (?f k)) |- Forall _ (trace (?f _)) => apply H
          | |- context [if ?b then _ else _] => destruct b eqn:?
          | |- context [match ?x with _ => _ end] => destruct x eqn:?
          end).

Lemma findClaim_creates_no_mirror items volumeHandle (k : K) :
  Forall (λ e, createdMirror e = None) (trace (findClaim handle items volumeHandle k)).
Proof.
  revert k. induction items as [|pvc rest IH]; intros k.
  - constructor.
  - simpl. apply Forall_cons; split; [reflexivity|].
    destruct (handle _ (GetVolume _) k).1; simpl; [constructor|].
    destruct (String.eqb _ _); simpl; [repeat constructor|].
    rewrite app_nil_r || idtac. apply IH.
Qed.

Lemma snapshotPair_creates_no_mirror group remoteClient sc shouldCreatePvc
    storageClass namespace kv (k : K) :
  Forall (λ e, createdMirror e = None)
    (trace (snapshotPair handle group remoteClient sc shouldCreatePvc storageClass
              namespace kv k)).
Proof.
  pose proof (findClaim_creates_no_mirror) as Hfind.
  unfold snapshotPair, resolveClaim, createClaim, getPVCInformation.
  Opaque findClaim.
  walk ltac:(fun _ => reflexivity); try apply Hfind.
  Transparent findClaim.
Qed.

Lemma snapshotPairs_create_no_mirror group remoteClient sc shouldCreatePvc
    storageClass pairs : ∀ namespace (k : K),
  Forall (λ e, createdMirror e = None)
    (trace (snapshotPairs handle group remoteClient sc shouldCreatePvc storageClass
              namespace pairs k)).
Proof.
  induction pairs as [|kv rest IH]; intros namespace k.
  - constructor.
  - cbn [snapshotPairs bind trace value world].
    apply Forall_app; split; [apply snapshotPair_creates_no_mirror|].
    destruct (value (snapshotPair _ _ _ _ _ _ _ _ _)).1; [constructor|apply IH].
Qed.

Lemma processSnapshotEvent_creates_no_mirror r group remoteClient (k : K) :
  Forall (λ e, createdMirror e = None)
    (trace (processSnapshotEvent handle Unmarshal r group remoteClient k)).
Proof.
  pose proof (snapshotPairs_create_no_mirror) as Hloop.
  unfold processSnapshotEvent.
  Opaque snapshotPairs.
  walk ltac:(fun _ => reflexivity); try apply Hloop.
  Transparent snapshotPairs.
Qed.

Lemma processLastActionResult_creates_no_mirror r group remoteClient (k : K) :
  Forall (λ e, createdMirror e = None)
    (trace (processLastActionResult handle Unmarshal TimeString r group
              remoteClient k)).
Proof.
  pose proof (processSnapshotEvent_creates_no_mirror) as Hevent.
  unfold processLastActionResult.
  Opaque processSnapshotEvent.
  walk ltac:(fun _ => reflexivity); try apply Hevent.
  Transparent processSnapshotEvent.
Qed.

Lemma deletionBranch_creates_no_mirror localRG remoteClient retentionPolicy (k : K) :
  Forall (λ e, createdMirror e = None)
    (trace (deletionBranch handle localRG remoteClient retentionPolicy k)).
Proof.
  unfold deletionBranch, RemoveFinalizerIfExists. walk ltac:(fun _ => reflexivity).
Qed.

(** Lines 222 to 285 create nothing themselves; when they mark the mirror
    for creation it is the mirror they were given, under a name without the
    repeated prefix, or that mirror under its cluster-qualified name. *)
Lemma verifyRemote_verdict localRG remoteRG localRGName localClusterID
    remoteClusterID remoteRGName rgSyncComplete (k : K) :
  let out := verifyRemote handle localRG remoteRG localRGName localClusterID
               remoteClusterID remoteRGName rgSyncComplete k in
  Forall (λ e, createdMirror e = None) (trace out)
  ∧ ∀ g n s, value out = Proceed true g n s →
             (g = remoteRG ∧ Contains remoteRGName "replicated-replicated" = false)
             ∨ g = withName remoteRG (qualifiedName localClusterID localRGName).
Proof.
  unfold verifyRemote. simpl.
  destruct (handle _ (GetReplicationGroup _ _) k).1 as [e|rgObj]; simpl.
  - destruct (IsNotFound e); simpl.
    + destruct rgSyncComplete; simpl.
      * split; [repeat constructor | discriminate].
      * destruct (Contains remoteRGName "replicated-replicated") eqn:Hc; simpl;
          (split; [repeat constructor|]); intros g n s H;
          [discriminate H | injection H as <- _ _; by left].
    + split; [repeat constructor | discriminate].
  - destruct (String.eqb _ _); simpl.
    + destruct (negb (String.eqb _ _)); simpl.
      * split; [repeat constructor|]. intros g n s H. injection H as <- _ _.
        by right.
      * destruct (_ || _); simpl; (split; [repeat constructor | discriminate]).
    + split; [repeat constructor|]. intros g n s H. injection H as <- _ _.
      by right.
Qed.

(** Lines 207 to 319 create at most the mirror they were given, and then
    only under a name without the repeated prefix, or the mirror under
    its cluster-qualified name. *)
Lemma syncBranch_creates r localRG remoteRG localRGName localClusterID
    remoteClusterID remoteRGName rgSyncComplete (k : K) :
  Forall (λ e, ∀ n, createdMirror e = Some n →
                 (n = Name remoteRG
                  ∧ Contains remoteRGName "replicated-replicated" = false)
                 ∨ n = qualifiedName localClusterID localRGName)
    (trace (syncBranch handle Unmarshal TimeString r localRG remoteRG localRGName
              localClusterID remoteClusterID remoteRGName rgSyncComplete k)).
Proof.
  assert (Hact : ∀ group remoteClient k,
             Forall (λ e, ∀ n, createdMirror e = Some n →
                            (n = Name remoteRG
                             ∧ Contains remoteRGName "replicated-replicated" = false)
                            ∨ n = qualifiedName localClusterID localRGName)
               (trace (processLastActionResult handle Unmarshal TimeString r group
                         remoteClient k))).
  { intros. eapply Forall_impl; [apply processLastActionResult_creates_no_mirror|].
    intros e He n Hn. congruence. }
  assert (Hver : ∀ k,
             Forall (λ e, ∀ n, createdMirror e = Some n →
                            (n = Name remoteRG
                             ∧ Contains remoteRGName "replicated-replicated" = false)
                            ∨ n = qualifiedName localClusterID localRGName)
               (trace (verifyRemote handle localRG remoteRG localRGName
                         localClusterID remoteClusterID remoteRGName
                         rgSyncComplete k))).
  { intros. eapply Forall_impl; [apply verifyRemote_verdict|].
    intros e He n Hn. congruence. }
  unfold syncBranch, AddFinalizerIfNotExist.
  Opaque processLastActionResult verifyRemote.
  walk ltac:(fun _ =>
               let n := fresh "n" in
               let Hn := fresh "Hn" in
               intros n Hn;
               first [ discriminate Hn
                     | injection Hn as <-;
                       match goal with
                       | Hv : value (verifyRemote _ _ _ _ _ _ _ _ _) = Proceed true _ _ _
                         |- _ =>
                           destruct (proj2 (verifyRemote_verdict _ _ _ _ _ _ _ _)
                                       _ _ _ Hv) as [[-> Hc]| ->];
                           [left; split; [reflexivity | exact Hc]
                           | right; reflexivity]
                       end ]);
    first [apply Hact | apply Hver].
  Transparent processLastActionResult verifyRemote.
Qed.

(** Every mirror a pass creates is named either as the pass computed, and
    then the name does not contain "replicated-replicated", or by the
    cluster-qualified name. *)
Lemma pass_creates r req localRG (k : K) :
  (handle _ (Get req) k).1 = inr localRG →
  Forall (λ e, ∀ n, createdMirror e = Some n →
                 (n = mirrorName localRG req
                  ∧ Contains n "replicated-replicated" = false)
                 ∨ ∃ cid, n = qualifiedName (originClusterID localRG cid) req)
    (trace (pass r req k)).
Proof.
  intros Hget.
  assert (Hdel : ∀ rc policy k,
             Forall (λ e, ∀ n, createdMirror e = Some n →
                            (n = mirrorName localRG req
                             ∧ Contains n "replicated-replicated" = false)
                            ∨ ∃ cid, n = qualifiedName (originClusterID localRG cid) req)
               (trace (deletionBranch handle localRG rc policy k))).
  { intros. eapply Forall_impl; [apply deletionBranch_creates_no_mirror|].
    intros e He n Hn. congruence. }
  assert (Hsync : ∀ cid rc sync k,
             Forall (λ e, ∀ n, createdMirror e = Some n →
                            (n = mirrorName localRG req
                             ∧ Contains n "replicated-replicated" = false)
                            ∨ ∃ cid, n = qualifiedName (originClusterID localRG cid) req)
               (trace (syncBranch handle Unmarshal TimeString r localRG
                         (mirrorObject r localRG req (originClusterID localRG cid)
                            (mirrorName localRG req))
                         req (originClusterID localRG cid) rc
                         (mirrorName localRG req) sync k))).
  { intros. eapply Forall_impl; [apply syncBranch_creates|].
    intros e He n Hn. destruct (He n Hn) as [[-> Hc] | -> ].
    - left. split; [reflexivity | exact Hc].
    - right. by exists cid. }
  unfold Reconcile. simpl. rewrite Hget.
  Opaque deletionBranch syncBranch.
  walk ltac:(fun _ => let n := fresh "n" in let Hn := fresh "Hn" in
                      intros n Hn; discriminate Hn);
    first [apply Hdel | apply Hsync].
  Transparent deletionBranch syncBranch.
Qed.


End Pass.

(** *** The deletion branch *)

Lemma hasFinalizer_removed g f :
  hasFinalizer (withFinalizers g (filter (λ x, x ≠ f) (Finalizers g))) f = false.
Proof.
  unfold hasFinalizer. simpl. apply bool_decide_eq_false.
  rewrite list_elem_of_filter. tauto.
Qed.

Lemma hasFinalizer_added g f :
  hasFinalizer (withFinalizers g (Finalizers g ++ [f])) f = true.
Proof.
  unfold hasFinalizer. simpl. apply bool_decide_eq_true.
  apply elem_of_app. right. by apply list_elem_of_singleton.
Qed.

(** *** The action processor on concrete resources *)

(** C3 at the resource [Sample.settled]. *)
Lemma processed_action_is_skipped_witness :
  let out := processLastActionResult Memory.handle Memory.decode Memory.timeString
               Sample.reconciler Sample.settled "cluster-B"
               (Sample.clusters [Sample.settled] []) in
  Forall (λ e, isLog e = true) (trace out)
  ∧ world out = Sample.clusters [Sample.settled] []
  ∧ (value out).1 = Sample.settled.
Proof.
  pose proof (processed_action_is_skipped Memory.handle Memory.decode
                Memory.timeString Sample.reconciler Sample.settled "cluster-B"
                (Sample.clusters [Sample.settled] []) 5
                eq_refl eq_refl eq_refl) as H.
  destruct H as (H1 & H2 & H3 & _). auto.
Defined.



(** C1 fails as stated: [Sample.unstamped] is synced, its action is a
    snapshot action with a timestamp and no error message, and it has no
    [ActionProcessedTime] annotation; the step leaves one log line, calls
    nothing, and hands the resource back without the annotation. *)
Lemma unstamped_action_counterexample :
  let k := Sample.clusters [Sample.unstamped] [] in
  let out := processLastActionResult Memory.handle Memory.decode Memory.timeString
               Sample.reconciler Sample.unstamped "cluster-B" k in
  syncComplete Sample.unstamped = true
  ∧ Contains (Condition (StatusLastAction (Status Sample.unstamped)))
      "CREATE_SNAPSHOT" = true
  ∧ ActionTime (StatusLastAction (Status Sample.unstamped)) = Some 5
  ∧ ErrorMessage (StatusLastAction (Status Sample.unstamped)) = EmptyString
  ∧ mapHas (Annotations Sample.unstamped) controller.ActionProcessedTime = false
  ∧ trace out = [ELogInfo (Some InfoLevel) "Action Processed does not exist."]
  ∧ value out = (Sample.unstamped, None)
  ∧ world out = k
  ∧ mapHas (Annotations (value out).1) controller.ActionProcessedTime = false.
Proof. vm_compute. repeat split. Qed.

(** The amended C1 at [Sample.due], on a remote cluster where nothing is
    found: the step hands back the stamped resource, and the update of the
    stamped resource is its last entry. *)
Lemma due_snapshot_action_witness :
  let handle := Script.handle (Sample.nothingThere Sample.due) in
  let out := processLastActionResult handle Memory.decode Memory.timeString
               Sample.reconciler Sample.due "cluster-B" 1700000000 in
  ∃ answer,
    value out = (AddAnnotation Sample.due controller.ActionProcessedTime
                   (Memory.timeString 5), None)
    ∧ last (trace out)
      = Some (ECall (Update (AddAnnotation Sample.due
                               controller.ActionProcessedTime
                               (Memory.timeString 5))) answer).
Proof.
  destruct (due_snapshot_action_is_dispatched_then_stamped
              (Script.handle (Sample.nothingThere Sample.due)) Memory.decode
              Memory.timeString Sample.reconciler Sample.due "cluster-B"
              1700000000 5 {| SnapshotNamespace := "ns1" |})
    as (nsAnswer & classAnswer & entries & answer & Hv & Ht & Hm);
    try (vm_compute; reflexivity); try (vm_compute; discriminate).
  - intros k name e H. vm_compute in H. by inversion H.
  - exists answer. split; [exact Hv|].
    rewrite Ht. rewrite !app_comm_cons, !app_assoc. apply last_snoc.
Defined.

(** *** The pass on concrete resources *)

(** C6 at [Sample.fresh] against [Sample.conflicting]. *)
Lemma conflicting_mirror_stops_witness :
  let handle := Script.handle (Sample.mirrorThere Sample.fresh Sample.conflicting) in
  let out := Reconcile handle Memory.decode Memory.timeString Sample.reconciler
               "rg1" 1700000000 in
  value out = (noRequeue, None)
  ∧ Forall (λ e, mutates e = false) (trace out).
Proof.
  pose proof (conflicting_mirror_stops
                (Script.handle (Sample.mirrorThere Sample.fresh Sample.conflicting))
                Memory.decode Memory.timeString Sample.reconciler "rg1"
                Sample.fresh Sample.conflicting "cluster-A" 1700000000) as H.
  simpl in H.
  destruct H as (Hv & Hm & _); try reflexivity; try done;
    try (left; vm_compute; discriminate).
  all: try (split; [exact Hv | exact Hm]).
Defined.

(** C7 at [Sample.settled], whose mirror is gone. *)
Lemma vanished_mirror_is_not_recreated_witness :
  let handle := Script.handle (Sample.nothingThere Sample.settled) in
  let out := Reconcile handle Memory.decode Memory.timeString Sample.reconciler
               "rg1" 1700000000 in
  value out = (noRequeue, None)
  ∧ Forall (λ e, mutates e = false) (trace out).
Proof.
  pose proof (vanished_mirror_is_not_recreated
                (Script.handle (Sample.nothingThere Sample.settled))
                Memory.decode Memory.timeString Sample.reconciler "rg1"
                Sample.settled Memory.notFound 1700000000) as H.
  simpl in H.
  destruct H as (Hv & Hm & _); try reflexivity; try done.
  all: try (split; [exact Hv | exact Hm]).
Defined.

(** C9 fails as stated: one pass on [Sample.fresh], with no rg1 on the
    remote cluster, creates the remote rg1 with the swapped fields and
    leaves the local rg1 marked [RGSyncComplete] = "yes" in the local
    cluster, all in that one pass. *)
Lemma mirror_created_and_marked_counterexample :
  let k := Sample.clusters [Sample.fresh] [] in
  let out := Reconcile Memory.handle Memory.decode Memory.timeString
               Sample.reconciler "rg1" k in
  Memory.remoteGroups k !! "rg1" = None
  ∧ syncComplete Sample.fresh = false
  ∧ (λ g, (ProtectionGroupID (Spec g), RemoteProtectionGroupID (Spec g)))
      <$> Memory.remoteGroups (world out) !! "rg1"
    = Some ("pg-remote", "pg-local")
  ∧ (λ g, mapGet (Annotations g) controller.RGSyncComplete)
      <$> Memory.localGroups (world out) !! "rg1"
    = Some "yes"
  ∧ value out = (noRequeue, None).
Proof. vm_compute. repeat split. Qed.

(** The amended C9 at [Sample.fresh]. *)
Lemma mirror_is_created_and_marked_witness :
  let handle := Script.handle (Sample.nothingThere Sample.fresh) in
  let out := Reconcile handle Memory.decode Memory.timeString Sample.reconciler
               "rg1" 1700000000 in
  ∃ answer, value out = (noRequeue, answer).
Proof.
  pose proof (mirror_is_created_and_marked
                (Script.handle (Sample.nothingThere Sample.fresh))
                Memory.decode Memory.timeString Sample.reconciler "rg1"
                Sample.fresh "cluster-A" Memory.notFound 1700000000) as H.
  simpl in H.
  destruct H as (_ & _ & _ & _ & _ & _ & before & answer & Hv & _);
    try reflexivity; try done.
  all: try (exists answer; exact Hv).
Defined.

(** C8 at [Sample.leaving], whose mirror is on the remote cluster: the
    pass writes nothing to it. *)
Lemma retention_decision_witness :
  let k := Sample.clusters [Sample.leaving] [Sample.leavingMirror] in
  let out := Reconcile Memory.handle Memory.decode Memory.timeString
               Sample.reconciler "rg1" k in
  deleteRemote (retentionPolicyOf Sample.leaving) = false
  ∧ Forall (λ e, writesMirror e = false) (trace out).
Proof.
  pose proof (retention_decision Memory.handle Memory.decode Memory.timeString
                Sample.reconciler "rg1" Sample.leaving
                (Sample.clusters [Sample.leaving] [Sample.leavingMirror])
                eq_refl eq_refl eq_refl) as H.
  destruct H as (_ & Hd & Hw). split; [exact Hd | exact Hw].
Defined.


(** ** The deletion handshake *)

Section Deletion.

Context {K : Type}.
Variable handle : ∀ T, Call T → K → T * K.
Variable Unmarshal : string → error + ActionAnnotation.
Variable TimeString : Time → string.

Local Abbreviation pass := (Reconcile handle Unmarshal TimeString).

(** C4, as the code has it.  The resource is being deleted and does not
    itself carry [DeletionRequested].  Under the delete policy: an update
    that removes the local finalizer happens only after a lookup of the
    mirror was answered not-found, and a pass that removes the finalizer
    writes nothing to the mirror; when the mirror already carries
    [DeletionRequested] the pass asks for a retry and writes nothing at
    all.  Under any other policy the pass writes nothing to the mirror
    (the finalizer goes without a handshake). *)
Theorem deletion_handshake r req localRG (k : K) :
  (handle _ (Get req) k).1 = inr localRG →
  IsZero (DeletionTimestamp localRG) = false →
  mapHas (Annotations localRG) controller.DeletionRequested = false →
  let out := pass r req k in
  let remoteClusterID := RemoteClusterID (Spec localRG) in
  let recorded := mapGet (Annotations localRG) controller.RemoteReplicationGroup in
  (deleteRemote (retentionPolicyOf localRG) = true →
   removalGuarded false (trace out) = true
   ∧ (existsb removesFinalizer (trace out) = true →
      Forall (λ e, writesMirror e = false) (trace out))
   ∧ ∀ mirror,
       Annotations localRG ≠ None →
       (∀ k, (handle _ (GetConnection remoteClusterID) k).1 = None) →
       (∀ k, (handle _ (GetReplicationGroup remoteClusterID recorded) k).1
             = inr mirror) →
       mapHas (Annotations mirror) controller.DeletionRequested = true →
       value out = ({| Requeue := true; RequeueAfter := 0 |}, None)
       ∧ Forall (λ e, mutates e = false) (trace out))
  ∧ (deleteRemote (retentionPolicyOf localRG) = false →
     Forall (λ e, writesMirror e = false) (trace out)).
Proof.
  intros Hget Hdel Hnoreq. cbv zeta.
  split.
  - intros Hpolicy.
    assert (Hhas : mapHas (Annotations localRG) controller.RemoteRGRetentionPolicy = true).
    { unfold retentionPolicyOf in Hpolicy.
      destruct (mapHas (Annotations localRG) controller.RemoteRGRetentionPolicy);
        [reflexivity | discriminate Hpolicy]. }
    split; [|split].
    + unfold Reconcile, deletionBranch, syncBranch, RemoveFinalizerIfExists,
        AddFinalizerIfNotExist.
      simpl. rewrite Hget.
      destruct (Annotations localRG) as [annos|] eqn:Ha; [|reflexivity].
      rewrite <- Ha in *. rewrite Hdel, Hnoreq, Hpolicy, Hhas. simpl.
      destruct (syncComplete localRG); simpl.
      all: destruct (handle _ (GetConnection _) _) as [[connErr|] k1]; simpl;
        try reflexivity.
      all: destruct (handle _ (GetReplicationGroup _ _) _) as [[e|mirror] k2]; simpl.
      all: try (match goal with
                | |- context [IsNotFound ?x] => destruct (IsNotFound x)
                end; simpl;
                destruct (hasFinalizer localRG controller.RGFinalizer) eqn:Hf; simpl;
                rewrite ?hasFinalizer_removed, ?hasFinalizer_added; reflexivity).
      all: match goal with
           | |- context [mapHas (Annotations ?m) controller.DeletionRequested] =>
               destruct (mapHas (Annotations m) controller.DeletionRequested)
           end; simpl; try reflexivity.
      all: destruct (handle _ (UpdateReplicationGroup _ _) _) as [[updErr|] k3];
        reflexivity.
    + unfold Reconcile, deletionBranch, syncBranch, RemoveFinalizerIfExists,
        AddFinalizerIfNotExist.
      simpl. rewrite Hget.
      destruct (Annotations localRG) as [annos|] eqn:Ha; [|simpl; discriminate].
      rewrite <- Ha in *. rewrite Hdel, Hnoreq, Hpolicy, Hhas. simpl.
      destruct (syncComplete localRG); simpl.
      all: destruct (handle _ (GetConnection _) _) as [[connErr|] k1]; simpl;
        try discriminate.
      all: destruct (handle _ (GetReplicationGroup _ _) _) as [[e|mirror] k2]; simpl.
      all: try (match goal with
                | |- context [IsNotFound ?x] => destruct (IsNotFound x)
                end; simpl;
                destruct (hasFinalizer localRG controller.RGFinalizer) eqn:Hf; simpl;
                rewrite ?hasFinalizer_removed, ?hasFinalizer_added; simpl;
                first [discriminate | intros _; repeat constructor]).
      all: match goal with
           | |- context [mapHas (Annotations ?m) controller.DeletionRequested] =>
               destruct (mapHas (Annotations m) controller.DeletionRequested)
           end; simpl; try discriminate.
      all: destruct (handle _ (UpdateReplicationGroup _ _) _) as [[updErr|] k3];
        discriminate.
    + intros mirror Hann Hconn Hlook Hreq.
      unfold Reconcile, deletionBranch.
      simpl. rewrite Hget.
      destruct (Annotations localRG) as [annos|] eqn:Ha; [|done].
      rewrite <- Ha in *. rewrite Hdel, Hnoreq, Hpolicy, Hhas. simpl.
      rewrite Hconn. simpl. rewrite Hlook. simpl. rewrite Hreq. simpl.
      destruct (syncComplete localRG); simpl; (split; [reflexivity|]);
        repeat constructor.
  - intros Hpolicy.
    unfold Reconcile. simpl. rewrite Hget.
    destruct (Annotations localRG) as [annos|] eqn:Ha; [|simpl; repeat constructor].
    rewrite <- Ha in *. rewrite Hdel.
    set (policy := retentionPolicyOf localRG) in *.
    Opaque deletionBranch syncBranch.
    simpl.
    destruct (syncComplete localRG); simpl.
    all: destruct (handle _ (GetConnection _) _) as [[connErr|] k1]; simpl;
      try (solve [repeat constructor]).
    all: destruct (mapHas (Annotations localRG) controller.RemoteRGRetentionPolicy);
      simpl.
    all: repeat (match goal with
                 | |- Forall _ (_ :: _) => apply Forall_cons; split; [reflexivity|]
                 end).
    all: destruct (deletionBranch_retain handle localRG
                     (RemoteClusterID (Spec localRG)) policy k1 Hpolicy)
           as [Hnone Hfall];
      (apply Forall_app; split; [exact Hnone|]);
      (destruct (value (deletionBranch handle localRG _ _ k1)) as [outcome|];
       [constructor|]);
      match goal with
      | |- context [syncBranch ?h ?u ?t ?r ?g ?m ?n ?c ?rc ?mn ?sc ?k'] =>
          destruct (syncBranch_adds_finalizer h u t r g m n c rc mn sc k'
                      (Hfall eq_refl)) as [-> _]
      end;
      repeat constructor.
    Transparent deletionBranch syncBranch.
Qed.

End Deletion.

(** C4 fails as stated: [Sample.requested] is being deleted under the
    delete policy and its mirror, which carries [DeletionRequested], is
    still on the remote cluster.  The pass makes no call on the remote
    cluster, asks for no retry, and stores the local resource without its
    finalizer; the mirror is still there afterwards. *)
Lemma deletion_handshake_counterexample :
  let k := Sample.clusters [Sample.requested] [Sample.askedMirror] in
  let out := Reconcile Memory.handle Memory.decode Memory.timeString
               Sample.reconciler "rg1" k in
  IsZero (DeletionTimestamp Sample.requested) = false
  ∧ deleteRemote (retentionPolicyOf Sample.requested) = true
  ∧ (λ g, mapHas (Annotations g) controller.DeletionRequested)
      <$> Memory.remoteGroups k !! "rg1" = Some true
  ∧ value out = (noRequeue, None)
  ∧ forallb (λ e, negb (isRemoteCall e)) (trace out) = true
  ∧ existsb removesFinalizer (trace out) = true
  ∧ Finalizers <$> Memory.localGroups (world out) !! "rg1" = Some []
  ∧ Memory.remoteGroups (world out) !! "rg1" = Some Sample.askedMirror.
Proof. vm_compute. repeat split. Qed.

(** The amended C4 at [Sample.discarded], whose mirror already carries
    [DeletionRequested]. *)
Lemma deletion_handshake_witness :
  let k := Sample.clusters [Sample.discarded] [Sample.askedMirror] in
  let out := Reconcile Memory.handle Memory.decode Memory.timeString
               Sample.reconciler "rg1" k in
  removalGuarded false (trace out) = true
  ∧ value out = ({| Requeue := true; RequeueAfter := 0 |}, None).
Proof.
  pose proof (deletion_handshake Memory.handle Memory.decode Memory.timeString
                Sample.reconciler "rg1" Sample.discarded
                (Sample.clusters [Sample.discarded] [Sample.askedMirror])
                eq_refl eq_refl eq_refl) as H.
  destruct H as [H _]. destruct (H eq_refl) as (Hg & _ & _).
  split; [exact Hg | vm_compute; reflexivity].
Defined.

(** ** The namespace of the snapshots *)

Section Namespaces.

Context {K : Type}.
Variable handle : ∀ T, Call T → K → T * K.

(** Walks through the entries of the goal. *)
Ltac through leaf :=
  repeat (simpl;
          match goal with
          | |- Forall _ [] => constructor
          | |- Forall _ (_ :: _) => apply Forall_cons; split; [simpl; leaf ()|]
          | |- Forall _ (_ ++ _) => apply Forall_app; split
          | |- context [if ?b then _ else _] => destruct b eqn:?
          | |- context [match ?x with _ => _ end] => destruct x eqn:?
          end).

Lemma findClaim_names_no_namespace items volumeHandle (k : K) :
  Forall (λ e, entryNamespace e = None) (trace (findClaim handle items volumeHandle k)).
Proof.
  revert k. induction items as [|pvc rest IH]; intros k.
  - constructor.
  - simpl. apply Forall_cons; split; [reflexivity|].
    destruct (handle _ (GetVolume _) k).1; simpl; [constructor|].
    destruct (String.eqb _ _); simpl; [repeat constructor|].
    apply IH.
Qed.

Lemma getPVCInformation_names_no_namespace group volumeHandle (k : K) :
  Forall (λ e, entryNamespace e = None)
    (trace (getPVCInformation handle group volumeHandle k)).
Proof.
  unfold getPVCInformation. simpl. apply Forall_cons; split; [reflexivity|].
  destruct (handle _ (ListClaims _ _) k).1; simpl; [constructor|].
  apply findClaim_names_no_namespace.
Qed.

(** The namespace a pair leaves in force: the cloned one when claims are
    created and its claim collides, the one it found otherwise. *)
Lemma snapshotPair_namespace group remoteClient sc shouldCreatePvc storageClass
    namespace kv (k : K) :
  (value (snapshotPair handle group remoteClient sc shouldCreatePvc storageClass
            namespace kv k)).2
  = if shouldCreatePvc && collides handle group namespace kv k
    then "cloned-" +:+ namespace else namespace.
Proof.
  unfold snapshotPair, resolveClaim, collides.
  Opaque getPVCInformation.
  destruct shouldCreatePvc; simpl.
  - destruct (value (getPVCInformation handle group kv.1 k)) as [[pvc|] err]; simpl.
    + destruct err; simpl;
        (destruct (String.eqb (ClaimNamespace pvc) namespace); simpl;
         repeat (match goal with
                 | |- context [match ?x with _ => _ end] => destruct x; simpl
                 | |- context [if ?b then _ else _] => destruct b; simpl
                 end); reflexivity).
    + destruct err; simpl;
        repeat (match goal with
                | |- context [match ?x with _ => _ end] => destruct x; simpl
                | |- context [if ?b then _ else _] => destruct b; simpl
                end); reflexivity.
  - repeat (match goal with
            | |- context [match ?x with _ => _ end] => destruct x; simpl
            | |- context [if ?b then _ else _] => destruct b; simpl
            end); reflexivity.
  Transparent getPVCInformation.
Qed.

(** Everything a pair creates, it creates in the namespace it leaves in
    force. *)
Lemma snapshotPair_creates_in_namespace group remoteClient sc shouldCreatePvc
    storageClass namespace kv (k : K) :
  let out := snapshotPair handle group remoteClient sc shouldCreatePvc storageClass
               namespace kv k in
  Forall (λ e, ∀ n, entryNamespace e = Some n → n = (value out).2) (trace out).
Proof.
  cbv zeta. rewrite snapshotPair_namespace.
  assert (Hpvc : ∀ ns' vh k,
             Forall (λ e, ∀ n, entryNamespace e = Some n → n = ns')
               (trace (getPVCInformation handle group vh k))).
  { intros. eapply Forall_impl; [apply getPVCInformation_names_no_namespace|].
    intros e He n Hn. congruence. }
  unfold snapshotPair, resolveClaim, createClaim, collides.
  Opaque getPVCInformation.
  destruct shouldCreatePvc; simpl.
  - destruct (value (getPVCInformation handle group kv.1 k)) as [[pvc|] err] eqn:Hv;
      simpl.
    + destruct (String.eqb (ClaimNamespace pvc) namespace) eqn:Hc; simpl;
        through ltac:(fun _ => let n := fresh "n" in let Hn := fresh "Hn" in
                               intros n Hn;
                               first [discriminate Hn
                                     | injection Hn as <-; reflexivity]);
        apply Hpvc.
    + through ltac:(fun _ => let n := fresh "n" in let Hn := fresh "Hn" in
                             intros n Hn;
                             first [discriminate Hn
                                   | injection Hn as <-; reflexivity]);
        apply Hpvc.
  - through ltac:(fun _ => let n := fresh "n" in let Hn := fresh "Hn" in
                           intros n Hn;
                           first [discriminate Hn
                                 | injection Hn as <-; reflexivity]).
  Transparent getPVCInformation.
Qed.

Lemma cloned_shift j namespace :
  cloned j ("cloned-" +:+ namespace) = cloned (S j) namespace.
Proof.
  induction j as [|j IH]; [reflexivity|].
  simpl in *. by rewrite IH.
Qed.

Lemma length_append (a b : string) :
  String.length (a +:+ b) = (String.length a + String.length b)%nat.
Proof.
  induction a as [|c a IH]; [reflexivity|].
  change (String c a +:+ b) with (String c (a +:+ b)).
  cbn [String.length]. by rewrite IH.
Qed.

Lemma length_cloned j namespace :
  String.length (cloned j namespace) = (7 * j + String.length namespace)%nat.
Proof.
  induction j as [|j IH]; [reflexivity|].
  change (cloned (S j) namespace) with ("cloned-" +:+ cloned j namespace).
  rewrite length_append, IH.
  change (String.length "cloned-") with 7%nat. lia.
Qed.

Lemma cloned_is_new j namespace : cloned (S j) namespace ≠ namespace.
Proof.
  intros H. apply (f_equal String.length) in H.
  rewrite length_cloned in H. lia.
Qed.

(** The loop never leaves the namespaces obtained from the one it started
    in by putting "cloned-" in front. *)
Lemma snapshotPairs_namespaces group remoteClient sc shouldCreatePvc storageClass
    pairs : ∀ namespace (k : K),
  let out := snapshotPairs handle group remoteClient sc shouldCreatePvc storageClass
               namespace pairs k in
  (∃ j, (value out).2 = cloned j namespace)
  ∧ Forall (λ e, ∀ n, entryNamespace e = Some n → ∃ j, n = cloned j namespace)
      (trace out).
Proof.
  induction pairs as [|kv rest IH]; intros namespace k.
  - simpl. split; [by exists 0%nat | constructor].
  - cbn [snapshotPairs bind trace value world].
    pose proof (snapshotPair_namespace group remoteClient sc shouldCreatePvc
                  storageClass namespace kv k) as Hns.
    pose proof (snapshotPair_creates_in_namespace group remoteClient sc
                  shouldCreatePvc storageClass namespace kv k) as Hown.
    cbv zeta in Hown.
    remember (snapshotPair handle group remoteClient sc shouldCreatePvc
                storageClass namespace kv k) as own eqn:Eown.
    clear Eown.
    assert (Hstep : ∃ j, (value own).2 = cloned j namespace).
    { rewrite Hns. destruct (_ && _); [by exists 1%nat | by exists 0%nat]. }
    destruct Hstep as [j0 Hj0].
    assert (Hshift : ∀ j, cloned j (cloned j0 namespace) = cloned (j + j0) namespace).
    { induction j as [|j IHj]; [reflexivity|]. simpl. by rewrite IHj. }
    destruct (value own).1 as [err|]; simpl.
    + split; [by exists j0|].
      rewrite app_nil_r. eapply Forall_impl; [exact Hown|].
      intros e He n Hn. exists j0. by rewrite (He n Hn).
    + destruct (IH (value own).2 (world own)) as [[j Hj] Hrest].
      split.
      * exists (j + j0)%nat. by rewrite Hj, Hj0, Hshift.
      * apply Forall_app; split.
        -- eapply Forall_impl; [exact Hown|].
           intros e He n Hn. exists j0. by rewrite (He n Hn).
        -- eapply Forall_impl; [exact Hrest|].
           intros e He n Hn. destruct (He n Hn) as [j' ->].
           exists (j' + j0)%nat. by rewrite Hj0, Hshift.
Qed.

(** The loop over a list in two parts is the loop over the first part
    followed, when that one ends without an error, by the loop over the
    second part from the namespace and the state the first one left. *)
Lemma snapshotPairs_app group remoteClient sc shouldCreatePvc storageClass
    pre post : ∀ namespace (k : K),
  let first := snapshotPairs handle group remoteClient sc shouldCreatePvc
                 storageClass namespace pre k in
  (value first).1 = None →
  let second := snapshotPairs handle group remoteClient sc shouldCreatePvc
                  storageClass (value first).2 post (world first) in
  let out := snapshotPairs handle group remoteClient sc shouldCreatePvc
               storageClass namespace (pre ++ post) k in
  value out = value second
  ∧ world out = world second
  ∧ trace out = (trace first ++ trace second)%list.
Proof.
  induction pre as [|kv rest IH]; intros namespace k.
  - simpl. intros _. repeat split.
  - cbn [snapshotPairs bind trace value world app].
    destruct (value (snapshotPair handle group remoteClient sc shouldCreatePvc
                       storageClass namespace kv k)).1 as [err|] eqn:Hstep.
    + simpl. discriminate.
    + intros Hfirst.
      destruct (IH _ _ Hfirst) as (Hv & Hw & Ht).
      rewrite Hv, Hw, Ht. rewrite app_assoc. repeat split.
Qed.


End Namespaces.


(** ** The ways out of a pass *)

Section Exits.

Context {K : Type}.
Variable handle : ∀ T, Call T → K → T * K.
Variable Unmarshal : string → error + ActionAnnotation.
Variable TimeString : Time → string.

Local Abbreviation pass := (Reconcile handle Unmarshal TimeString).

(** The entry neither writes to a cluster nor calls the remote one. *)
Local Abbreviation harmless :=
  (λ entry : Entry, mutates entry = false ∧ isRemoteCall entry = false).

(** A list that ends with [tail] is some list followed by [tail]. *)
Lemma ends_with_nil (tail : list Entry) : tail = ([] ++ tail)%list.
Proof. reflexivity. Qed.

Lemma ends_with_cons (e : Entry) (l before tail : list Entry) :
  l = (before ++ tail)%list → e :: l = ((e :: before) ++ tail)%list.
Proof. intros ->. reflexivity. Qed.

Lemma ends_with_app (before l mid tail : list Entry) :
  l = (mid ++ tail)%list → (before ++ l)%list = ((before ++ mid) ++ tail)%list.
Proof. intros ->. by rewrite app_assoc. Qed.

Ltac split_trace := repeat first [ apply ends_with_nil | apply ends_with_cons ].

(** The pass on an active resource with annotations, once the connection
    is resolved, is lines 207 to 319 after entries that write nothing and
    call nothing on the remote cluster. *)
Lemma pass_reaches_sync r req localRG cid (k : K) :
  (handle _ (Get req) k).1 = inr localRG →
  Annotations localRG ≠ None →
  IsZero (DeletionTimestamp localRG) = true →
  (∀ k, (handle _ GetClusterID k).1 = cid) →
  (∀ k, (handle _ (GetConnection (RemoteClusterID (Spec localRG))) k).1 = None) →
  ∃ (before : list Entry) (k' : K),
    let origin := originClusterID localRG cid in
    let sync := syncBranch handle Unmarshal TimeString r localRG
                  (mirrorObject r localRG req origin (mirrorName localRG req))
                  req origin (RemoteClusterID (Spec localRG))
                  (mirrorName localRG req) (syncComplete localRG) k' in
    trace (pass r req k) = (before ++ trace sync)%list
    ∧ value (pass r req k) = value sync
    ∧ Forall harmless before.
Proof.
  intros Hget Hann Hlive Hid Hconn.
  Opaque syncBranch.
  unfold Reconcile. simpl. rewrite Hget.
  destruct (Annotations localRG) as [annos|] eqn:Ha; [|done].
  simpl. rewrite Hlive, Hconn, Hid. simpl.
  destruct (syncComplete localRG);
    destruct (bool_decide (is_Some (annos !! controller.RemoteRGRetentionPolicy)));
    simpl; eexists; eexists; (split; [split_trace|]);
    (split; [reflexivity|]); repeat constructor.
  Transparent syncBranch.
Qed.

(** X1. A pass whose lookup of the resource fails makes no other call: it
    returns success when the resource is not found and the error of the
    lookup otherwise. *)
Theorem lookup_failure_ends_pass r req e (k : K) :
  (handle _ (Get req) k).1 = inl e →
  let out := pass r req k in
  trace out = [ECall (Get req) (inl e)]
  ∧ value out = (noRequeue, if IsNotFound e then None else Some e)
  ∧ world out = (handle _ (Get req) k).2.
Proof.
  intros Hget. unfold Reconcile. simpl. rewrite Hget. simpl. done.
Qed.

(** X2. When the connection to the remote cluster is not resolved, the
    pass returns the error of the resolution without a retry of its own,
    writes to neither cluster and calls nothing on the remote one. *)
Theorem connection_failure_ends_pass r req localRG e (k : K) :
  (handle _ (Get req) k).1 = inr localRG →
  Annotations localRG ≠ None →
  (∀ k, (handle _ (GetConnection (RemoteClusterID (Spec localRG))) k).1 = Some e) →
  let out := pass r req k in
  value out = (noRequeue, Some e)
  ∧ Forall harmless (trace out).
Proof.
  intros Hget Hann Hconn. unfold Reconcile. simpl. rewrite Hget.
  destruct (Annotations localRG) as [annos|] eqn:Ha; [|done].
  simpl. rewrite Hconn. simpl.
  destruct (syncComplete localRG); simpl; (split; [reflexivity|]);
    repeat constructor.
Qed.

(** X3. On an active resource without the finalizer the pass adds the
    finalizer, sends that update and ends with the answer to it: nothing
    is written before, and the remote cluster is not asked for the
    mirror. *)
Theorem missing_finalizer_is_added_first r req localRG (k : K) :
  (handle _ (Get req) k).1 = inr localRG →
  Annotations localRG ≠ None →
  IsZero (DeletionTimestamp localRG) = true →
  hasFinalizer localRG controller.RGFinalizer = false →
  (∀ k, (handle _ (GetConnection (RemoteClusterID (Spec localRG))) k).1 = None) →
  let updated :=
    withFinalizers localRG (Finalizers localRG ++ [controller.RGFinalizer]) in
  let out := pass r req k in
  ∃ (before : list Entry) answer,
    trace out = (before ++ [ECall (Update updated) answer])%list
    ∧ Forall harmless before
    ∧ value out = (noRequeue, answer).
Proof.
  intros Hget Hann Hlive Hfin Hconn.
  unfold Reconcile. simpl. rewrite Hget.
  destruct (Annotations localRG) as [annos|] eqn:Ha; [|done].
  unfold syncBranch, AddFinalizerIfNotExist.
  simpl. rewrite Hlive, Hconn, Hfin. simpl.
  destruct (syncComplete localRG);
    destruct (bool_decide (is_Some (annos !! controller.RemoteRGRetentionPolicy)));
    simpl; eexists; eexists; (split; [split_trace|]);
    (split; [|reflexivity]); repeat constructor.
Qed.

(** X4. A resource under deletion that carries [DeletionRequested] and
    has no finalizer is not left alone: the deletion branch falls through
    and the pass adds the finalizer to it, sends that update and ends with
    the answer to it, without a call on the remote cluster. *)
Theorem finalizer_is_added_under_deletion r req localRG (k : K) :
  (handle _ (Get req) k).1 = inr localRG →
  IsZero (DeletionTimestamp localRG) = false →
  mapHas (Annotations localRG) controller.DeletionRequested = true →
  hasFinalizer localRG controller.RGFinalizer = false →
  (∀ k, (handle _ (GetConnection (RemoteClusterID (Spec localRG))) k).1 = None) →
  let updated :=
    withFinalizers localRG (Finalizers localRG ++ [controller.RGFinalizer]) in
  let out := pass r req k in
  ∃ (before : list Entry) answer,
    trace out = (before ++ [ECall (Update updated) answer])%list
    ∧ Forall harmless before
    ∧ value out = (noRequeue, answer).
Proof.
  intros Hget Hdel Hreq Hfin Hconn.
  unfold Reconcile. simpl. rewrite Hget.
  destruct (Annotations localRG) as [annos|] eqn:Ha; [|simpl in Hreq; discriminate].
  rewrite <- Ha in Hreq.
  unfold deletionBranch, RemoveFinalizerIfExists, syncBranch, AddFinalizerIfNotExist.
  simpl. rewrite Hdel, Hconn. simpl. rewrite Hreq, Hfin. simpl.
  destruct (syncComplete localRG);
    destruct (bool_decide (is_Some (annos !! controller.RemoteRGRetentionPolicy)));
    simpl; eexists; eexists; (split; [split_trace|]);
    (split; [|reflexivity]); repeat constructor.
Qed.

(** X5. An active resource with the finalizer that carries
    [DeletionRequested] is deleted from the local cluster: the pass ends
    with the deletion of the resource and the answer to it, after entries
    that write nothing and call nothing on the remote cluster. *)
Theorem requested_deletion_deletes_local r req localRG (k : K) :
  (handle _ (Get req) k).1 = inr localRG →
  IsZero (DeletionTimestamp localRG) = true →
  hasFinalizer localRG controller.RGFinalizer = true →
  mapHas (Annotations localRG) controller.DeletionRequested = true →
  (∀ k, (handle _ (GetConnection (RemoteClusterID (Spec localRG))) k).1 = None) →
  let out := pass r req k in
  ∃ (before : list Entry) answer,
    trace out = (before ++ [ECall (Delete localRG) answer])%list
    ∧ Forall harmless before
    ∧ value out = (noRequeue, answer).
Proof.
  intros Hget Hlive Hfin Hreq Hconn.
  unfold Reconcile. simpl. rewrite Hget.
  destruct (Annotations localRG) as [annos|] eqn:Ha; [|simpl in Hreq; discriminate].
  rewrite <- Ha in Hreq.
  unfold syncBranch, AddFinalizerIfNotExist.
  simpl. rewrite Hlive, Hconn, Hfin. simpl. rewrite Hreq. simpl.
  destruct (syncComplete localRG);
    destruct (bool_decide (is_Some (annos !! controller.RemoteRGRetentionPolicy)));
    simpl; eexists; eexists; (split; [split_trace|]);
    (split; [|reflexivity]); repeat constructor.
Qed.

(** X6. Under the delete policy, a resource under deletion whose mirror
    is found without [DeletionRequested] asks the mirror to go: the pass
    looks the mirror up under the name recorded in the
    [RemoteReplicationGroup] annotation, sends the update that sets
    [DeletionRequested] to "yes" on the mirror and ends there, with the
    error of the update or, when it was accepted, with a retry after one
    millisecond.  The local resource is not written: it keeps its
    finalizer. *)
Theorem deletion_is_requested_from_mirror r req localRG mirror (k : K) :
  let remoteClusterID := RemoteClusterID (Spec localRG) in
  let recorded := mapGet (Annotations localRG) controller.RemoteReplicationGroup in
  let asked := AddAnnotation mirror controller.DeletionRequested "yes" in
  (handle _ (Get req) k).1 = inr localRG →
  Annotations localRG ≠ None →
  IsZero (DeletionTimestamp localRG) = false →
  mapHas (Annotations localRG) controller.DeletionRequested = false →
  deleteRemote (retentionPolicyOf localRG) = true →
  (∀ k, (handle _ (GetConnection remoteClusterID) k).1 = None) →
  (∀ k, (handle _ (GetReplicationGroup remoteClusterID recorded) k).1 = inr mirror) →
  mapHas (Annotations mirror) controller.DeletionRequested = false →
  let out := pass r req k in
  ∃ (before : list Entry) answer,
    trace out = (before ++ [ECall (UpdateReplicationGroup remoteClusterID asked) answer])%list
    ∧ Forall (λ entry, mutates entry = false) before
    ∧ value out = match answer with
                  | Some e => (noRequeue, Some e)
                  | None => ({| Requeue := false; RequeueAfter := 1 * Millisecond |}, None)
                  end.
Proof.
  intros remoteClusterID recorded asked Hget Hann Hdel Hreq Hpolicy Hconn Hlook Hfree.
  subst remoteClusterID recorded asked.
  unfold Reconcile. simpl. rewrite Hget.
  unfold retentionPolicyOf in Hpolicy.
  destruct (Annotations localRG) as [annos|] eqn:Ha; [|done].
  rewrite <- Ha in Hreq, Hlook, Hpolicy.
  unfold deletionBranch, retentionPolicyOf.
  simpl. rewrite Hdel, Hconn. simpl. rewrite Hreq. simpl. rewrite Hlook. simpl.
  rewrite Ha in *. simpl in *.
  destruct (syncComplete localRG);
    destruct (bool_decide (is_Some (annos !! controller.RemoteRGRetentionPolicy)));
    simpl; rewrite ?Hpolicy; simpl; rewrite ?Hfree; simpl;
    try discriminate Hpolicy;
    match goal with
    | |- context [UpdateReplicationGroup ?rc ?g] =>
        destruct (handle _ (UpdateReplicationGroup rc g) _).1 eqn:Hanswer
    end; simpl; eexists; eexists; (split; [split_trace|]);
    (split; [|reflexivity]); repeat constructor.
Qed.

(** X7. A resource under deletion whose mirror cannot be looked up, for
    a reason other than not-found, keeps its finalizer: whatever the
    retention policy is, the pass returns the error of the lookup and
    writes to neither cluster. *)
Theorem deletion_lookup_failure_keeps_finalizer r req localRG e (k : K) :
  let remoteClusterID := RemoteClusterID (Spec localRG) in
  let recorded := mapGet (Annotations localRG) controller.RemoteReplicationGroup in
  (handle _ (Get req) k).1 = inr localRG →
  Annotations localRG ≠ None →
  IsZero (DeletionTimestamp localRG) = false →
  mapHas (Annotations localRG) controller.DeletionRequested = false →
  (∀ k, (handle _ (GetConnection remoteClusterID) k).1 = None) →
  (∀ k, (handle _ (GetReplicationGroup remoteClusterID recorded) k).1 = inl e) →
  IsNotFound e = false →
  let out := pass r req k in
  value out = (noRequeue, Some e)
  ∧ Forall (λ entry, mutates entry = false) (trace out).
Proof.
  intros remoteClusterID recorded Hget Hann Hdel Hreq Hconn Hlook Hother.
  subst remoteClusterID recorded.
  unfold Reconcile. simpl. rewrite Hget.
  destruct (Annotations localRG) as [annos|] eqn:Ha; [|done].
  rewrite <- Ha in Hreq, Hlook.
  unfold deletionBranch.
  simpl. rewrite Hdel, Hconn. simpl. rewrite Hreq. simpl. rewrite Hlook. simpl.
  rewrite Hother. simpl.
  destruct (syncComplete localRG);
    destruct (bool_decide (is_Some (annos !! controller.RemoteRGRetentionPolicy)));
    simpl; (split; [reflexivity|]); repeat constructor.
Qed.

End Exits.

(** ** What the action processor touches *)

Section Materializer.

Context {K : Type}.
Variable handle : ∀ T, Call T → K → T * K.
Variable Unmarshal : string → error + ActionAnnotation.
Variable TimeString : Time → string.

(** Visits the entries of the goal, with [leaf] for the property of one
    entry, taking every test and every answer both ways. *)
Ltac visit leaf :=
  repeat (simpl;
          match goal with
          | |- Forall _ [] => constructor
          | |- Forall _ (_ :: _) => apply Forall_cons; split; [simpl; leaf ()|]
          | |- Forall _ (_ ++ _) => apply Forall_app; split
          | H : ∀ k, Forall _ (trace (?f k)) |- Forall _ (trace (?f _)) => apply H
          | |- context [if ?b then _ else _] => destruct b eqn:?
          | |- context [match ?x with _ => _ end] => destruct x eqn:?
          end).

Lemma findClaim_in_lane items volumeHandle (k : K) :
  Forall (λ e, materializes e = true) (trace (findClaim handle items volumeHandle k)).
Proof.
  revert k. induction items as [|pvc rest IH]; intros k.
  - constructor.
  - simpl. apply Forall_cons; split; [reflexivity|].
    destruct (handle _ (GetVolume _) k).1; simpl; [constructor|].
    destruct (String.eqb _ _); simpl; [repeat constructor|].
    apply IH.
Qed.

Lemma snapshotPair_in_lane group remoteClient sc shouldCreatePvc
    storageClass namespace kv (k : K) :
  Forall (λ e, materializes e = true)
    (trace (snapshotPair handle group remoteClient sc shouldCreatePvc storageClass
              namespace kv k)).
Proof.
  pose proof (findClaim_in_lane) as Hfind.
  unfold snapshotPair, resolveClaim, createClaim, getPVCInformation.
  Opaque findClaim.
  visit ltac:(fun _ => reflexivity); try apply Hfind.
  Transparent findClaim.
Qed.

Lemma snapshotPairs_in_lane group remoteClient sc shouldCreatePvc
    storageClass pairs : ∀ namespace (k : K),
  Forall (λ e, materializes e = true)
    (trace (snapshotPairs handle group remoteClient sc shouldCreatePvc storageClass
              namespace pairs k)).
Proof.
  induction pairs as [|kv rest IH]; intros namespace k.
  - constructor.
  - cbn [snapshotPairs bind trace value world].
    apply Forall_app; split; [apply snapshotPair_in_lane|].
    destruct (value (snapshotPair _ _ _ _ _ _ _ _ _)).1; [constructor|apply IH].
Qed.

(** X8. Whatever the resource and the two clusters are, the snapshot
    materializer leaves log lines and calls about namespaces, snapshot
    classes, contents, snapshot objects, storage classes, source claims
    and volumes only: it records no event, makes no call about a
    replication group and writes nothing to the local cluster. *)
Theorem materializer_keeps_to_snapshots r group remoteClient (k : K) :
  Forall (λ e, materializes e = true)
    (trace (processSnapshotEvent handle Unmarshal r group remoteClient k)).
Proof.
  pose proof (snapshotPairs_in_lane) as Hloop.
  unfold processSnapshotEvent.
  Opaque snapshotPairs.
  visit ltac:(fun _ => reflexivity); try apply Hloop.
  Transparent snapshotPairs.
Qed.

(** X9. The only write of the action-processing step to the local
    cluster is the stamp and it is its last entry: the entries before it
    are those of the materializer, and the resource the step hands back is
    the one it was given, or that resource stamped with the time of its
    last action, and then the update of it has been sent. *)
Theorem action_step_sends_the_stamp_last r group remoteClient (k : K) :
  let out := processLastActionResult handle Unmarshal TimeString r group
               remoteClient k in
  ∃ before tail : list Entry,
    trace out = (before ++ tail)%list
    ∧ Forall (λ e, materializes e = true) before
    ∧ (tail = [] ∧ (value out).1 = group
       ∨ ∃ t answer,
           ActionTime (StatusLastAction (Status group)) = Some t
           ∧ (value out).1
             = AddAnnotation group controller.ActionProcessedTime (TimeString t)
           ∧ tail = [ECall (Update (value out).1) answer]).
Proof.
  pose proof (materializer_keeps_to_snapshots r group remoteClient) as Hevent.
  unfold processLastActionResult.
  Opaque processSnapshotEvent.
  destruct (Conditions (Status group)); simpl.
  { eexists; exists []. rewrite app_nil_r. split; [reflexivity|].
    split; [repeat constructor | by left]. }
  destruct (ActionTime (StatusLastAction (Status group))) as [t|]; simpl.
  2:{ eexists; exists []. rewrite app_nil_r. split; [reflexivity|].
      split; [repeat constructor | by left]. }
  destruct (String.eqb (ErrorMessage _) EmptyString); simpl.
  2:{ exists [], []. split; [reflexivity|]. split; [constructor | by left]. }
  destruct (mapHas (Annotations group) controller.ActionProcessedTime); simpl.
  2:{ eexists; exists []. rewrite app_nil_r. split; [reflexivity|].
      split; [repeat constructor | by left]. }
  destruct (String.eqb (mapGet _ _) (TimeString t)); simpl.
  { eexists; exists []. rewrite app_nil_r. split; [reflexivity|].
    split; [repeat constructor | by left]. }
  destruct (Contains _ "CREATE_SNAPSHOT"); simpl.
  - eexists; eexists. split; [reflexivity|]. split; [apply Hevent|].
    right. eexists; eexists. split; [reflexivity|]. split; reflexivity.
  - exists []. eexists. split; [reflexivity|]. split; [constructor|].
    right. eexists; eexists. split; [reflexivity|]. split; reflexivity.
  Transparent processSnapshotEvent.
Qed.

(** What an entry of the materializer is not. *)
Lemma lane_writes_no_mirror (e : Entry) :
  materializes e = true → writesMirror e = false.
Proof. destruct e as [T c a| | | |]; try done. by destruct c. Qed.

Lemma lane_writes_nothing_local (e : Entry) :
  materializes e = true → writesLocal e = false.
Proof. destruct e as [T c a| | | |]; try done. by destruct c. Qed.

(** Entries without a local write in front change nothing. *)
Lemma quiet_after_reads (l1 l2 : list Entry) :
  Forall (λ e, writesLocal e = false) l1 →
  quietAfterWrite (l1 ++ l2) = quietAfterWrite l2.
Proof.
  induction 1 as [|e l1 He _ IH]; [reflexivity|].
  simpl. rewrite He. exact IH.
Qed.

(** Entries that are no calls may follow. *)
Lemma quiet_before_silence (l1 l2 : list Entry) :
  quietAfterWrite l1 = true →
  forallb (λ e, negb (isCall e)) l2 = true →
  quietAfterWrite (l1 ++ l2) = true.
Proof.
  intros H1 H2. induction l1 as [|e l1 IH]; simpl in *.
  - induction l2 as [|e l2 IH]; [reflexivity|].
    simpl in *. apply andb_prop in H2 as [He H2].
    destruct e as [T c a| | | |]; try discriminate He; simpl; by apply IH.
  - destruct (writesLocal e); [|by apply IH].
    rewrite forallb_app, H1, H2. reflexivity.
Qed.

Lemma action_step_is_quiet r group remoteClient (k : K) :
  quietAfterWrite
    (trace (processLastActionResult handle Unmarshal TimeString r group
              remoteClient k)) = true.
Proof.
  destruct (action_step_sends_the_stamp_last r group remoteClient k)
    as (before & tail & -> & Hb & Htail).
  rewrite quiet_after_reads.
  - destruct Htail as [[-> _]|(t & answer & _ & _ & ->)]; reflexivity.
  - eapply Forall_impl; [exact Hb|]. apply lane_writes_nothing_local.
Qed.

Lemma action_step_writes_no_mirror r group remoteClient (k : K) :
  Forall (λ e, writesMirror e = false)
    (trace (processLastActionResult handle Unmarshal TimeString r group
              remoteClient k)).
Proof.
  destruct (action_step_sends_the_stamp_last r group remoteClient k)
    as (before & tail & -> & Hb & Htail).
  apply Forall_app; split.
  - eapply Forall_impl; [exact Hb|]. apply lane_writes_no_mirror.
  - destruct Htail as [[-> _]|(t & answer & _ & _ & ->)]; repeat constructor.
Qed.

(** Case analysis on every test and every answer in the goal. *)
Ltac ways :=
  repeat (simpl;
          match goal with
          | |- context [if ?b then _ else _] => destruct b eqn:?
          | |- context [match ?x with _ => _ end] => destruct x eqn:?
          end).

Lemma deletionBranch_is_quiet localRG remoteClient retentionPolicy (k : K) :
  let out := deletionBranch handle localRG remoteClient retentionPolicy k in
  quietAfterWrite (trace out) = true
  ∧ (value out = None → Forall (λ e, writesLocal e = false) (trace out)).
Proof.
  unfold deletionBranch, RemoveFinalizerIfExists.
  ways; (split; [reflexivity | first [discriminate | intros _; repeat constructor]]).
Qed.

Lemma syncBranch_is_quiet r localRG remoteRG localRGName localClusterID
    remoteClusterID remoteRGName rgSyncComplete (k : K) :
  quietAfterWrite
    (trace (syncBranch handle Unmarshal TimeString r localRG remoteRG localRGName
              localClusterID remoteClusterID remoteRGName rgSyncComplete k)) = true.
Proof.
  pose proof (action_step_is_quiet) as Hstep.
  unfold syncBranch, verifyRemote, AddFinalizerIfNotExist.
  Opaque processLastActionResult.
  ways; try reflexivity;
    apply quiet_before_silence; first [apply Hstep | reflexivity].
  Transparent processLastActionResult.
Qed.

(** X10. A pass writes to the local resource at most once, and that write
    ends it: whatever the resource and the two clusters are, the first
    update or deletion of the local resource in a pass has no call after
    it. *)
Theorem pass_ends_with_its_local_write r req (k : K) :
  quietAfterWrite (trace (Reconcile handle Unmarshal TimeString r req k)) = true.
Proof.
  unfold Reconcile.
  Opaque deletionBranch syncBranch.
  simpl.
  destruct (handle _ (Get req) k).1 as [e|localRG]; simpl; [reflexivity|].
  destruct (Annotations localRG) as [annos|] eqn:Ha; simpl; [|reflexivity].
  destruct (syncComplete localRG); simpl;
    (destruct (handle _ (GetConnection _) _).1; simpl; [reflexivity|]);
    destruct (bool_decide (is_Some (annos !! controller.RemoteRGRetentionPolicy)));
    simpl;
    (destruct (IsZero (DeletionTimestamp localRG)); simpl;
     [apply syncBranch_is_quiet|]);
    match goal with
    | |- context [deletionBranch ?h ?g ?rc ?p ?k0] =>
        destruct (deletionBranch_is_quiet g rc p k0) as [Hq Hn];
        destruct (value (deletionBranch h g rc p k0)); simpl;
        [rewrite app_nil_r; exact Hq
        | rewrite quiet_after_reads by (by apply Hn); apply syncBranch_is_quiet]
    end.
  Transparent deletionBranch syncBranch.
Qed.

End Materializer.

(** ** The verification of the mirror *)

Section Verification.

Context {K : Type}.
Variable handle : ∀ T, Call T → K → T * K.
Variable Unmarshal : string → error + ActionAnnotation.
Variable TimeString : Time → string.

Local Abbreviation pass := (Reconcile handle Unmarshal TimeString).

Ltac split_trace := repeat first [ apply ends_with_nil | apply ends_with_cons ].

(** The local resource marked as synced under the name [remoteRGName]
    (lines 301 to 306): a local name that contains "replicated" is
    recorded without its "replicated-" prefix instead. *)
Local Abbreviation marked localRG req remoteRGName :=
  (AddAnnotation
     (AddAnnotation localRG controller.RemoteReplicationGroup
        (if Contains req replicated then TrimPrefix req "replicated-"
         else remoteRGName))
     controller.RGSyncComplete "yes").

(** Entries that write nothing, followed by more of them, write nothing. *)
Lemma harmless_then_readonly (before rest : list Entry) :
  Forall (λ entry, mutates entry = false ∧ isRemoteCall entry = false) before →
  Forall (λ entry, mutates entry = false) rest →
  Forall (λ entry, mutates entry = false) (before ++ rest).
Proof.
  intros Hb Hr. apply Forall_app; split; [|exact Hr].
  eapply Forall_impl; [exact Hb|]. by intros e [He _].
Qed.

(** X11. When the lookup of the mirror fails with an error other than
    not-found, the pass returns that error and asks for a retry; it writes
    to neither cluster. *)
Theorem remote_lookup_failure_requeues r req localRG cid e (k : K) :
  let remoteClusterID := RemoteClusterID (Spec localRG) in
  (handle _ (Get req) k).1 = inr localRG →
  Annotations localRG ≠ None →
  IsZero (DeletionTimestamp localRG) = true →
  hasFinalizer localRG controller.RGFinalizer = true →
  mapHas (Annotations localRG) controller.DeletionRequested = false →
  (∀ k, (handle _ GetClusterID k).1 = cid) →
  (∀ k, (handle _ (GetConnection remoteClusterID) k).1 = None) →
  (∀ k, (handle _ (GetReplicationGroup remoteClusterID (mirrorName localRG req)) k).1
        = inl e) →
  IsNotFound e = false →
  let out := pass r req k in
  value out = ({| Requeue := true; RequeueAfter := 0 |}, Some e)
  ∧ Forall (λ entry, mutates entry = false) (trace out).
Proof.
  intros remoteClusterID Hget Hann Hlive Hfin Hreq Hid Hconn Hlook Hother.
  subst remoteClusterID.
  destruct (pass_reaches_sync handle Unmarshal TimeString r req localRG cid k
              Hget Hann Hlive Hid Hconn) as (before & k' & Ht & Hv & Hb).
  cbv zeta. rewrite Ht, Hv. clear Ht Hv.
  unfold syncBranch, verifyRemote, AddFinalizerIfNotExist.
  simpl. rewrite Hfin. simpl. rewrite Hreq. simpl. rewrite Hlook. simpl.
  rewrite Hother. simpl.
  split; [reflexivity|]. apply harmless_then_readonly; [exact Hb|].
  repeat constructor.
Qed.

(** X12. An object found under the mirror's name that records another
    cluster as its origin, or that has another driver, is not touched: the
    pass creates the mirror under the cluster-qualified name
    SourceClusterId-<origin>-<local name> instead, and once the remote
    cluster has accepted it, marks the local resource as synced under that
    name, also when the resource was marked as synced before.  Nothing is
    written before the creation. *)
Theorem stranger_is_sidestepped r req localRG rgObj cid (k : K) :
  let remoteClusterID := RemoteClusterID (Spec localRG) in
  let origin := originClusterID localRG cid in
  let name := qualifiedName origin req in
  let mirror := withName (mirrorObject r localRG req origin (mirrorName localRG req))
                  name in
  (handle _ (Get req) k).1 = inr localRG →
  Annotations localRG ≠ None →
  IsZero (DeletionTimestamp localRG) = true →
  hasFinalizer localRG controller.RGFinalizer = true →
  mapHas (Annotations localRG) controller.DeletionRequested = false →
  (∀ k, (handle _ GetClusterID k).1 = cid) →
  (∀ k, (handle _ (GetConnection remoteClusterID) k).1 = None) →
  (∀ k, (handle _ (GetReplicationGroup remoteClusterID (mirrorName localRG req)) k).1
        = inr rgObj) →
  RemoteClusterID (Spec rgObj) ≠ origin
  ∨ DriverName (Spec rgObj) ≠ DriverName (Spec localRG) →
  (∀ k, (handle _ (CreateReplicationGroup remoteClusterID mirror) k).1 = None) →
  let out := pass r req k in
  ∃ (before : list Entry) answer,
    trace out =
      (before ++
       [ECall (CreateReplicationGroup remoteClusterID mirror) None;
        ELogInfo (Some InfoLevel) "The remote RG has been successfully created!!";
        EEvent (Name localRG) eventTypeNormal eventReasonUpdated
          ("Created remote ReplicationGroup with name: " +:+ name
           +:+ " on cluster: " +:+ remoteClusterID);
        ECall (Update (marked localRG req name)) answer])%list
    ∧ Forall (λ entry, mutates entry = false) before
    ∧ value out = (noRequeue, answer).
Proof.
  intros remoteClusterID origin name mirror
    Hget Hann Hlive Hfin Hreq Hid Hconn Hlook Hstranger Hcreate.
  subst remoteClusterID origin name mirror.
  destruct (pass_reaches_sync handle Unmarshal TimeString r req localRG cid k
              Hget Hann Hlive Hid Hconn) as (before & k' & Ht & Hv & Hb).
  cbv zeta. rewrite Ht, Hv. clear Ht Hv.
  unfold syncBranch, verifyRemote, AddFinalizerIfNotExist.
  simpl. rewrite Hfin. simpl. rewrite Hreq. simpl. rewrite Hlook. simpl.
  destruct (String.eqb (RemoteClusterID (Spec rgObj)) (originClusterID localRG cid))
    eqn:Ho; simpl.
  - destruct Hstranger as [Hs|Hs]; [by apply String.eqb_neq in Hs; congruence|].
    apply String.eqb_neq in Hs. rewrite Hs. simpl.
    unfold withName at 1. simpl. rewrite Hcreate. simpl.
    eexists; eexists. split; [|split; [|reflexivity]].
    + apply ends_with_app. split_trace.
    + apply harmless_then_readonly; [exact Hb | repeat constructor].
  - unfold withName at 1. simpl. rewrite Hcreate. simpl.
    eexists; eexists. split; [|split; [|reflexivity]].
    + apply ends_with_app. split_trace.
    + apply harmless_then_readonly; [exact Hb | repeat constructor].
Qed.

(** X13. A mirror that is not found and whose name contains
    "replicated-replicated" is not created, and the local resource is
    marked as synced all the same: the pass creates no replication group
    and ends with the update that sets [RGSyncComplete] to "yes". *)
Theorem repeated_prefix_is_marked_without_mirror r req localRG cid e (k : K) :
  let remoteClusterID := RemoteClusterID (Spec localRG) in
  (handle _ (Get req) k).1 = inr localRG →
  Annotations localRG ≠ None →
  IsZero (DeletionTimestamp localRG) = true →
  hasFinalizer localRG controller.RGFinalizer = true →
  mapHas (Annotations localRG) controller.DeletionRequested = false →
  syncComplete localRG = false →
  (∀ k, (handle _ GetClusterID k).1 = cid) →
  (∀ k, (handle _ (GetConnection remoteClusterID) k).1 = None) →
  (∀ k, (handle _ (GetReplicationGroup remoteClusterID (mirrorName localRG req)) k).1
        = inl e) →
  IsNotFound e = true →
  Contains (mirrorName localRG req) "replicated-replicated" = true →
  let out := pass r req k in
  ∃ (before : list Entry) answer,
    trace out =
      (before ++ [ECall (Update (marked localRG req (mirrorName localRG req))) answer])%list
    ∧ Forall (λ entry, mutates entry = false) before
    ∧ value out = (noRequeue, answer).
Proof.
  intros remoteClusterID Hget Hann Hlive Hfin Hreq Hsync Hid Hconn Hlook Hnf Hrep.
  subst remoteClusterID.
  destruct (pass_reaches_sync handle Unmarshal TimeString r req localRG cid k
              Hget Hann Hlive Hid Hconn) as (before & k' & Ht & Hv & Hb).
  cbv zeta. rewrite Ht, Hv. clear Ht Hv.
  unfold syncBranch, verifyRemote, AddFinalizerIfNotExist.
  simpl. rewrite Hfin. simpl. rewrite Hreq. simpl. rewrite Hlook. simpl.
  rewrite Hnf, Hsync. simpl. rewrite Hrep. simpl.
  eexists; eexists. split; [|split; [|reflexivity]].
  - apply ends_with_app. split_trace.
  - apply harmless_then_readonly; [exact Hb | repeat constructor].
Qed.

(** X14. When the remote cluster refuses the creation of the mirror, the
    pass records a warning event and returns the error of the creation;
    the local resource is not written: it is not marked as synced. *)
Theorem refused_creation_leaves_local_unmarked r req localRG cid e refusal (k : K) :
  let remoteClusterID := RemoteClusterID (Spec localRG) in
  let mirror := mirrorObject r localRG req (originClusterID localRG cid)
                  (mirrorName localRG req) in
  (handle _ (Get req) k).1 = inr localRG →
  Annotations localRG ≠ None →
  IsZero (DeletionTimestamp localRG) = true →
  hasFinalizer localRG controller.RGFinalizer = true →
  mapHas (Annotations localRG) controller.DeletionRequested = false →
  syncComplete localRG = false →
  (∀ k, (handle _ GetClusterID k).1 = cid) →
  (∀ k, (handle _ (GetConnection remoteClusterID) k).1 = None) →
  (∀ k, (handle _ (GetReplicationGroup remoteClusterID (mirrorName localRG req)) k).1
        = inl e) →
  IsNotFound e = true →
  Contains (mirrorName localRG req) "replicated-replicated" = false →
  (∀ k, (handle _ (CreateReplicationGroup remoteClusterID mirror) k).1
        = Some refusal) →
  let out := pass r req k in
  value out = (noRequeue, Some refusal)
  ∧ Forall (λ entry, writesLocal entry = false) (trace out)
  ∧ ∃ before : list Entry,
      trace out =
        (before ++
         [ECall (CreateReplicationGroup remoteClusterID mirror) (Some refusal);
          ELogError None (Some refusal)
            "failed to create remote CR for DellCSIReplicationGroup";
          EEvent (Name localRG) eventTypeWarning eventReasonUpdated
            ("Failed to create remote CR for DellCSIReplicationGroup on ClusterId: "
             +:+ remoteClusterID)])%list.
Proof.
  intros remoteClusterID mirror
    Hget Hann Hlive Hfin Hreq Hsync Hid Hconn Hlook Hnf Hrep Hcreate.
  subst remoteClusterID mirror.
  destruct (pass_reaches_sync handle Unmarshal TimeString r req localRG cid k
              Hget Hann Hlive Hid Hconn) as (before & k' & Ht & Hv & Hb).
  cbv zeta. rewrite Ht, Hv. clear Ht Hv.
  unfold syncBranch, verifyRemote, AddFinalizerIfNotExist.
  simpl. rewrite Hfin. simpl. rewrite Hreq. simpl. rewrite Hlook. simpl.
  rewrite Hnf, Hsync. simpl. rewrite Hrep. simpl. rewrite Hcreate. simpl.
  split; [reflexivity|]. split.
  - apply Forall_app; split; [|repeat constructor].
    eapply Forall_impl; [exact Hb|]. intros entry [Hm _].
    destruct entry as [T c a| | | |]; try reflexivity.
    destruct c; try reflexivity; discriminate Hm.
  - eexists. apply ends_with_app. split_trace.
Qed.

(** Entries that write nothing write nothing to the mirror. *)
Lemma harmless_writes_no_mirror (before : list Entry) :
  Forall (λ entry, mutates entry = false ∧ isRemoteCall entry = false) before →
  Forall (λ entry, writesMirror entry = false) before.
Proof.
  intros Hb. eapply Forall_impl; [exact Hb|]. intros entry [Hm _].
  destruct entry as [T c a| | | |]; try reflexivity.
  destruct c; try reflexivity; discriminate Hm.
Qed.

(** X15. Once the resource is marked as synced and its mirror is found as
    expected, the pass returns success without a retry whatever the
    processing of the last action does: an error of the action processor
    is never returned to the caller of the pass.  The pass writes nothing
    to the mirror. *)
Theorem action_errors_are_not_returned r req localRG rgObj cid (k : K) :
  let remoteClusterID := RemoteClusterID (Spec localRG) in
  (handle _ (Get req) k).1 = inr localRG →
  syncComplete localRG = true →
  IsZero (DeletionTimestamp localRG) = true →
  hasFinalizer localRG controller.RGFinalizer = true →
  mapHas (Annotations localRG) controller.DeletionRequested = false →
  (∀ k, (handle _ GetClusterID k).1 = cid) →
  (∀ k, (handle _ (GetConnection remoteClusterID) k).1 = None) →
  (∀ k, (handle _ (GetReplicationGroup remoteClusterID (mirrorName localRG req)) k).1
        = inr rgObj) →
  RemoteClusterID (Spec rgObj) = originClusterID localRG cid →
  DriverName (Spec rgObj) = DriverName (Spec localRG) →
  ProtectionGroupID (Spec rgObj) = RemoteProtectionGroupID (Spec localRG) →
  RemoteProtectionGroupID (Spec rgObj) = ProtectionGroupID (Spec localRG) →
  let out := pass r req k in
  value out = (noRequeue, None)
  ∧ Forall (λ entry, writesMirror entry = false) (trace out).
Proof.
  intros remoteClusterID Hget Hsync Hlive Hfin Hreq Hid Hconn Hlook Ho Hd Hp Hq.
  subst remoteClusterID.
  assert (Hann : Annotations localRG ≠ None).
  { intros Hn. unfold syncComplete in Hsync. rewrite Hn in Hsync. discriminate. }
  destruct (pass_reaches_sync handle Unmarshal TimeString r req localRG cid k
              Hget Hann Hlive Hid Hconn) as (before & k' & Ht & Hv & Hb).
  cbv zeta. rewrite Ht, Hv. clear Ht Hv.
  pose proof (action_step_writes_no_mirror handle Unmarshal TimeString) as Hstep.
  unfold syncBranch, verifyRemote, AddFinalizerIfNotExist.
  Opaque processLastActionResult.
  simpl. rewrite Hfin. simpl. rewrite Hreq. simpl. rewrite Hlook. simpl.
  rewrite Ho, Hd, Hp, Hq, !String.eqb_refl, Hsync. simpl.
  split; [reflexivity|].
  apply Forall_app; split; [by apply harmless_writes_no_mirror|].
  repeat (apply Forall_cons; split; [reflexivity|]).
  apply Forall_app; split; [apply Hstep|].
  match goal with
  | |- context [processLastActionResult ?h ?u ?t ?r0 ?g ?rc ?k0] =>
      destruct (value (processLastActionResult h u t r0 g rc k0)).2
  end; repeat constructor.
  Transparent processLastActionResult.
Qed.

(** X16. A last action that carries an error message is reported by a
    warning event and by nothing else: on a synced resource whose mirror
    is found as expected, the pass writes to neither cluster (the action
    is not stamped as processed), records the event and returns
    success. *)
Theorem failed_action_is_reported_by_event r req localRG rgObj cid t (k : K) :
  let remoteClusterID := RemoteClusterID (Spec localRG) in
  let lastAction := StatusLastAction (Status localRG) in
  (handle _ (Get req) k).1 = inr localRG →
  syncComplete localRG = true →
  IsZero (DeletionTimestamp localRG) = true →
  hasFinalizer localRG controller.RGFinalizer = true →
  mapHas (Annotations localRG) controller.DeletionRequested = false →
  (∀ k, (handle _ GetClusterID k).1 = cid) →
  (∀ k, (handle _ (GetConnection remoteClusterID) k).1 = None) →
  (∀ k, (handle _ (GetReplicationGroup remoteClusterID (mirrorName localRG req)) k).1
        = inr rgObj) →
  RemoteClusterID (Spec rgObj) = originClusterID localRG cid →
  DriverName (Spec rgObj) = DriverName (Spec localRG) →
  ProtectionGroupID (Spec rgObj) = RemoteProtectionGroupID (Spec localRG) →
  RemoteProtectionGroupID (Spec rgObj) = ProtectionGroupID (Spec localRG) →
  Conditions (Status localRG) ≠ [] →
  ActionTime lastAction = Some t →
  ErrorMessage lastAction ≠ EmptyString →
  let out := pass r req k in
  value out = (noRequeue, None)
  ∧ Forall (λ entry, mutates entry = false) (trace out)
  ∧ ∃ before : list Entry,
      trace out =
        (before ++
         [EEvent (Name localRG) eventTypeWarning eventReasonUpdated
            ("failed to process the last action " +:+ Condition lastAction);
          ELogInfo (Some InfoLevel)
            "RG has already been synced to the remote cluster"])%list.
Proof.
  intros remoteClusterID lastAction
    Hget Hsync Hlive Hfin Hreq Hid Hconn Hlook Ho Hd Hp Hq Hc Ht Hmsg.
  subst remoteClusterID lastAction.
  assert (Hann : Annotations localRG ≠ None).
  { intros Hn. unfold syncComplete in Hsync. rewrite Hn in Hsync. discriminate. }
  destruct (pass_reaches_sync handle Unmarshal TimeString r req localRG cid k
              Hget Hann Hlive Hid Hconn) as (before & k' & Htr & Hv & Hb).
  cbv zeta. rewrite Htr, Hv. clear Htr Hv.
  unfold syncBranch, verifyRemote, AddFinalizerIfNotExist, processLastActionResult.
  simpl. rewrite Hfin. simpl. rewrite Hreq. simpl. rewrite Hlook. simpl.
  rewrite Ho, Hd, Hp, Hq, !String.eqb_refl, Hsync. simpl.
  destruct (Conditions (Status localRG)) as [|c cs]; [done|].
  rewrite Ht. apply String.eqb_neq in Hmsg. rewrite Hmsg. simpl.
  split; [reflexivity|]. split.
  - apply harmless_then_readonly; [exact Hb | repeat constructor].
  - eexists. apply ends_with_app. split_trace.
Qed.

End Verification.

(** ** The action processor at its edges *)

Section Actions.

Context {K : Type}.
Variable handle : ∀ T, Call T → K → T * K.
Variable Unmarshal : string → error + ActionAnnotation.
Variable TimeString : Time → string.

Local Abbreviation step := (processLastActionResult handle Unmarshal TimeString).
Local Abbreviation materialize := (processSnapshotEvent handle Unmarshal).

(** X17. A due action without snapshot work is stamped and nothing
    else: when the condition of the action does not contain
    "CREATE_SNAPSHOT", or when the resource has no action annotation, the
    step calls nothing on the remote cluster, sends the update that sets
    [ActionProcessedTime] to the time of the action as its only call, and
    returns nil whatever the answer to the update is. *)
Theorem actions_without_snapshot_work_are_only_stamped r group remoteClient t (k : K) :
  let lastAction := StatusLastAction (Status group) in
  Conditions (Status group) ≠ [] →
  ActionTime lastAction = Some t →
  ErrorMessage lastAction = EmptyString →
  mapHas (Annotations group) controller.ActionProcessedTime = true →
  mapGet (Annotations group) controller.ActionProcessedTime ≠ TimeString t →
  Contains (Condition lastAction) "CREATE_SNAPSHOT" = false
  ∨ mapHas (Annotations group) csireplicator.Action = false →
  let stamped := AddAnnotation group controller.ActionProcessedTime (TimeString t) in
  let out := step r group remoteClient k in
  ∃ before : list Entry,
    trace out = (before ++ [ECall (Update stamped) (handle _ (Update stamped) k).1])%list
    ∧ Forall (λ e, isLog e = true) before
    ∧ value out = (stamped, None).
Proof.
  intros lastAction Hc Ht Hmsg Hhas Hdue Hwork. subst lastAction.
  unfold processLastActionResult, processSnapshotEvent.
  destruct (Conditions (Status group)) as [|c cs]; [done|].
  rewrite Ht, Hmsg, Hhas. apply String.eqb_neq in Hdue. rewrite Hdue.
  destruct (Contains _ "CREATE_SNAPSHOT") eqn:Hsnap; simpl.
  - destruct Hwork as [Hw|Hw]; [discriminate|]. rewrite Hw. simpl.
    eexists [_]. split; [reflexivity|]. split; [repeat constructor | reflexivity].
  - exists []. split; [reflexivity|]. split; [constructor | reflexivity].
Qed.

(** X18. When the lookup of the target namespace fails, with whatever
    error, the materializer tries to create the namespace, and when that
    is refused it ends there: it returns an error that names the namespace
    and carries the text of the refusal, and it has looked up no snapshot
    class and created nothing. *)
Theorem refused_namespace_ends_materialization r group remoteClient
    document e refusal (k : K) :
  let namespace := SnapshotNamespace document in
  mapHas (Annotations group) csireplicator.Action = true →
  Unmarshal (mapGet (Annotations group) csireplicator.Action) = inr document →
  (handle _ (GetNamespace remoteClient namespace) k).1 = inl e →
  (∀ k, (handle _ (RemoteCreateNamespace remoteClient (makeNamespaceReference namespace))
           k).1 = Some refusal) →
  let out := materialize r group remoteClient k in
  value out = Some (Errorf ("unable to create the desired namespace " +:+ namespace
                            +:+ ": " +:+ Error refusal))
  ∧ trace out =
      [ECall (GetNamespace remoteClient namespace) (inl e);
       ELogInfo (Some InfoLevel)
         ("Namespace - " +:+ namespace +:+ " not found, creating it.");
       ECall (RemoteCreateNamespace remoteClient (makeNamespaceReference namespace))
         (Some refusal)].
Proof.
  intros namespace Hdoc Hparse Hlook Hcreate. subst namespace.
  unfold processSnapshotEvent, CreateNamespace.
  rewrite Hdoc, Hparse. simpl. rewrite Hlook. simpl. rewrite Hcreate. simpl. done.
Qed.



End Actions.

(** ** The loop over the pairs of a snapshot action *)

Section Loop.

Context {K : Type}.
Variable handle : ∀ T, Call T → K → T * K.

Ltac follow leaf :=
  repeat (simpl;
          match goal with
          | |- Forall _ [] => constructor
          | |- Forall _ (_ :: _) => apply Forall_cons; split; [simpl; leaf ()|]
          | |- Forall _ (_ ++ _) => apply Forall_app; split
          | H : ∀ k, Forall _ (trace (?f k)) |- Forall _ (trace (?f _)) => apply H
          | |- context [if ?b then _ else _] => destruct b eqn:?
          | |- context [match ?x with _ => _ end] => destruct x eqn:?
          end).

(** X21. The loop ends at the first pair that fails: when the pairs
    before [kv] went through and [kv] fails, the entries of the loop are
    those of the pairs before and of [kv], the loop returns the error of
    [kv], and the pairs after [kv] leave no entry. *)
Theorem failed_pair_ends_loop group remoteClient sc shouldCreatePvc storageClass
    namespace pre kv post e (k : K) :
  let before := snapshotPairs handle group remoteClient sc shouldCreatePvc
                  storageClass namespace pre k in
  (value before).1 = None →
  let own := snapshotPair handle group remoteClient sc shouldCreatePvc storageClass
               (value before).2 kv (world before) in
  (value own).1 = Some e →
  let out := snapshotPairs handle group remoteClient sc shouldCreatePvc
               storageClass namespace (pre ++ kv :: post) k in
  trace out = (trace before ++ trace own)%list
  ∧ (value out).1 = Some e
  ∧ world out = world own.
Proof.
  intros before Hbefore own Hown out. subst before own out.
  destruct (snapshotPairs_app handle group remoteClient sc shouldCreatePvc
              storageClass pre (kv :: post) namespace k Hbefore) as (Hv & Hw & Ht).
  rewrite Hv, Hw, Ht.
  cbn [snapshotPairs bind trace value world]. rewrite Hown.
  simpl. rewrite app_nil_r. done.
Qed.

(** The search for a source claim looks volumes up and prints what it
    found; it creates nothing. *)
Lemma findClaim_serves_claims items volumeHandle (k : K) :
  Forall (λ e, entryNamespace e = None ∧ isSnapshotCreation e = false
               ∧ createdClaim e = None)
    (trace (findClaim handle items volumeHandle k)).
Proof.
  revert k. induction items as [|pvc rest IH]; intros k.
  - constructor.
  - simpl. apply Forall_cons; split; [done|].
    destruct (handle _ (GetVolume _) k).1; simpl; [constructor|].
    destruct (String.eqb _ _); simpl; [repeat constructor|].
    apply IH.
Qed.

(** X22. Without claim creation the loop never leaves its namespace and
    never asks for a claim, a volume or a storage class: whatever the
    clusters answer, it ends in the namespace it started in, everything it
    creates is in that namespace, and none of its calls serves a derived
    claim. *)
Theorem without_claims_namespace_is_kept group remoteClient sc storageClass
    pairs : ∀ namespace (k : K),
  let out := snapshotPairs handle group remoteClient sc false storageClass
               namespace pairs k in
  (value out).2 = namespace
  ∧ Forall (λ e, servesClaims e = false
                 ∧ ∀ n, entryNamespace e = Some n → n = namespace)
      (trace out).
Proof.
  induction pairs as [|[volumeHandle snapshotHandle] rest IH]; intros namespace k.
  - split; [reflexivity | constructor].
  - cbn [snapshotPairs bind trace value world].
    assert (Hpair :
      let own := snapshotPair handle group remoteClient sc false storageClass
                   namespace (volumeHandle, snapshotHandle) k in
      (value own).2 = namespace
      ∧ Forall (λ e, servesClaims e = false
                     ∧ ∀ n, entryNamespace e = Some n → n = namespace) (trace own)).
    { unfold snapshotPair, resolveClaim. simpl.
      destruct (handle _ (CreateSnapshotContent _ _) _).1; simpl.
      { split; [reflexivity|].
        repeat (apply Forall_cons; split;
                [split; [reflexivity | intros n Hn; by inversion Hn]|]).
        constructor. }
      destruct (handle _ (CreateSnapshotObject _ _) _).1; simpl;
        (split; [reflexivity|]);
        repeat (apply Forall_cons; split;
                [split; [reflexivity | intros n Hn; by inversion Hn]|]);
        constructor. }
    destruct Hpair as [Hns Hentries].
    destruct (value (snapshotPair _ _ _ _ _ _ _ _ _)).1 eqn:Hstep.
    + simpl. rewrite app_nil_r. split; [exact Hns | exact Hentries].
    + rewrite Hns. destruct (IH namespace
                 (world (snapshotPair handle group remoteClient sc false storageClass
                           namespace (volumeHandle, snapshotHandle) k)))
        as [Hv Hrest].
      split; [exact Hv|]. apply Forall_app; split; [exact Hentries | exact Hrest].
Qed.

(** X23. A storage class with replication enabled gets no derived claim:
    when the storage class of the snapshots is found with its replication
    parameter set to "true", the creation of a claim is skipped without
    error, so that the loop goes on, and the loop over any pairs creates
    no claim at all. *)
Theorem replicating_class_gets_no_claim group remoteClient sc storageClass class :
  (∀ k, (handle _ (GetStorageClass remoteClient storageClass) k).1 = inr class) →
  mapHas (Parameters class) controller.StorageClassReplicationParam = true →
  mapGet (Parameters class) controller.StorageClassReplicationParam = "true" →
  (∀ namespace content pvc (k : K),
     value (createClaim handle remoteClient storageClass namespace content pvc k)
     = None)
  ∧ ∀ shouldCreatePvc pairs namespace (k : K),
      Forall (λ e, createdClaim e = None)
        (trace (snapshotPairs handle group remoteClient sc shouldCreatePvc
                  storageClass namespace pairs k)).
Proof.
  intros Hclass Hhas Htrue.
  assert (Hclaim : ∀ namespace content pvc (k : K),
             let out := createClaim handle remoteClient storageClass namespace
                          content pvc k in
             value out = None ∧ Forall (λ e, createdClaim e = None) (trace out)).
  { intros namespace content pvc k. unfold createClaim. simpl.
    rewrite Hclass, Hhas, Htrue. simpl. split; [reflexivity | repeat constructor]. }
  split; [intros; apply Hclaim|].
  intros shouldCreatePvc pairs.
  induction pairs as [|kv rest IH]; intros namespace k.
  - constructor.
  - cbn [snapshotPairs bind trace value world].
    apply Forall_app; split.
    + pose proof (findClaim_serves_claims) as Hfind.
      assert (Hfind' : ∀ items volumeHandle k,
                 Forall (λ e, createdClaim e = None)
                   (trace (findClaim handle items volumeHandle k))).
      { intros. eapply Forall_impl; [apply Hfind|]. by intros e (_ & _ & He). }
      assert (Hclaim' : ∀ namespace content pvc (k : K),
                 Forall (λ e, createdClaim e = None)
                   (trace (createClaim handle remoteClient storageClass namespace
                             content pvc k))).
      { intros. apply Hclaim. }
      unfold snapshotPair, resolveClaim, getPVCInformation.
      Opaque findClaim createClaim.
      follow ltac:(fun _ => reflexivity);
        first [apply Hfind' | apply Hclaim'].
      Transparent findClaim createClaim.
    + destruct (value (snapshotPair _ _ _ _ _ _ _ _ _)).1; [constructor|apply IH].
Qed.

(** X24. Every claim the loop creates is derived from the snapshot object
    of one of its pairs: its data source is the volume snapshot named
    "snapshot-" followed by the snapshot handle of the pair, its storage
    class is the one configured for snapshots, and it is bound to no
    volume. *)
Theorem derived_claims_come_from_snapshots group remoteClient sc shouldCreatePvc
    storageClass pairs : ∀ namespace (k : K),
  Forall (λ e, ∀ claim, createdClaim e = Some claim →
                 StorageClassName (ClaimSpec claim) = Some storageClass
                 ∧ VolumeName (ClaimSpec claim) = EmptyString
                 ∧ ∃ kv, kv ∈ pairs
                         ∧ DataSource (ClaimSpec claim)
                           = Some {| DataAPIGroup := "snapshot.storage.k8s.io";
                                     DataKind := "VolumeSnapshot";
                                     DataName := "snapshot-" +:+ kv.2 |})
    (trace (snapshotPairs handle group remoteClient sc shouldCreatePvc storageClass
              namespace pairs k)).
Proof.
  induction pairs as [|kv rest IH]; intros namespace k.
  - constructor.
  - cbn [snapshotPairs bind trace value world].
    apply Forall_app; split.
    + assert (Hfind : ∀ items volumeHandle k,
                 Forall (λ e, ∀ claim, createdClaim e = Some claim →
                   StorageClassName (ClaimSpec claim) = Some storageClass
                   ∧ VolumeName (ClaimSpec claim) = EmptyString
                   ∧ ∃ kv0, kv0 ∈ kv :: rest
                            ∧ DataSource (ClaimSpec claim)
                              = Some {| DataAPIGroup := "snapshot.storage.k8s.io";
                                        DataKind := "VolumeSnapshot";
                                        DataName := "snapshot-" +:+ kv0.2 |})
                   (trace (findClaim handle items volumeHandle k))).
      { intros. eapply Forall_impl; [apply findClaim_serves_claims|].
        intros e (_ & _ & He) claim Hc. congruence. }
      unfold snapshotPair, resolveClaim, createClaim, getPVCInformation.
      Opaque findClaim.
      follow ltac:(fun _ =>
                     let claim := fresh "claim" in
                     let Hc := fresh "Hc" in
                     intros claim Hc;
                     first [ discriminate Hc
                           | injection Hc as <-; simpl;
                             split; [reflexivity|]; split; [reflexivity|];
                             exists kv; split; [apply elem_of_cons; by left | reflexivity] ]);
        apply Hfind.
      Transparent findClaim.
    + destruct (value (snapshotPair _ _ _ _ _ _ _ _ _)).1; [constructor|].
      eapply Forall_impl; [apply IH|].
      intros e He claim Hc. destruct (He claim Hc) as (H1 & H2 & kv0 & Hin & H3).
      split; [exact H1|]. split; [exact H2|].
      exists kv0. split; [apply elem_of_cons; by right | exact H3].
Qed.

(** Entries that create no snapshot object are fine whatever comes before
    them. *)
Lemma follows_without_snapshots previous (entries : list Entry) :
  Forall (λ e, isSnapshotCreation e = false) entries →
  snapshotsFollowContents previous entries = true.
Proof.
  intros H. revert previous. induction H as [|e l He _ IH]; intros previous.
  - reflexivity.
  - simpl. rewrite He. apply IH.
Qed.

(** An entry before the trace can only help. *)
Lemma follows_after_any previous (entries : list Entry) :
  snapshotsFollowContents None entries = true →
  snapshotsFollowContents previous entries = true.
Proof.
  destruct entries as [|e l]; [reflexivity|].
  simpl. destruct (isSnapshotCreation e); [discriminate|]. done.
Qed.

Lemma follows_app previous (l1 l2 : list Entry) :
  snapshotsFollowContents previous l1 = true →
  snapshotsFollowContents None l2 = true →
  snapshotsFollowContents previous (l1 ++ l2) = true.
Proof.
  revert previous. induction l1 as [|e l1 IH]; intros previous H1 H2.
  - by apply follows_after_any.
  - simpl in *. apply andb_prop in H1 as [He H1]. rewrite He. simpl.
    by apply IH.
Qed.

Lemma snapshotPair_follows group remoteClient sc shouldCreatePvc storageClass
    namespace kv (k : K) :
  snapshotsFollowContents None
    (trace (snapshotPair handle group remoteClient sc shouldCreatePvc storageClass
              namespace kv k)) = true.
Proof.
  assert (Hfind : ∀ items volumeHandle k previous,
             snapshotsFollowContents previous
               (trace (findClaim handle items volumeHandle k)) = true).
  { intros. apply follows_without_snapshots.
    eapply Forall_impl; [apply findClaim_serves_claims|]. by intros e (_ & He & _). }
  unfold snapshotPair, resolveClaim, createClaim, getPVCInformation, CreateNamespace.
  Opaque findClaim.
  repeat (simpl;
          match goal with
          | |- context [if ?b then _ else _] => destruct b eqn:?
          | |- context [match ?x with _ => _ end] => destruct x eqn:?
          end);
    rewrite ?String.eqb_refl; simpl; try reflexivity.
  all: repeat match goal with
              | |- snapshotsFollowContents _ (_ ++ _) = true => apply follows_app
              end.
  all: first [apply Hfind | simpl; rewrite ?String.eqb_refl; reflexivity].
  Transparent findClaim.
Qed.

Lemma snapshotPairs_follow group remoteClient sc shouldCreatePvc storageClass
    pairs : ∀ namespace (k : K),
  snapshotsFollowContents None
    (trace (snapshotPairs handle group remoteClient sc shouldCreatePvc storageClass
              namespace pairs k)) = true.
Proof.
  induction pairs as [|kv rest IH]; intros namespace k.
  - reflexivity.
  - cbn [snapshotPairs bind trace value world].
    apply follows_app; [apply snapshotPair_follows|].
    destruct (value (snapshotPair _ _ _ _ _ _ _ _ _)).1; [reflexivity | apply IH].
Qed.

(** X25. No snapshot object without its content: whatever the resource
    and the clusters are, every creation of a snapshot object by the
    materializer comes right after the creation of a snapshot content that
    the remote cluster accepted, on the same cluster, and the two are
    bound to each other: the object names the content as its source, the
    content refers to the object by name and namespace, and both are of
    the same snapshot class. *)
Theorem snapshots_follow_their_contents Unmarshal r group remoteClient (k : K) :
  snapshotsFollowContents None
    (trace (processSnapshotEvent handle Unmarshal r group remoteClient k)) = true.
Proof.
  pose proof (snapshotPairs_follow) as Hloop.
  unfold processSnapshotEvent, CreateNamespace.
  Opaque snapshotPairs.
  repeat (simpl;
          match goal with
          | |- context [if ?b then _ else _] => destruct b eqn:?
          | |- context [match ?x with _ => _ end] => destruct x eqn:?
          end);
    try reflexivity.
  all: cbn [bind trace ret value world]; rewrite ?app_nil_r.
  all: apply follows_after_any; apply Hloop.
  Transparent snapshotPairs.
Qed.

End Loop.

(** ** The search for the source claim of a volume *)

Section Claims.

Context {K : Type}.
Variable handle : ∀ T, Call T → K → T * K.

(** X26. When the listing of the source claims fails, the snapshot of the
    pair is taken all the same: the failure is logged, the pair gets no
    claim and stays in its namespace, and once the remote cluster accepts
    the content and the snapshot object the pair succeeds. *)
Theorem unlisted_claims_do_not_stop_the_snapshot group remoteClient sc storageClass
    namespace volumeHandle snapshotHandle e (k : K) :
  (∀ k, (handle _ (ListClaims controller.ReplicationGroup (Name group)) k).1
        = inl e) →
  (∀ k c, (handle _ (CreateSnapshotContent remoteClient c) k).1 = None) →
  (∀ k s, (handle _ (CreateSnapshotObject remoteClient s) k).1 = None) →
  let out := snapshotPair handle group remoteClient sc true storageClass namespace
               (volumeHandle, snapshotHandle) k in
  value out = (None, namespace)
  ∧ ∃ now,
      trace out =
        [ELogInfo (Some InfoLevel)
           ("ActionAttributes - volumeHandle: " +:+ volumeHandle
            +:+ ", snapshotHandle: " +:+ snapshotHandle);
         ECall (ListClaims controller.ReplicationGroup (Name group)) (inl e);
         ELogError (Some ErrorLevel)
           (Some (Errorf ("unable to get pvcs: " +:+ Error e)))
           "unable to get PVC information";
         ECall NowUnix now;
         ECall (CreateSnapshotContent remoteClient
                  (contentFor sc namespace volumeHandle snapshotHandle now)) None;
         ECall (CreateSnapshotObject remoteClient
                  (snapshotFor sc namespace volumeHandle snapshotHandle now)) None].
Proof.
  intros Hlist Hcontent Hsnapshot.
  unfold snapshotPair, resolveClaim, getPVCInformation.
  simpl. rewrite Hlist. simpl. rewrite Hcontent. simpl. rewrite Hsnapshot. simpl.
  split; [reflexivity|]. eexists. reflexivity.
Qed.

(** What the search returns, on any list of claims. *)
Lemma findClaim_sound items volumeHandle : ∀ (k : K) pvc,
  let out := findClaim handle items volumeHandle k in
  (value out).1 = Some pvc →
  (value out).2 = None
  ∧ pvc ∈ items
  ∧ Exists (λ e, volumeFound (VolumeName (ClaimSpec pvc)) volumeHandle e = true)
      (trace out).
Proof.
  induction items as [|item rest IH]; intros k pvc.
  - simpl. discriminate.
  - simpl.
    destruct (handle _ (GetVolume (VolumeName (ClaimSpec item))) k).1 as [e|pv] eqn:Hv;
      simpl; [discriminate|].
    destruct (String.eqb (VolumeHandle pv) volumeHandle) eqn:Hh; simpl.
    + intros H. injection H as <-. split; [reflexivity|].
      split; [apply elem_of_cons; by left|].
      apply Exists_cons. left. simpl. by rewrite String.eqb_refl, Hh.
    + intros H. destruct (IH _ _ H) as (He & Hin & Hex).
      split; [exact He|]. split; [apply elem_of_cons; by right|].
      apply Exists_cons. by right.
Qed.

(** X27. A claim that [getPVCInformation] returns comes without an error,
    is one of the claims the listing answered, and is bound to the volume
    asked for: among the calls there is the lookup of the volume the claim
    names, answered with a volume of the handle asked for. *)
Theorem found_claim_is_listed_and_bound group volumeHandle pvc (k : K) :
  let out := getPVCInformation handle group volumeHandle k in
  (value out).1 = Some pvc →
  (value out).2 = None
  ∧ (∃ items,
       (handle _ (ListClaims controller.ReplicationGroup (Name group)) k).1
       = inr items
       ∧ pvc ∈ items)
  ∧ Exists (λ e, volumeFound (VolumeName (ClaimSpec pvc)) volumeHandle e = true)
      (trace out).
Proof.
  unfold getPVCInformation. simpl.
  destruct (handle _ (ListClaims _ _) k).1 as [e|items] eqn:Hl; simpl;
    [discriminate|].
  intros H. destruct (findClaim_sound _ _ _ _ H) as (He & Hin & Hex).
  split; [exact He|]. split; [by exists items|].
  apply Exists_cons. by right.
Qed.

(** X28. The search ends at the first volume that cannot be looked up:
    when the volumes of the claims before [pvc] are found with other
    handles and the lookup of the volume of [pvc] fails, the search
    returns an error that names that volume and no claim, and it has
    looked up one volume per claim up to [pvc] and none of the claims
    after it, also when one of them is bound to the volume asked for. *)
Theorem volume_failure_ends_search pre pvc post volumeHandle e :
  (∀ k, (handle _ (GetVolume (VolumeName (ClaimSpec pvc))) k).1 = inl e) →
  (∀ p, p ∈ pre →
        ∀ k, ∃ pv, (handle _ (GetVolume (VolumeName (ClaimSpec p))) k).1 = inr pv
                   ∧ VolumeHandle pv ≠ volumeHandle) →
  ∀ k : K,
    let out := findClaim handle (pre ++ pvc :: post) volumeHandle k in
    value out
    = (None, Some (Errorf ("error getting pv " +:+ VolumeName (ClaimSpec pvc)
                           +:+ ": " +:+ Error e)))
    ∧ length (trace out) = S (length pre)
    ∧ Forall (λ entry, isVolumeLookup entry = true) (trace out).
Proof.
  intros Hfail. induction pre as [|p pre IH]; intros Hpre k.
  - simpl. rewrite Hfail. simpl. repeat split. repeat constructor.
  - simpl. destruct (Hpre p (ltac:(apply elem_of_cons; by left)) k) as (pv & -> & Hne).
    apply String.eqb_neq in Hne. rewrite Hne. simpl.
    destruct (IH (λ q Hq, Hpre q (ltac:(apply elem_of_cons; by right)))
                (handle _ (GetVolume (VolumeName (ClaimSpec p))) k).2)
      as (Hv & Hlen & Hall).
    split; [exact Hv|]. split; [by rewrite Hlen|].
    apply Forall_cons; split; [reflexivity | exact Hall].
Qed.

End Claims.

(** ** The mirror as an object *)

Section Mirror.

Context {K : Type}.
Variable handle : ∀ T, Call T → K → T * K.

(** The annotations of a mirror name the original and do not mark the
    mirror as synced. *)
Lemma mirrorAnnotations_name localRG localRGName localClusterID :
  mirrorAnnotations localRG localRGName localClusterID
    !! controller.RemoteReplicationGroup = Some localRGName.
Proof.
  unfold mirrorAnnotations.
  rewrite lookup_insert_ne by done. rewrite lookup_insert_ne by done.
  apply lookup_insert_eq.
Qed.

Lemma mirrorAnnotations_unsynced localRG localRGName localClusterID :
  mirrorAnnotations localRG localRGName localClusterID
    !! controller.RGSyncComplete = None.
Proof.
  unfold mirrorAnnotations.
  rewrite lookup_insert_ne by done. rewrite lookup_insert_ne by done.
  rewrite lookup_insert_ne by done. apply lookup_empty.
Qed.

(** X29. The mirror of a resource, reconciled on the cluster it was
    created on, passes its own verification against the original: the name
    it looks up is the name of the original, and when the original records
    that cluster as its remote one, the verification finds nothing to
    create.  [cidA] is the origin the mirror records, [cidB] the
    identifier of the cluster the mirror lives on. *)
Theorem original_satisfies_mirror_verification r localRG req cidA cidB (k : K) :
  let mirror := mirrorObject r localRG req cidA (mirrorName localRG req) in
  let name := Name mirror in
  let wanted := mirrorObject r mirror name (originClusterID mirror cidB)
                  (mirrorName mirror name) in
  RemoteClusterID (Spec localRG) = cidB →
  cidA ≠ controller.Self →
  req ≠ EmptyString →
  (∀ k, (handle _ (GetReplicationGroup cidA req) k).1 = inr localRG) →
  mirrorName mirror name = req
  ∧ syncComplete mirror = false
  ∧ value (verifyRemote handle mirror wanted name (originClusterID mirror cidB)
             (RemoteClusterID (Spec mirror)) (mirrorName mirror name)
             (syncComplete mirror) k)
    = Proceed false wanted req false.
Proof.
  intros mirror name wanted HB HA Hreq Hlook.
  assert (Hself : String.eqb cidA controller.Self = false) by by apply String.eqb_neq.
  assert (Hname : mirrorName mirror name = req).
  { unfold mirrorName, syncComplete, mirror. simpl.
    rewrite mirrorAnnotations_name, mirrorAnnotations_unsynced. simpl.
    rewrite Hself. simpl.
    apply String.eqb_neq in Hreq. by rewrite Hreq. }
  assert (Hsync : syncComplete mirror = false).
  { unfold syncComplete, mirror. simpl.
    by rewrite mirrorAnnotations_unsynced. }
  split; [exact Hname|]. split; [exact Hsync|].
  subst wanted. rewrite Hname, Hsync.
  unfold verifyRemote. simpl. rewrite Hlook. simpl.
  unfold originClusterID. simpl. rewrite Hself, HB, !String.eqb_refl. simpl.
  reflexivity.
Qed.

(** X30. Every label of the mirror is the driver label, the origin label,
    or the projection of a remote attribute: an attribute whose key starts
    with the context prefix, under the domain followed by the rest of the
    key, with the value of the attribute. *)
Theorem mirror_labels_origin r localRG localClusterID key v :
  mirrorLabels r localRG localClusterID !! key = Some v →
  let contextPrefix := mapGet (Annotations localRG) controller.ContextPrefix in
  (key = controller.DriverName
   ∧ v = mapGet (Labels localRG) controller.DriverName)
  ∨ (key = controller.RemoteClusterID ∧ v = localClusterID)
  ∨ ∃ k, RemoteProtectionGroupAttributes (Spec localRG) !! k = Some v
         ∧ contextPrefix ≠ EmptyString
         ∧ HasPrefix k contextPrefix = true
         ∧ key = Domain r +:+ TrimPrefix k contextPrefix.
Proof.
  intros Hlabel contextPrefix. subst contextPrefix. revert Hlabel.
  unfold mirrorLabels.
  assert (Hbase : ∀ key v,
             (<[controller.RemoteClusterID := localClusterID]>
                (<[controller.DriverName := mapGet (Labels localRG) controller.DriverName]>
                   (∅ : gmap string string))) !! key = Some v →
             (key = controller.DriverName
              ∧ v = mapGet (Labels localRG) controller.DriverName)
             ∨ (key = controller.RemoteClusterID ∧ v = localClusterID)).
  { intros key0 v0 H.
    apply lookup_insert_Some in H as [[<- <-]|[_ H]]; [by right|].
    apply lookup_insert_Some in H as [[<- <-]|[_ H]]; [by left|].
    by rewrite lookup_empty in H. }
  destruct (String.eqb (mapGet (Annotations localRG) controller.ContextPrefix)
              EmptyString) eqn:Hp.
  - intros H. destruct (Hbase _ _ H) as [H'|H']; [by left | by right; left].
  - apply String.eqb_neq in Hp.
    revert key v.
    apply (map_fold_weak_ind
             (λ labels attributes,
                ∀ key v, labels !! key = Some v →
                  (key = controller.DriverName
                   ∧ v = mapGet (Labels localRG) controller.DriverName)
                  ∨ (key = controller.RemoteClusterID ∧ v = localClusterID)
                  ∨ ∃ k, attributes !! k = Some v
                         ∧ mapGet (Annotations localRG) controller.ContextPrefix
                           ≠ EmptyString
                         ∧ HasPrefix k (mapGet (Annotations localRG)
                                          controller.ContextPrefix) = true
                         ∧ key = Domain r
                                 +:+ TrimPrefix k (mapGet (Annotations localRG)
                                                     controller.ContextPrefix))).
    + intros key v H. destruct (Hbase _ _ H) as [H'|H']; [by left | by right; left].
    + intros k x attributes labels Hfresh IH key v.
      destruct (HasPrefix k _) eqn:Hk.
      * intros H. apply lookup_insert_Some in H as [[<- <-]|[_ H]].
        { right; right. exists k. rewrite lookup_insert_eq. done. }
        destruct (IH _ _ H) as [H'|[H'|(k' & Hk' & H')]]; [by left | by right; left|].
        right; right. exists k'. split; [|exact H'].
        rewrite lookup_insert_ne; [exact Hk'|]. intros <-. congruence.
      * intros H.
        destruct (IH _ _ H) as [H'|[H'|(k' & Hk' & H')]]; [by left | by right; left|].
        right; right. exists k'. split; [|exact H'].
        rewrite lookup_insert_ne; [exact Hk'|]. intros <-. congruence.
Qed.

End Mirror.

(** ** The properties above on concrete resources *)

(** X1 on a cluster where the resource is gone. *)
Lemma lookup_failure_ends_pass_witness :
  let out := Reconcile (Script.handle Cases.gone) Memory.decode Memory.timeString
               Sample.reconciler "rg1" 1700000000 in
  value out = (noRequeue, None).
Proof.
  destruct (lookup_failure_ends_pass (Script.handle Cases.gone) Memory.decode
              Memory.timeString Sample.reconciler "rg1" Memory.notFound 1700000000
              eq_refl) as (_ & Hv & _).
  exact Hv.
Defined.

(** X2 at [Sample.fresh], with a remote cluster out of reach. *)
Lemma connection_failure_ends_pass_witness :
  let handle := Outage.handle (Sample.nothingThere Sample.fresh) Outage.unreachable in
  let out := Reconcile handle Memory.decode Memory.timeString Sample.reconciler
               "rg1" 1700000000 in
  value out = (noRequeue, Some Outage.refused).
Proof.
  destruct (connection_failure_ends_pass
              (Outage.handle (Sample.nothingThere Sample.fresh) Outage.unreachable)
              Memory.decode Memory.timeString Sample.reconciler "rg1" Sample.fresh
              Outage.refused 1700000000) as (Hv & _);
    [reflexivity | first [discriminate | vm_compute; discriminate] | intros; reflexivity | exact Hv].
Defined.

(** X3 at [Cases.bare]. *)
Lemma missing_finalizer_is_added_first_witness :
  let handle := Script.handle (Sample.nothingThere Cases.bare) in
  let out := Reconcile handle Memory.decode Memory.timeString Sample.reconciler
               "rg1" 1700000000 in
  ∃ answer, value out = (noRequeue, answer).
Proof.
  destruct (missing_finalizer_is_added_first
              (Script.handle (Sample.nothingThere Cases.bare))
              Memory.decode Memory.timeString Sample.reconciler "rg1" Cases.bare
              1700000000) as (before & answer & _ & _ & Hv);
    [reflexivity | first [discriminate | vm_compute; discriminate] | reflexivity | reflexivity
    | intros; reflexivity | exists answer; exact Hv].
Defined.

(** X4 at [Cases.orphan]. *)
Lemma finalizer_is_added_under_deletion_witness :
  let handle := Script.handle (Sample.nothingThere Cases.orphan) in
  let out := Reconcile handle Memory.decode Memory.timeString Sample.reconciler
               "rg1" 1700000000 in
  ∃ answer, value out = (noRequeue, answer).
Proof.
  destruct (finalizer_is_added_under_deletion
              (Script.handle (Sample.nothingThere Cases.orphan))
              Memory.decode Memory.timeString Sample.reconciler "rg1" Cases.orphan
              1700000000) as (before & answer & _ & _ & Hv);
    [reflexivity | reflexivity | reflexivity | reflexivity
    | intros; reflexivity | exists answer; exact Hv].
Defined.

(** X5 at [Cases.dismissed]. *)
Lemma requested_deletion_deletes_local_witness :
  let handle := Script.handle (Sample.nothingThere Cases.dismissed) in
  let out := Reconcile handle Memory.decode Memory.timeString Sample.reconciler
               "rg1" 1700000000 in
  ∃ answer, value out = (noRequeue, answer).
Proof.
  destruct (requested_deletion_deletes_local
              (Script.handle (Sample.nothingThere Cases.dismissed))
              Memory.decode Memory.timeString Sample.reconciler "rg1" Cases.dismissed
              1700000000) as (before & answer & _ & _ & Hv);
    [reflexivity | reflexivity | reflexivity | reflexivity
    | intros; reflexivity | exists answer; exact Hv].
Defined.

(** X6 at [Sample.discarded], whose mirror is [Sample.leavingMirror]. *)
Lemma deletion_is_requested_from_mirror_witness :
  let handle := Script.handle (Sample.mirrorThere Sample.discarded Sample.leavingMirror) in
  let out := Reconcile handle Memory.decode Memory.timeString Sample.reconciler
               "rg1" 1700000000 in
  ∃ answer,
    value out = match answer with
                | Some e => (noRequeue, Some e)
                | None => ({| Requeue := false; RequeueAfter := 1 * Millisecond |}, None)
                end.
Proof.
  destruct (deletion_is_requested_from_mirror
              (Script.handle (Sample.mirrorThere Sample.discarded Sample.leavingMirror))
              Memory.decode Memory.timeString Sample.reconciler "rg1"
              Sample.discarded Sample.leavingMirror 1700000000)
    as (before & answer & _ & _ & Hv);
    [reflexivity | first [discriminate | vm_compute; discriminate] | reflexivity | reflexivity | reflexivity
    | intros; reflexivity | intros; reflexivity | reflexivity
    | exists answer; exact Hv].
Defined.

(** X7 at [Sample.discarded], whose mirror cannot be looked up. *)
Lemma deletion_lookup_failure_keeps_finalizer_witness :
  let handle := Script.handle (Cases.unreadable Sample.discarded) in
  let out := Reconcile handle Memory.decode Memory.timeString Sample.reconciler
               "rg1" 1700000000 in
  value out = (noRequeue, Some Outage.refused).
Proof.
  destruct (deletion_lookup_failure_keeps_finalizer
              (Script.handle (Cases.unreadable Sample.discarded))
              Memory.decode Memory.timeString Sample.reconciler "rg1"
              Sample.discarded Outage.refused 1700000000) as (Hv & _);
    [reflexivity | first [discriminate | vm_compute; discriminate] | reflexivity | reflexivity
    | intros; reflexivity | intros; reflexivity | reflexivity | exact Hv].
Defined.

(** X11 at [Sample.fresh], whose mirror cannot be looked up. *)
Lemma remote_lookup_failure_requeues_witness :
  let handle := Script.handle (Cases.unreadable Sample.fresh) in
  let out := Reconcile handle Memory.decode Memory.timeString Sample.reconciler
               "rg1" 1700000000 in
  value out = ({| Requeue := true; RequeueAfter := 0 |}, Some Outage.refused).
Proof.
  destruct (remote_lookup_failure_requeues
              (Script.handle (Cases.unreadable Sample.fresh))
              Memory.decode Memory.timeString Sample.reconciler "rg1"
              Sample.fresh "cluster-A" Outage.refused 1700000000) as (Hv & _);
    [reflexivity | first [discriminate | vm_compute; discriminate] | reflexivity | reflexivity | reflexivity
    | intros; reflexivity | intros; reflexivity | intros; reflexivity | reflexivity
    | exact Hv].
Defined.

(** X12 at [Sample.fresh] against [Cases.stranger]. *)
Lemma stranger_is_sidestepped_witness :
  let handle := Script.handle (Sample.mirrorThere Sample.fresh Cases.stranger) in
  let out := Reconcile handle Memory.decode Memory.timeString Sample.reconciler
               "rg1" 1700000000 in
  qualifiedName (originClusterID Sample.fresh "cluster-A") "rg1"
  = "SourceClusterId-cluster-A-rg1"
  ∧ ∃ answer, value out = (noRequeue, answer).
Proof.
  split; [reflexivity|].
  destruct (stranger_is_sidestepped
              (Script.handle (Sample.mirrorThere Sample.fresh Cases.stranger))
              Memory.decode Memory.timeString Sample.reconciler "rg1"
              Sample.fresh Cases.stranger "cluster-A" 1700000000)
    as (before & answer & _ & _ & Hv);
    [reflexivity | first [discriminate | vm_compute; discriminate] | reflexivity | reflexivity | reflexivity
    | intros; reflexivity | intros; reflexivity | intros; reflexivity
    | left; first [discriminate | vm_compute; discriminate] | intros; reflexivity
    | exists answer; exact Hv].
Defined.

(** X13 at [Cases.twice]. *)
Lemma repeated_prefix_is_marked_without_mirror_witness :
  let handle := Script.handle (Sample.nothingThere Cases.twice) in
  let out := Reconcile handle Memory.decode Memory.timeString Sample.reconciler
               "rg1" 1700000000 in
  ∃ answer, value out = (noRequeue, answer).
Proof.
  destruct (repeated_prefix_is_marked_without_mirror
              (Script.handle (Sample.nothingThere Cases.twice))
              Memory.decode Memory.timeString Sample.reconciler "rg1"
              Cases.twice "cluster-A" Memory.notFound 1700000000)
    as (before & answer & _ & _ & Hv);
    [reflexivity | first [discriminate | vm_compute; discriminate] | reflexivity | reflexivity | reflexivity
    | reflexivity | intros; reflexivity | intros; reflexivity | intros; reflexivity
    | reflexivity | reflexivity | exists answer; exact Hv].
Defined.

(** X14 at [Sample.fresh], with a remote cluster that refuses writes. *)
Lemma refused_creation_leaves_local_unmarked_witness :
  let handle := Outage.handle (Sample.nothingThere Sample.fresh) Outage.readOnlyRemote in
  let out := Reconcile handle Memory.decode Memory.timeString Sample.reconciler
               "rg1" 1700000000 in
  value out = (noRequeue, Some Outage.refused)
  ∧ Forall (λ entry, writesLocal entry = false) (trace out).
Proof.
  destruct (refused_creation_leaves_local_unmarked
              (Outage.handle (Sample.nothingThere Sample.fresh) Outage.readOnlyRemote)
              Memory.decode Memory.timeString Sample.reconciler "rg1"
              Sample.fresh "cluster-A" Memory.notFound Outage.refused 1700000000)
    as (Hv & Hw & _);
    [reflexivity | first [discriminate | vm_compute; discriminate] | reflexivity | reflexivity | reflexivity
    | reflexivity | intros; reflexivity | intros; reflexivity | intros; reflexivity
    | reflexivity | reflexivity | intros; reflexivity
    | split; [exact Hv | exact Hw]].
Defined.

(** X15 at [Sample.due], whose mirror is [Cases.counterpart]. *)
Lemma action_errors_are_not_returned_witness :
  let handle := Script.handle (Sample.mirrorThere Sample.due Cases.counterpart) in
  let out := Reconcile handle Memory.decode Memory.timeString Sample.reconciler
               "rg1" 1700000000 in
  value out = (noRequeue, None).
Proof.
  destruct (action_errors_are_not_returned
              (Script.handle (Sample.mirrorThere Sample.due Cases.counterpart))
              Memory.decode Memory.timeString Sample.reconciler "rg1"
              Sample.due Cases.counterpart "cluster-A" 1700000000) as (Hv & _);
    [reflexivity | reflexivity | reflexivity | reflexivity | reflexivity
    | intros; reflexivity | intros; reflexivity | intros; reflexivity
    | reflexivity | reflexivity | reflexivity | reflexivity | exact Hv].
Defined.

(** X16 at [Cases.failed], whose mirror is [Cases.counterpart]. *)
Lemma failed_action_is_reported_by_event_witness :
  let handle := Script.handle (Sample.mirrorThere Cases.failed Cases.counterpart) in
  let out := Reconcile handle Memory.decode Memory.timeString Sample.reconciler
               "rg1" 1700000000 in
  value out = (noRequeue, None)
  ∧ Forall (λ entry, mutates entry = false) (trace out).
Proof.
  destruct (failed_action_is_reported_by_event
              (Script.handle (Sample.mirrorThere Cases.failed Cases.counterpart))
              Memory.decode Memory.timeString Sample.reconciler "rg1"
              Cases.failed Cases.counterpart "cluster-A" 5 1700000000)
    as (Hv & Hm & _);
    [reflexivity | reflexivity | reflexivity | reflexivity | reflexivity
    | intros; reflexivity | intros; reflexivity | intros; reflexivity
    | reflexivity | reflexivity | reflexivity | reflexivity
    | first [discriminate | vm_compute; discriminate] | reflexivity | first [discriminate | vm_compute; discriminate]
    | split; [exact Hv | exact Hm]].
Defined.

(** X17 at [Cases.failedOver]. *)
Lemma actions_without_snapshot_work_are_only_stamped_witness :
  let handle := Script.handle (Sample.nothingThere Cases.failedOver) in
  let out := processLastActionResult handle Memory.decode Memory.timeString
               Sample.reconciler Cases.failedOver "cluster-B" 1700000000 in
  (value out).2 = None
  ∧ mapGet (Annotations (value out).1) controller.ActionProcessedTime
    = Memory.timeString 5.
Proof.
  destruct (actions_without_snapshot_work_are_only_stamped
              (Script.handle (Sample.nothingThere Cases.failedOver))
              Memory.decode Memory.timeString Sample.reconciler Cases.failedOver
              "cluster-B" 5 1700000000) as (before & _ & _ & Hv);
    [first [discriminate | vm_compute; discriminate] | reflexivity | reflexivity | reflexivity
    | first [discriminate | vm_compute; discriminate] | left; reflexivity
    | cbv zeta; rewrite Hv; split; reflexivity].
Defined.

(** X18 at [Sample.due], with a remote cluster that refuses writes. *)
Lemma refused_namespace_ends_materialization_witness :
  let handle := Outage.handle (Sample.nothingThere Sample.due) Outage.readOnlyRemote in
  let out := processSnapshotEvent handle Memory.decode Sample.reconciler Sample.due
               "cluster-B" 1700000000 in
  value out
  = Some (Errorf "unable to create the desired namespace ns1: refused").
Proof.
  destruct (refused_namespace_ends_materialization
              (Outage.handle (Sample.nothingThere Sample.due) Outage.readOnlyRemote)
              Memory.decode Sample.reconciler Sample.due "cluster-B"
              {| SnapshotNamespace := "ns1" |} Memory.notFound Outage.refused
              1700000000) as (Hv & _);
    [reflexivity | reflexivity | reflexivity | intros; reflexivity | exact Hv].
Defined.



(** X21 at two pairs, with a remote cluster that refuses writes: the
    loop ends at the first pair. *)
Lemma failed_pair_ends_loop_witness :
  let handle := Outage.handle (Sample.nothingThere Sample.due) Outage.readOnlyRemote in
  let out := snapshotPairs handle Sample.due "cluster-B" Sample.vxflexosClass false
               "fast" "ns1" [("vol-h1", "snap-h1"); ("vol-h2", "snap-h2")]
               1700000000 in
  (value out).1 = Some Outage.refused.
Proof.
  destruct (failed_pair_ends_loop
              (Outage.handle (Sample.nothingThere Sample.due) Outage.readOnlyRemote)
              Sample.due "cluster-B" Sample.vxflexosClass false "fast" "ns1"
              [] ("vol-h1", "snap-h1") [("vol-h2", "snap-h2")] Outage.refused
              1700000000 eq_refl eq_refl) as (_ & Hv & _).
  exact Hv.
Defined.

(** X23 at the clusters of [Cases.replicating]. *)
Lemma replicating_class_gets_no_claim_witness :
  let handle := Script.handle (Cases.replicating Sample.due) in
  let out := snapshotPairs handle Sample.due "cluster-B" Sample.vxflexosClass true
               "fast" "ns2" [("vol-h1", "snap-h1")] 1700000000 in
  Forall (λ e, createdClaim e = None) (trace out).
Proof.
  destruct (replicating_class_gets_no_claim
              (Script.handle (Cases.replicating Sample.due))
              Sample.due "cluster-B" Sample.vxflexosClass "fast"
              Cases.replicatingClass) as (_ & Hloop);
    [intros; reflexivity | reflexivity | reflexivity | apply Hloop].
Defined.

(** X26 at [Sample.due], with a local cluster whose listing fails. *)
Lemma unlisted_claims_do_not_stop_the_snapshot_witness :
  let handle := Outage.handle (Sample.nothingThere Sample.due) Outage.unlisted in
  let out := snapshotPair handle Sample.due "cluster-B" Sample.vxflexosClass true
               "fast" "ns1" ("vol-h1", "snap-h1") 1700000000 in
  value out = (None, "ns1").
Proof.
  destruct (unlisted_claims_do_not_stop_the_snapshot
              (Outage.handle (Sample.nothingThere Sample.due) Outage.unlisted)
              Sample.due "cluster-B" Sample.vxflexosClass "fast" "ns1"
              "vol-h1" "snap-h1" Outage.refused 1700000000) as (Hv & _);
    [intros; reflexivity | intros; reflexivity | intros; reflexivity | exact Hv].
Defined.

(** X27 at the clusters of [Sample.withClaim]. *)
Lemma found_claim_is_listed_and_bound_witness :
  let handle := Script.handle (Sample.withClaim Sample.due) in
  let out := getPVCInformation handle Sample.due "vol-h1" 1700000000 in
  (value out).2 = None.
Proof.
  destruct (found_claim_is_listed_and_bound
              (Script.handle (Sample.withClaim Sample.due))
              Sample.due "vol-h1" Sample.sourceClaim 1700000000 eq_refl)
    as (Hv & _).
  exact Hv.
Defined.

(** X28 at the claims of [Cases.brokenVolume]: the search for pv1 ends at
    the volume of the second claim. *)
Lemma volume_failure_ends_search_witness :
  let handle := Script.handle Cases.brokenVolume in
  let out := findClaim handle (Script.claims Cases.brokenVolume) "pv1" 1700000000 in
  value out = (None, Some (Errorf "error getting pv pv-gone: refused"))
  ∧ length (trace out) = 2%nat.
Proof.
  destruct (volume_failure_ends_search (Script.handle Cases.brokenVolume)
              [Cases.claimOn "logs" "pv0"] (Cases.claimOn "cache" "pv-gone")
              [Cases.claimOn "data" "pv1"] "pv1" Outage.refused)
    with (k := 1700000000) as (Hv & Hl & _).
  - intros; reflexivity.
  - intros p Hp k. apply elem_of_cons in Hp as [->|Hp]; [|by apply elem_of_nil in Hp].
    eexists. split; [reflexivity | first [discriminate | vm_compute; discriminate]].
  - split; [exact Hv | exact Hl].
Defined.

(** X29 at [Sample.fresh] on cluster-A, mirrored to cluster-B. *)
Lemma original_satisfies_mirror_verification_witness :
  let mirror := mirrorObject Sample.reconciler Sample.fresh "rg1" "cluster-A"
                  (mirrorName Sample.fresh "rg1") in
  mirrorName mirror (Name mirror) = "rg1".
Proof.
  destruct (original_satisfies_mirror_verification
              (Script.handle (Sample.mirrorThere Sample.fresh Sample.fresh))
              Sample.reconciler Sample.fresh "rg1" "cluster-A" "cluster-B"
              1700000000) as (Hn & _);
    [reflexivity | first [discriminate | vm_compute; discriminate] | first [discriminate | vm_compute; discriminate]
    | intros; reflexivity | exact Hn].
Defined.

(** X30 at [Cases.labelled]: the label of the zone comes from the remote
    attribute powerstore/zone. *)
Lemma mirror_labels_origin_witness :
  ∃ k, RemoteProtectionGroupAttributes (Spec Cases.labelled) !! k = Some "east"
       ∧ "replication.storage.dell.com/zone"
         = Domain Sample.reconciler +:+ TrimPrefix k "powerstore".
Proof.
  destruct (mirror_labels_origin Sample.reconciler Cases.labelled "cluster-A"
              "replication.storage.dell.com/zone" "east")
    as [[Hk _]|[[Hk _]|(k & Hk & _ & _ & Hkey)]].
  - vm_compute. reflexivity.
  - vm_compute in Hk. discriminate Hk.
  - vm_compute in Hk. discriminate Hk.
  - exists k. split; [exact Hk | exact Hkey].
Defined.
